(** * Audit engine of scripts/daily-audit.mjs: scoring, selection and analysis

    A shallow embedding of the rule-evaluation-and-scoring core of
    [scripts/daily-audit.mjs].

    Conventions of the embedding.
    - A JavaScript number is a rational ([Q]) and arithmetic is exact; the
      binary rounding of IEEE doubles is not modelled.  Numeric equalities
      are stated with [==] ([Qeq]).
    - [Math.round x] is [floor (x + 1/2)].
    - A field that may be [undefined] is an [option]; [v || d] on such a
      field is written with [or_num] (numbers: [undefined], [NaN] and [0] are
      falsy) and [or_str] (strings: [undefined] and the empty string are
      falsy).
    - A plain object used as a lookup table ([SEVERITY], [RESULT_SCORE],
      [CATEGORY_WEIGHTS], ...) is a function from keys to [option]; only the
      table's own keys are looked up.
    - Strings are byte strings. *)

From Stdlib Require Import QArith Qround Qabs ZArith List String Ascii Bool.
From Stdlib Require Import Lia Lqa Permutation Sorted DecimalString.
Import ListNotations.

Open Scope string_scope.
Open Scope Q_scope.

(** ** JavaScript primitives *)

Module JS.

(** [Math.round]: nearest integer, halves rounded up. *)
Definition Math_round (x : Q) : Z := Qfloor (x + (1 # 2)).

(** [a < b] on numbers. *)
Definition ltb (a b : Q) : bool := negb (Qle_bool b a).

(** [a >= b] on numbers. *)
Definition geb (a b : Q) : bool := Qle_bool b a.

(** [v || d] where [v] is a number or [undefined]. *)
Definition or_num (v : option Q) (d : Q) : Q :=
  match v with
  | Some q => if Qeq_bool q 0 then d else q
  | None => d
  end.

(** [v || d] where [v] is a string or [undefined]. *)
Definition or_str (v : option string) (d : string) : string :=
  match v with
  | Some "" => d
  | Some s => s
  | None => d
  end.

(** Truthiness of a number-or-[undefined]. *)
Definition truthy_num (v : option Q) : bool :=
  match v with
  | Some q => negb (Qeq_bool q 0)
  | None => false
  end.

(** [Number(v) || 0] and [Number(v || 0)] for a number-or-[undefined]. *)
Definition Number_or0 (v : option Q) : Q := or_num v 0.

(** [l.some(p)] *)
Definition some {A} (p : A -> bool) (l : list A) : bool := existsb p l.

(** Sum of a list of numbers (a [reduce] or [forEach] accumulation
    starting from 0). *)
Definition sum (l : list Q) : Q := fold_left Qplus l 0.

End JS.

(** ** Data model of the report *)

Record Check := mkCheck {
  id : string;
  name : string;
  severity : string;
  result : string;
  finding : string
}.

(** What a category evaluator returns: [{ name, weight, checks }]. *)
Record Evaluated := mkEvaluated {
  cat_name : string;
  weight : string;
  checks : list Check
}.

(** A scored category: [{ ...cat, score, grade }]. *)
Record Category := mkCategory {
  evaluated :> Evaluated;
  score : option Q;
  grade : string
}.

(** ** Scoring *)

Definition SEVERITY (k : string) : option Q :=
  if k =? "Critical" then Some 5.0
  else if k =? "High" then Some 3.0
  else if k =? "Medium" then Some 1.5
  else if k =? "Low" then Some 0.5
  else None.

Definition RESULT_SCORE (k : string) : option Q :=
  if k =? "PASS" then Some 1.0
  else if k =? "WARNING" then Some 0.5
  else if k =? "FAIL" then Some 0.0
  else None.

Definition CATEGORY_WEIGHTS (k : string) : option Q :=
  if k =? "Conversion Tracking" then Some 0.25
  else if k =? "Wasted Spend / Negatives" then Some 0.20
  else if k =? "Account Structure" then Some 0.15
  else if k =? "Keywords & Quality Score" then Some 0.15
  else if k =? "Ads & Assets" then Some 0.15
  else if k =? "Settings & Targeting + Bidding" then Some 0.10
  else None.

Definition scoreToGrade (score : option Q) : string :=
  match score with
  | None => "N/A"
  | Some s =>
      if JS.geb s 90 then "A"
      else if JS.geb s 75 then "B"
      else if JS.geb s 60 then "C"
      else if JS.geb s 40 then "D"
      else "F"
  end.

(** [SEVERITY[check.severity] || 1.0] *)
Definition sevWeight (check : Check) : Q :=
  JS.or_num (SEVERITY (severity check)) 1.0.

(** [RESULT_SCORE[check.result] || 0] *)
Definition resultValue (check : Check) : Q :=
  JS.or_num (RESULT_SCORE (result check)) 0.

Definition validChecks (cs : list Check) : list Check :=
  filter (fun c => negb (result c =? "N/A")) cs.

(** The accumulation loop of [scoreCategory]: the pair [(earned, possible)]
    after the checks of [cs] have been visited. *)
Definition scoreLoop (cs : list Check) : Q * Q :=
  fold_left
    (fun '(earned, possible) check =>
       let w := sevWeight check in
       (earned + resultValue check * w, possible + w))
    cs (0, 0).

Definition scoreCategory (category : Evaluated) : option Q * string :=
  let valid := validChecks (checks category) in
  if (List.length valid =? 0)%nat then (None, "N/A")
  else
    let '(earned, possible) := scoreLoop valid in
    let score :=
      if JS.ltb 0 possible
      then inject_Z (JS.Math_round ((earned / possible) * 1000)) / 10
      else 0 in
    (Some score, scoreToGrade (Some score)).

Definition gradeVerdict (grade : string) : string :=
  if grade =? "A" then "Well-optimized account"
  else if grade =? "B" then "Good with improvement opportunities"
  else if grade =? "C" then "Needs attention — notable issues"
  else if grade =? "D" then "Poor — significant problems present"
  else if grade =? "F" then "Urgent intervention required"
  else "Assessment pending".

(** The loop of [calculateOverallScore]: [(totalWeight, weightedScore)]. *)
Definition overallLoop (categories : list Category) : Q * Q :=
  fold_left
    (fun '(totalWeight, weightedScore) cat =>
       match score cat with
       | None => (totalWeight, weightedScore)
       | Some s =>
           let catWeight := JS.or_num (CATEGORY_WEIGHTS (cat_name cat)) 0 in
           (totalWeight + catWeight, weightedScore + s * catWeight)
       end)
    categories (0, 0).

Definition calculateOverallScore (categories : list Category) : Q * string :=
  let '(totalWeight, weightedScore) := overallLoop categories in
  if Qeq_bool totalWeight 0 then (0, "F")
  else
    let healthScore := inject_Z (JS.Math_round (weightedScore / totalWeight)) in
    (healthScore, scoreToGrade (Some healthScore)).

(** ** Strings *)

Module Str.

(** The double-quote character, as a one-character string. *)
Definition dq : string := String (ascii_of_nat 34) "".

(** [s.includes(sub)]: [sub] is a prefix of [s] or occurs further on. *)
Fixpoint includes (s sub : string) : bool :=
  prefix sub s ||
  match s with
  | "" => false
  | String _ r => includes r sub
  end.

Definition lowerAscii (c : ascii) : ascii :=
  let n := nat_of_ascii c in
  if ((65 <=? n) && (n <=? 90))%nat then ascii_of_nat (n + 32) else c.

(** [s.toLowerCase()], on the letters A-Z. *)
Fixpoint toLowerCase (s : string) : string :=
  match s with
  | "" => ""
  | String c r => String (lowerAscii c) (toLowerCase r)
  end.

(** Decimal rendering of a count, as a template literal prints it. *)
Definition ofNat (n : nat) : string := NilZero.string_of_uint (Nat.to_uint n).

Definition isSpace (c : ascii) : bool :=
  let n := nat_of_ascii c in
  ((n =? 32) || ((9 <=? n) && (n <=? 13)))%nat.

Fixpoint trimStart (s : string) : string :=
  match s with
  | "" => ""
  | String c r => if isSpace c then trimStart r else s
  end.

(** [trimEnd] keeps a character when it is not a space or when something
    that is kept follows it. *)
Fixpoint trimEnd (s : string) : string :=
  match s with
  | "" => ""
  | String c r =>
      match trimEnd r with
      | "" => if isSpace c then "" else String c ""
      | r' => String c r'
      end
  end.

(** [s.trim()], on the ASCII white space. *)
Definition trim (s : string) : string := trimEnd (trimStart s).

(** [s.split(/[-_|:]/)[0]]: the part of [s] before its first separator. *)
Fixpoint beforeSeparator (s : string) : string :=
  match s with
  | "" => ""
  | String c r =>
      if (Ascii.eqb c "-" || Ascii.eqb c "_" || Ascii.eqb c "|" || Ascii.eqb c ":")%bool
      then ""
      else String c (beforeSeparator r)
  end.

(** [[...new Set(l)]]: the distinct elements, in order of first occurrence. *)
Fixpoint unique (l : list string) : list string :=
  match l with
  | [] => []
  | x :: r => x :: filter (fun y => negb (y =? x)) (unique r)
  end.

End Str.

(** ** Quick wins *)

Record QuickWin := mkQuickWin {
  action : string;
  impact : string;
  time : string;
  check : string
}.

Import Str.

Definition quickWinActions (k : string) : option string :=
  if k =? "G42" then Some "Set up conversion tracking immediately: Go to Goals > Conversions > New conversion action. Track purchases (e-commerce), form submissions (lead gen), and phone calls. Without this, every dollar spent is unguided."
  else if k =? "G43" then Some "Enable Enhanced Conversions: Go to Goals > Conversions > Settings > Enhanced conversions. This recovers 5-15% of conversions lost to cookie restrictions by using hashed first-party data (email/phone) for attribution."
  else if k =? "G44" then Some "Implement server-side tracking via server-side GTM or Google Ads API offline conversion import to close the 10-25% data gap caused by ad blockers and browser restrictions."
  else if k =? "G47" then Some "Fix conversion action priority: Go to Goals > Conversions. Set only Purchase + Phone Call as Primary (included in bidding). Set everything else (page views, add to cart, engagements) to Secondary. This prevents Smart Bidding from optimizing for micro-actions."
  else if k =? "G-CT1" then Some "Remove duplicate conversion actions: Go to Goals > Conversions and identify actions tracking the same event (e.g., GA4 Purchase + Shopify Purchase). Keep one source per conversion type and set duplicates to Secondary."
  else if k =? "G05" then Some "Create a brand Search campaign: Add exact and phrase match keywords for your brand name. Set budget to capture 95%+ impression share. Brand campaigns typically achieve 30-50x ROAS with $0.50-$1.50 CPCs."
  else if k =? "G36" then Some "Switch to Smart Bidding: Create a campaign experiment (Settings > Experiments) testing Target ROAS or Max Conversions against your current Manual CPC. Run for 2 weeks to compare performance before full commitment."
  else if k =? "G04" then Some "Consolidate fragmented campaigns to give Smart Bidding more conversion data per campaign. Merge campaigns with similar objectives and targeting into 5-10 focused campaigns."
  else if k =? "G14" then Some ("Build 3+ themed negative keyword lists: (1) Competitor names, (2) Job/career terms, (3) " ++ dq ++ "Free/DIY/cheap" ++ dq ++ " terms. Apply to all campaigns via Tools > Shared Library > Negative Keyword Lists. This typically saves 15-20% of wasted spend.")
  else if k =? "G11" then Some ("Fix geo targeting: In each campaign, go to Settings > Locations > Location options. Change from " ++ dq ++ "Presence or Interest" ++ dq ++ " to " ++ dq ++ "Presence: People in or regularly in your targeted locations." ++ dq ++ " This stops ads from showing to out-of-area users.")
  else if k =? "G12" then Some ("Turn off Display Network on Search campaigns: Go to Settings > Networks and uncheck " ++ dq ++ "Include Google Display Network." ++ dq ++ " Search campaigns on Display get <0.5% CTR with poor conversion rates.")
  else if k =? "G56" then Some "Add remarketing audiences: Create audiences in GA4 (all visitors 30d, cart abandoners, past purchasers) and apply to campaigns as observation layers. Remarketing audiences convert 3-5x higher than cold traffic."
  else if k =? "G57" then Some "Upload Customer Match list: Export customer emails/phones from your CRM and upload via Tools > Audience Manager > Customer Match. This enables lookalike targeting and existing customer exclusion."
  else if k =? "G50" then Some "Add 4+ sitelink extensions: Link to your top pages (pricing, reviews, categories, contact). Sitelinks increase CTR by 10-20% and push competitors down the page."
  else if k =? "G53" then Some "Add image extensions to make ads 2-3x more visually prominent, especially on mobile. Upload high-quality product or service images in 1:1 and 1.91:1 aspect ratios."
  else if k =? "G16" then Some "Pause or add negative product groups for zero-converting products with >$100 spend. Redirect that budget to proven high-ROAS products instead."
  else if k =? "G-AD1" then Some "Create new ad variations to combat creative fatigue. Test different value propositions, CTAs, and emotional angles. Keep a control ad running alongside each test."
  else if k =? "G06" then Some "Launch a PMax campaign with proper asset groups: add 20 images, 5 videos, 5 headlines, 5 descriptions, and audience signals (customer lists, website visitors, in-market segments)."
  else if k =? "G08" then Some "Reallocate budget: Increase budget on campaigns with ROAS above target and decrease on underperformers. Focus spend where it generates the most profitable returns."
  else None.

(** [actions[check.id] || check.finding] *)
Definition getQuickWinAction (c : Check) : string :=
  JS.or_str (quickWinActions (id c)) (finding c).

Definition estimatedTimes (k : string) : option string :=
  if k =? "G42" then Some "30 min"
  else if k =? "G43" then Some "5 min"
  else if k =? "G44" then Some "2 hrs"
  else if k =? "G47" then Some "15 min"
  else if k =? "G-CT1" then Some "10 min"
  else if k =? "G05" then Some "30 min"
  else if k =? "G36" then Some "10 min"
  else if k =? "G04" then Some "1 hr"
  else if k =? "G14" then Some "15 min"
  else if k =? "G11" then Some "2 min"
  else if k =? "G12" then Some "2 min"
  else if k =? "G56" then Some "15 min"
  else if k =? "G57" then Some "10 min"
  else if k =? "G50" then Some "15 min"
  else if k =? "G53" then Some "10 min"
  else if k =? "G16" then Some "10 min"
  else if k =? "G-AD1" then Some "30 min"
  else if k =? "G06" then Some "1 hr"
  else if k =? "G08" then Some "15 min"
  else None.

(** [times[checkId] || '15 min'] *)
Definition getEstimatedTime (checkId : string) : string :=
  JS.or_str (estimatedTimes checkId) "15 min".

Definition isQuickWin (c : Check) : bool :=
  (result c =? "FAIL") && ((severity c =? "Critical") || (severity c =? "High")).

Definition identifyQuickWins (categories : list Category) : list QuickWin :=
  let wins :=
    flat_map
      (fun cat : Category =>
         flat_map
           (fun c =>
              if isQuickWin c
              then [mkQuickWin (getQuickWinAction c) (severity c)
                               (getEstimatedTime (id c)) (id c)]
              else [])
           (checks cat))
      categories in
  firstn 7 wins.

(** ** Recommendations, phase 2 *)

Definition recSmartBidding : string :=
  "Test Smart Bidding via campaign experiments: Create an experiment in Settings > Experiments, testing Target ROAS (set 20% below your current ROAS as starting target) or Maximize Conversions against Manual CPC. Run for 2-3 weeks to compare. Smart Bidding typically improves ROAS by 20-30%.".

Definition recAudiences : string :=
  "Build your audience infrastructure: (1) Create remarketing audiences in GA4 — all visitors (30d), cart abandoners, past converters, high-value page visitors. (2) Upload Customer Match lists from your CRM for lookalike expansion and existing customer exclusion. Remarketing audiences convert 3-5x higher than cold traffic.".

Definition recPMax : string :=
  "Launch a PMax campaign with proper setup: Create asset groups by product category or service type, each with 20 images (various aspect ratios), 5 videos, 5 headlines, 5 descriptions, and audience signals (customer lists + website visitors + in-market segments). Start with a daily budget of 3x your target CPA.".

Definition recCreativeRefresh : string :=
  "Refresh ad creative: Test new headline angles (features vs benefits vs urgency vs social proof), update ad descriptions with current offers, and add all available extensions (sitelinks, callouts, structured snippets, images). Creative testing every 4-6 weeks prevents fatigue-driven CTR decline.".

(** The checks with result FAIL or WARNING, in category and check order. *)
Definition failedChecks (categories : list Category) : list Check :=
  flat_map
    (fun cat : Category =>
       filter (fun c => (result c =? "FAIL") || (result c =? "WARNING"))
              (checks cat))
    categories.

Definition highFails (categories : list Category) : list Check :=
  filter (fun c => severity c =? "High") (failedChecks categories).

(** The items of the second phase built by [generateRecommendations]. *)
Definition phase2 (categories : list Category) : list string :=
  (if JS.some (fun c => id c =? "G36") (highFails categories)
   then [recSmartBidding] else []) ++
  (if JS.some (fun c => (id c =? "G56") || (id c =? "G57")) (highFails categories)
   then [recAudiences] else []) ++
  (if JS.some (fun c => id c =? "G06") (failedChecks categories)
   then [recPMax] else []) ++
  [recCreativeRefresh].

(** ** Duplicate conversion actions *)

Definition duplicateKeywords : list string :=
  ["purchase"; "buy"; "order"; "phone"; "call"; "lead"; "form"; "submit"; "contact"].

Definition findDuplicatePatterns (names : list string) : list string :=
  flat_map
    (fun kw =>
       let matches := filter (fun n => includes n kw) names in
       if (1 <? List.length matches)%nat
       then [ofNat (List.length matches) ++ "x " ++ dq ++ kw ++ dq ++ " actions"]
       else [])
    duplicateKeywords.

(** ** The account dataset *)

(** A dataset entry as [safeArray] receives it: missing ([undefined] or
    another falsy value), a value that is not an array, or an array of rows. *)
Inductive Entry (A : Type) : Type :=
| Missing
| NotArray
| Rows (rows : list A).

Arguments Missing {A}.
Arguments NotArray {A}.
Arguments Rows {A} rows.

Definition safeArray {A} (data : Entry A) : list A :=
  match data with
  | Rows rows => rows
  | Missing | NotArray => []
  end.

(** Rows are read through optional chaining only, so a row is the record of
    the leaves the code reads: [r.campaign?.status] is [campaign_status r],
    and [None] stands for [undefined] (the leaf or an object on the path to
    it is absent).  Text leaves hold strings, numeric leaves numbers and
    flags booleans. *)

Record CampaignRow := mkCampaignRow {
  campaign_name : option string;
  campaign_status : option string;
  campaign_advertisingChannelType : option string;
  campaign_biddingStrategyType : option string;
  campaign_networkSettings_targetContentNetwork : option bool
}.

Record BudgetRow := mkBudgetRow {
  campaignBudget_amountMicros : option Q;
  campaign_budget_amount_micros : option Q
}.

(** Rows of [account_metrics], [campaign_metrics] and
    [shopping_performance]. *)
Record MetricsRow := mkMetricsRow {
  metrics_impressions : option Q;
  metrics_clicks : option Q;
  metrics_conversions : option Q;
  metrics_conversionsValue : option Q;
  metrics_conversions_value : option Q;
  metrics_costMicros : option Q;
  metrics_cost_micros : option Q;
  metrics_searchImpressionShare : option Q;
  metrics_search_impression_share : option Q;
  segments_productTitle : option string;
  segments_product_title : option string;
  segments_productItemId : option string
}.

Record ConversionActionRow := mkConversionActionRow {
  conversionAction_name : option string;
  conversionAction_type : option string;
  conversionAction_category : option string;
  conversionAction_status : option string;
  conversionAction_includeInConversionsMetric : option bool
}.

Record AdGroupRow := mkAdGroupRow {
  adGroup_name : option string
}.

Record KeywordRow := mkKeywordRow {
  adGroupCriterion_keyword_matchType : option string;
  adGroupCriterion_qualityInfo_qualityScore : option Q
}.

Record AdRow := mkAdRow {
  adGroupAd_ad_type : option string;
  adGroupAd_adStrength : option string
}.

Record AssetRow := mkAssetRow {
  asset_type : option string
}.

Record GeoRow := mkGeoRow {
  campaign_geoTargetTypeSetting_positiveGeoTargetType : option string
}.

Record NegativeListRow := mkNegativeListRow {
  sharedSet_memberCount : option Q
}.

Record UserListRow := mkUserListRow {
  userList_type : option string
}.

Record AccountDataset := mkAccountDataset {
  campaigns : Entry CampaignRow;
  campaign_budgets : Entry BudgetRow;
  account_metrics : Entry MetricsRow;
  campaign_metrics : Entry MetricsRow;
  conversion_actions : Entry ConversionActionRow;
  ad_groups : Entry AdGroupRow;
  keywords : Entry KeywordRow;
  ads : Entry AdRow;
  assets : Entry AssetRow;
  geo_targeting : Entry GeoRow;
  shopping_performance : Entry MetricsRow;
  negative_lists : Entry NegativeListRow;
  user_lists : Entry UserListRow
}.

(** ** Helpers *)

(** [a || b] where both are a number or [undefined]. *)
Definition orElse (a b : option Q) : option Q :=
  if JS.truthy_num a then a else b.

(** [(Number(micros) || 0) / 1_000_000] *)
Definition microsToDollars (micros : option Q) : Q :=
  JS.Number_or0 micros / 1000000.

(** [a || b || c || d] on strings. *)
Definition firstStr (l : list (option string)) (d : string) : string :=
  fold_right (fun o acc => JS.or_str o acc) d l.

(** [r.metrics?.costMicros || r.metrics?.cost_micros] *)
Definition costOf (r : MetricsRow) : option Q :=
  orElse (metrics_costMicros r) (metrics_cost_micros r).

(** [r.metrics?.conversionsValue || r.metrics?.conversions_value] *)
Definition valueOf (r : MetricsRow) : option Q :=
  orElse (metrics_conversionsValue r) (metrics_conversions_value r).

(** [Array.prototype.sort] with a comparison function: a stable sort that
    puts [a] before [b] when [compareFn a b] is negative. *)
Section Sort.
Context {A : Type} (compareFn : A -> A -> Q).

Fixpoint insertSorted (x : A) (l : list A) : list A :=
  match l with
  | [] => [x]
  | y :: r =>
      if Qle_bool (compareFn x y) 0 then x :: y :: r
      else y :: insertSorted x r
  end.

Definition sort (l : list A) : list A := fold_right insertSorted [] l.
End Sort.

(** ** Product analysis *)

Module Product.
(** An entry of [topWasted] or [topPerforming]; [roas] is [None] for the
    entries of [topWasted], which have no such key. *)
Record t := mk {
  product : string;
  spend : Q;
  conversions : Q;
  value : Q;
  roas : option Q
}.
End Product.

Definition isWasted (r : MetricsRow) : bool :=
  Qeq_bool (JS.Number_or0 (metrics_conversions r)) 0 &&
  JS.ltb 10 (microsToDollars (costOf r)).

Definition wastedEntry (r : MetricsRow) : Product.t :=
  Product.mk
    (firstStr [segments_productTitle r; segments_product_title r;
               segments_productItemId r] "Unknown")
    (inject_Z (JS.Math_round (microsToDollars (costOf r) * 100)) / 100)
    0 0 None.

Definition isPerforming (r : MetricsRow) : bool :=
  JS.ltb 0 (JS.Number_or0 (metrics_conversions r)).

Definition Qmax (a b : Q) : Q := if Qle_bool a b then b else a.

(** The sort key of [topPerforming]. *)
Definition rowRoas (r : MetricsRow) : Q :=
  microsToDollars (valueOf r) / Qmax (microsToDollars (costOf r)) 0.01.

Definition performingEntry (r : MetricsRow) : Product.t :=
  let spend := microsToDollars (costOf r) in
  let value := microsToDollars (valueOf r) in
  Product.mk
    (firstStr [segments_productTitle r; segments_product_title r] "Unknown")
    (inject_Z (JS.Math_round (spend * 100)) / 100)
    (JS.Number_or0 (metrics_conversions r))
    (inject_Z (JS.Math_round value))
    (Some (if JS.ltb 0 spend
           then inject_Z (JS.Math_round ((value / spend) * 10)) / 10
           else 0)).

Definition analyzeProducts (data : AccountDataset) : list Product.t * list Product.t :=
  let products := safeArray (shopping_performance data) in
  if (List.length products =? 0)%nat then ([], [])
  else
    let topWasted :=
      map wastedEntry
        (firstn 8
           (sort (fun a b => microsToDollars (costOf b) - microsToDollars (costOf a))
                 (filter isWasted products))) in
    let topPerforming :=
      map performingEntry
        (firstn 5
           (sort (fun a b => rowRoas b - rowRoas a)
                 (filter isPerforming products))) in
    (topWasted, topPerforming).

(** ** Snapshot *)

Module Snap.
Record t := mk {
  totalCampaigns : nat;
  enabledCampaigns : nat;
  activeCampaignsWithSpend : nat;
  totalAdGroups : nat;
  totalKeywords : nat;
  spend30d : Q;
  impressions30d : Q;
  clicks30d : Q;
  ctr : Q;
  avgCpc : Q;
  conversions30d : Q;
  conversionValue30d : Q;
  roas : Q;
  cpa : Q;
  searchImpressionShare : option Q;
  dailyBudget : Q;
  avgDailySpend : Q
}.
End Snap.

Definition isEnabled (r : CampaignRow) : bool :=
  JS.or_str (campaign_status r) "" =? "ENABLED".

(** [Math.round(x * 100) / 100] *)
Definition toCents (x : Q) : Q := inject_Z (JS.Math_round (x * 100)) / 100.

Definition buildSnapshot (data : AccountDataset) : Snap.t :=
  let campaigns := safeArray (campaigns data) in
  let campaignMetrics := safeArray (campaign_metrics data) in
  let campaignBudgets := safeArray (campaign_budgets data) in
  let acctMetrics := safeArray (account_metrics data) in
  let adGroups := safeArray (ad_groups data) in
  let keywords := safeArray (keywords data) in
  let enabledCampaigns := filter isEnabled campaigns in
  let activeCampaignsWithSpend :=
    List.length (filter (fun r => JS.ltb 0 (microsToDollars (costOf r))) campaignMetrics) in
  let totalSpend := JS.sum (map (fun r => microsToDollars (costOf r)) acctMetrics) in
  let totalImpressions := JS.sum (map (fun r => JS.Number_or0 (metrics_impressions r)) acctMetrics) in
  let totalClicks := JS.sum (map (fun r => JS.Number_or0 (metrics_clicks r)) acctMetrics) in
  let totalConv := JS.sum (map (fun r => JS.Number_or0 (metrics_conversions r)) acctMetrics) in
  let totalConvValue := JS.sum (map (fun r => JS.Number_or0 (valueOf r)) acctMetrics) in
  let ctr :=
    if JS.ltb 0 totalImpressions
    then inject_Z (JS.Math_round ((totalClicks / totalImpressions) * 10000)) / 100
    else 0 in
  let avgCpc := if JS.ltb 0 totalClicks then toCents (totalSpend / totalClicks) else 0 in
  let roas := if JS.ltb 0 totalSpend then toCents (totalConvValue / totalSpend) else 0 in
  let cpa := if JS.ltb 0 totalConv then toCents (totalSpend / totalConv) else 0 in
  let sis :=
    match acctMetrics with
    | [] => None
    | r :: _ => orElse (metrics_searchImpressionShare r) (metrics_search_impression_share r)
    end in
  let sisValue :=
    if JS.truthy_num sis
    then Some (inject_Z (JS.Math_round (JS.Number_or0 sis * 10000)) / 100)
    else None in
  let totalBudget :=
    JS.sum (map (fun r => microsToDollars
                            (orElse (campaignBudget_amountMicros r)
                                    (campaign_budget_amount_micros r)))
                campaignBudgets) in
  Snap.mk
    (List.length campaigns)
    (List.length enabledCampaigns)
    activeCampaignsWithSpend
    (List.length adGroups)
    (List.length keywords)
    (toCents totalSpend)
    totalImpressions
    totalClicks
    ctr
    avgCpc
    (inject_Z (JS.Math_round (totalConv * 10)) / 10)
    (inject_Z (JS.Math_round totalConvValue))
    roas
    cpa
    sisValue
    (inject_Z (JS.Math_round totalBudget))
    (toCents (totalSpend / 30)).

(** ** The check catalog *)

(** [pct(n, d)] *)
Definition pct (n d : Q) : Q :=
  if Qeq_bool d 0 then 0
  else inject_Z (JS.Math_round ((n / d) * 10000)) / 100.

(** [m[k] || 0] for the counting object [m] filled by
    [keys.forEach(k => { m[k] = (m[k] || 0) + 1 })]. *)
Definition countKey (keys : list string) (k : string) : nat :=
  List.length (filter (fun k' => k' =? k) keys).

Definition channelType (r : CampaignRow) : string :=
  JS.or_str (campaign_advertisingChannelType r) "".

Definition conversionType (r : ConversionActionRow) : string :=
  JS.or_str (conversionAction_type r) "".

(** [Σ Number(r.metrics?.conversions || 0)] over the account metric rows. *)
Definition totalConversions (acctMetrics : list MetricsRow) : Q :=
  JS.sum (map (fun r => JS.Number_or0 (metrics_conversions r)) acctMetrics).

(** [sis ? Math.round(Number(sis) * 100) : null] for the first account
    metric row's [searchImpressionShare]. *)
Definition sisPercent (acctMetrics : list MetricsRow) : option Q :=
  let sis := match acctMetrics with
             | [] => None
             | r :: _ => metrics_searchImpressionShare r
             end in
  if JS.truthy_num sis
  then Some (inject_Z (JS.Math_round (JS.Number_or0 sis * 100)))
  else None.

Section Catalog.

(** The finding of a check is templated text that interpolates the counts
    and amounts computed by its evaluator.  Its rendering is kept abstract:
    [findingText data rid] is the text rendered for rule [rid] on [data].
    No id, name, severity or result depends on it. *)
Variable findingText : AccountDataset -> string -> string.

Definition checkConversionTracking (data : AccountDataset) : Evaluated :=
  let convActions := safeArray (conversion_actions data) in
  let acctMetrics := safeArray (account_metrics data) in
  let finding := findingText data in
  let totalConv := totalConversions acctMetrics in
  let convCount := List.length convActions in
  let hasEnhanced :=
    JS.some (fun r => (conversionType r =? "UPLOAD_CLICKS") ||
                      (conversionType r =? "UPLOAD_CALLS")) convActions in
  let hasServerSide :=
    JS.some (fun r => (conversionType r =? "UPLOAD_CLICKS") ||
                      (conversionType r =? "UPLOAD_CALLS") ||
                      (conversionType r =? "STORE_SALES_DIRECT_UPLOAD")) convActions in
  let primaryActions :=
    filter (fun r => match conversionAction_includeInConversionsMetric r with
                     | Some true => true
                     | _ => false
                     end) convActions in
  let microCategories :=
    ["PAGE_VIEW"; "ADD_TO_CART"; "BEGIN_CHECKOUT"; "GET_DIRECTIONS";
     "ENGAGEMENT"; "SUBSCRIBE_PAID"; "OTHER"] in
  let microAsPrimary :=
    filter (fun r => existsb (fun m => m =? JS.or_str (conversionAction_category r) "")
                             microCategories) primaryActions in
  let actionNames :=
    map (fun r => toLowerCase (JS.or_str (conversionAction_name r) "")) convActions in
  let duplicatePatterns := findDuplicatePatterns actionNames in
  let hasGA4 :=
    JS.some (fun r => (conversionType r =? "GOOGLE_ANALYTICS_4") ||
                      includes (toLowerCase (JS.or_str (conversionAction_name r) "")) "ga4")
            convActions in
  let activeActions :=
    filter (fun r => JS.or_str (conversionAction_status r) "" =? "ENABLED") convActions in
  mkEvaluated "Conversion Tracking" "25%"
    [ mkCheck "G42" "Conversion actions defined" "Critical"
        (if (0 <? convCount)%nat then "PASS" else "FAIL") (finding "G42");
      mkCheck "G43" "Enhanced conversions enabled" "Critical"
        (if hasEnhanced then "PASS"
         else if JS.ltb totalConv 30 then "FAIL" else "WARNING") (finding "G43");
      mkCheck "G44" "Server-side tracking" "High"
        (if hasServerSide then "PASS" else "FAIL") (finding "G44");
      mkCheck "G45" "Consent Mode v2 (EU/EEA)" "Critical" "N/A" (finding "G45");
      mkCheck "G46" "Conversion window appropriate" "Medium"
        (if (0 <? convCount)%nat then "WARNING" else "N/A") (finding "G46");
      mkCheck "G47" "Micro vs macro separation" "High"
        (if (List.length microAsPrimary =? 0)%nat then "PASS"
         else if (List.length microAsPrimary <=? 2)%nat then "WARNING" else "FAIL")
        (finding "G47");
      mkCheck "G48" "Attribution model" "Medium" "N/A" (finding "G48");
      mkCheck "G49" "Conversion value assignment" "High"
        (if (0 <? List.length primaryActions)%nat then "WARNING" else "N/A")
        (finding "G49");
      mkCheck "G-CT1" "No duplicate counting" "Critical"
        (if (List.length duplicatePatterns =? 0)%nat then "PASS"
         else if (List.length duplicatePatterns <=? 1)%nat then "WARNING" else "FAIL")
        (finding "G-CT1");
      mkCheck "G-CT2" "GA4 linked and flowing" "High"
        (if hasGA4 then "PASS" else "WARNING") (finding "G-CT2");
      mkCheck "G-CT3" "Google Tag firing" "Critical"
        (if (0 <? List.length activeActions)%nat && JS.ltb 0 totalConv then "PASS"
         else if (0 <? List.length activeActions)%nat then "WARNING" else "FAIL")
        (finding "G-CT3") ].

Definition activeSearch (campaigns : list CampaignRow) : bool :=
  JS.some (fun r => (channelType r =? "SEARCH") && isEnabled r) campaigns.

Definition checkWastedSpend (data : AccountDataset) : Evaluated :=
  let campaigns := safeArray (campaigns data) in
  let negLists := safeArray (negative_lists data) in
  let products := safeArray (shopping_performance data) in
  let finding := findingText data in
  let hasActiveSearch := activeSearch campaigns in
  let hasActiveShopping :=
    JS.some (fun r => ((channelType r =? "SHOPPING") ||
                       (channelType r =? "PERFORMANCE_MAX")) && isEnabled r)
            campaigns in
  let listCount := List.length negLists in
  let g16 :=
    if (0 <? List.length products)%nat then
      let zeroConvProducts :=
        filter (fun r => Qeq_bool (JS.Number_or0 (metrics_conversions r)) 0) products in
      let zeroConvSpend :=
        JS.sum (map (fun r => microsToDollars (metrics_costMicros r)) zeroConvProducts) in
      let totalSpend :=
        JS.sum (map (fun r => microsToDollars (metrics_costMicros r)) products) in
      let wastePct := pct zeroConvSpend totalSpend in
      mkCheck "G16" "Wasted spend on irrelevant terms" "Critical"
        (if JS.ltb wastePct 20 then "PASS"
         else if JS.ltb wastePct 40 then "WARNING" else "FAIL") (finding "G16")
    else
      mkCheck "G16" "Wasted spend on irrelevant terms" "Critical"
        (if hasActiveSearch then "WARNING" else "N/A") (finding "G16") in
  mkEvaluated "Wasted Spend / Negatives" "20%"
    [ mkCheck "G13" "Search term audit recency" "Critical"
        (if hasActiveSearch then "WARNING"
         else if hasActiveShopping then "WARNING" else "N/A") (finding "G13");
      mkCheck "G14" "Negative keyword lists exist" "Critical"
        (if (3 <=? listCount)%nat then "PASS"
         else if (0 <? listCount)%nat then "WARNING" else "FAIL") (finding "G14");
      mkCheck "G15" "Account-level negatives applied" "High"
        (if (0 <? listCount)%nat then "WARNING" else "FAIL") (finding "G15");
      g16;
      mkCheck "G17" "Broad match + smart bidding pairing" "Critical"
        (if hasActiveSearch then "WARNING" else "N/A") (finding "G17");
      mkCheck "G18" "Close variant pollution" "High" "N/A" (finding "G18");
      mkCheck "G19" "Search term visibility" "Medium"
        (if hasActiveSearch then "WARNING" else "N/A") (finding "G19");
      mkCheck "G-WS1" "Zero-conversion keywords" "High"
        (if hasActiveSearch then "WARNING" else "N/A") (finding "G-WS1") ].

Definition checkAccountStructure (data : AccountDataset) : Evaluated :=
  let campaigns := safeArray (campaigns data) in
  let adGroups := safeArray (ad_groups data) in
  let acctMetrics := safeArray (account_metrics data) in
  let campaignBudgets := safeArray (campaign_budgets data) in
  let geoTargeting := safeArray (geo_targeting data) in
  let finding := findingText data in
  let enabledCampaigns := filter isEnabled campaigns in
  let allCampaignNames := map (fun r => JS.or_str (campaign_name r) "") campaigns in
  let prefixes :=
    filter (fun p => negb (p =? ""))
           (map (fun n => trim (beforeSeparator n)) allCampaignNames) in
  let uniquePrefixes := unique prefixes in
  let totalCampaigns := List.length campaigns in
  let hasBrand :=
    JS.some (fun r =>
               let name := toLowerCase (JS.or_str (campaign_name r) "") in
               includes name "brand" && negb (includes name "non-brand") &&
               negb (includes name "non brand")) campaigns in
  let hasPMax := JS.some (fun r => channelType r =? "PERFORMANCE_MAX") campaigns in
  let pmaxEnabled :=
    JS.some (fun r => (channelType r =? "PERFORMANCE_MAX") && isEnabled r) campaigns in
  let hasActiveSearch := JS.some (fun r => channelType r =? "SEARCH") enabledCampaigns in
  let totalBudget :=
    JS.sum (map (fun r => microsToDollars (campaignBudget_amountMicros r))
                campaignBudgets) in
  let totalSpend :=
    JS.sum (map (fun r => microsToDollars (metrics_costMicros r)) acctMetrics) in
  let avgDailySpend := totalSpend / 30 in
  let sisValue := sisPercent acctMetrics in
  let geoTypes :=
    map (fun r => JS.or_str (campaign_geoTargetTypeSetting_positiveGeoTargetType r) "")
        geoTargeting in
  let hasPresenceOnly := JS.some (fun t => t =? "PRESENCE") geoTypes in
  let hasPresenceOrInterest :=
    JS.some (fun t => (t =? "PRESENCE_OR_INTEREST") || (t =? "SEARCH_INTEREST")) geoTypes in
  let displayOn :=
    filter (fun r => (channelType r =? "SEARCH") &&
                     match campaign_networkSettings_targetContentNetwork r with
                     | Some true => true
                     | _ => false
                     end) enabledCampaigns in
  mkEvaluated "Account Structure" "15%"
    [ mkCheck "G01" "Campaign naming convention" "Medium"
        (if (List.length uniquePrefixes <=? 3)%nat then "PASS"
         else if (List.length uniquePrefixes <=? 5)%nat then "WARNING" else "FAIL")
        (finding "G01");
      mkCheck "G02" "Ad group naming convention" "Medium"
        (if (List.length adGroups <? 50)%nat then "PASS" else "WARNING") (finding "G02");
      mkCheck "G03" "Single theme ad groups" "High"
        (if (0 <? List.length adGroups)%nat then "WARNING" else "N/A") (finding "G03");
      mkCheck "G04" "Campaign count per objective" "High"
        (if (totalCampaigns <=? 10)%nat then "PASS"
         else if (totalCampaigns <=? 20)%nat then "WARNING" else "FAIL") (finding "G04");
      mkCheck "G05" "Brand vs Non-Brand separation" "Critical"
        (if hasBrand then "PASS" else "FAIL") (finding "G05");
      mkCheck "G06" "PMax present for eligible accounts" "Medium"
        (if pmaxEnabled then "PASS" else if hasPMax then "WARNING" else "FAIL")
        (finding "G06");
      mkCheck "G07" "Search + PMax overlap" "High"
        (if hasActiveSearch && pmaxEnabled then "WARNING" else "N/A") (finding "G07");
      mkCheck "G08" "Budget allocation matches priority" "High"
        (if (List.length enabledCampaigns <=? 1)%nat &&
            match sisValue with
            | Some v => negb (Qeq_bool v 0) && JS.ltb v 50
            | None => false
            end
         then "FAIL"
         else if (0 <? List.length enabledCampaigns)%nat then "WARNING" else "N/A")
        (finding "G08");
      mkCheck "G09" "Campaign daily budget vs spend" "Medium"
        (if JS.ltb 0 totalBudget && JS.ltb 0 avgDailySpend
         then (if JS.ltb 0.85 (avgDailySpend / totalBudget) then "PASS" else "WARNING")
         else "N/A") (finding "G09");
      mkCheck "G10" "Ad schedule configured" "Low" "N/A" (finding "G10");
      mkCheck "G11" "Geographic targeting accuracy" "High"
        (if hasPresenceOrInterest then "FAIL"
         else if hasPresenceOnly then "PASS" else "WARNING") (finding "G11");
      mkCheck "G12" "Network settings" "High"
        (if (0 <? List.length displayOn)%nat then "FAIL"
         else if (0 <? List.length enabledCampaigns)%nat then "PASS" else "N/A")
        (finding "G12") ].

Definition checkKeywordsQS (data : AccountDataset) : Evaluated :=
  let keywords := safeArray (keywords data) in
  let campaigns := safeArray (campaigns data) in
  let finding := findingText data in
  let hasActiveSearch := activeSearch campaigns in
  if negb hasActiveSearch || (List.length keywords =? 0)%nat then
    mkEvaluated "Keywords & Quality Score" "15%"
      [ mkCheck "G20-G25" "Quality Score checks" "High" "N/A" (finding "G20-G25");
        mkCheck "G-KW1" "Zero-impression keywords" "Medium" "N/A" (finding "G-KW1");
        mkCheck "G-KW2" "Keyword-to-ad relevance" "High" "N/A" (finding "G-KW2") ]
  else
    let qsScores :=
      filter (fun q => JS.ltb 0 q)
             (map (fun r => JS.Number_or0 (adGroupCriterion_qualityInfo_qualityScore r))
                  keywords) in
    let avgQS :=
      if (0 <? List.length qsScores)%nat
      then JS.sum qsScores / inject_Z (Z.of_nat (List.length qsScores))
      else 0 in
    mkEvaluated "Keywords & Quality Score" "15%"
      [ mkCheck "G20-G25" "Quality Score checks" "High"
          (if JS.geb avgQS 7 then "PASS"
           else if JS.geb avgQS 5 then "WARNING" else "FAIL") (finding "G20-G25");
        mkCheck "G-KW1" "Zero-impression keywords" "Medium" "WARNING" (finding "G-KW1");
        mkCheck "G-KW2" "Keyword-to-ad relevance" "High"
          (if JS.geb avgQS 6 then "PASS" else "WARNING") (finding "G-KW2") ].

(** The names of the PMax-specific checks, in the order of the keys of
    [pmaxDetails]. *)
Definition pmaxDetails : list (string * string) :=
  [ ("G-PM1", "PMax audience signals");
    ("G-PM2", "PMax Ad Strength");
    ("G-PM3", "PMax brand cannibalization");
    ("G-PM4", "PMax search themes");
    ("G-PM5", "PMax negative keywords") ].

Definition checkAdsAssets (data : AccountDataset) : Evaluated :=
  let ads := safeArray (ads data) in
  let campaigns := safeArray (campaigns data) in
  let finding := findingText data in
  let hasActiveSearch := activeSearch campaigns in
  let hasPMaxEnabled :=
    JS.some (fun r => (channelType r =? "PERFORMANCE_MAX") && isEnabled r) campaigns in
  let rsaAds :=
    filter (fun r => JS.or_str (adGroupAd_ad_type r) "" =? "RESPONSIVE_SEARCH_AD") ads in
  let rsaWithStrength :=
    filter (fun r => let s := JS.or_str (adGroupAd_adStrength r) "" in
                     (s =? "GOOD") || (s =? "EXCELLENT")) rsaAds in
  let rsa :=
    if hasActiveSearch then
      mkCheck "G26-G30" "RSA checks" "High"
        (if (0 <? List.length rsaAds)%nat
         then (if JS.geb (inject_Z (Z.of_nat (List.length rsaWithStrength)) /
                          inject_Z (Z.of_nat (List.length rsaAds))) 0.5
               then "PASS" else "WARNING")
         else "FAIL") (finding "G26-G30")
    else mkCheck "G26-G30" "RSA checks" "High" "N/A" (finding "G26-G30") in
  let totalAds := List.length ads in
  let acctMetrics := safeArray (account_metrics data) in
  let totalClicks :=
    JS.sum (map (fun r => JS.Number_or0 (metrics_clicks r)) acctMetrics) in
  let totalImpressions :=
    JS.sum (map (fun r => JS.Number_or0 (metrics_impressions r)) acctMetrics) in
  let ctr :=
    if JS.ltb 0 totalImpressions then (totalClicks / totalImpressions) * 100 else 0 in
  mkEvaluated "Ads & Assets" "15%"
    ([ rsa;
       mkCheck "G31-G34" "PMax asset checks" "Critical"
         (if hasPMaxEnabled then "WARNING" else "N/A") (finding "G31-G34");
       mkCheck "G35" "Ad copy relevance to keywords" "High"
         (if hasActiveSearch && (0 <? List.length rsaAds)%nat then "WARNING" else "N/A")
         (finding "G35");
       mkCheck "G-AD1" "Ad freshness" "Medium"
         (if (3 <? totalAds)%nat then "WARNING" else "FAIL") (finding "G-AD1");
       mkCheck "G-AD2" "CTR vs industry benchmark" "High"
         (if JS.ltb 0 ctr then (if JS.geb ctr 2.0 then "PASS" else "WARNING") else "N/A")
         (finding "G-AD2") ] ++
     map (fun '(rid, detailName) =>
            mkCheck rid detailName "High"
              (if hasPMaxEnabled then "WARNING" else "N/A") (finding rid))
         pmaxDetails).

(** An entry of [extDetails]: id, name, asset type, severity, minimum. *)
Definition extDetails : list (string * string * string * string * nat) :=
  [ ("G50", "Sitelink extensions", "SITELINK", "High", 4%nat);
    ("G51", "Callout extensions", "CALLOUT", "Medium", 4%nat);
    ("G52", "Structured snippets", "STRUCTURED_SNIPPET", "Medium", 1%nat);
    ("G53", "Image extensions", "IMAGE", "Medium", 1%nat);
    ("G54", "Call extensions", "CALL", "Medium", 1%nat) ].

Definition checkSettingsTargeting (data : AccountDataset) : Evaluated :=
  let campaigns := safeArray (campaigns data) in
  let assets := safeArray (assets data) in
  let userLists := safeArray (user_lists data) in
  let acctMetrics := safeArray (account_metrics data) in
  let finding := findingText data in
  let enabledCampaigns := filter isEnabled campaigns in
  let biddingTypes :=
    map (fun r => JS.or_str (campaign_biddingStrategyType r) "") enabledCampaigns in
  let hasManualCpc :=
    JS.some (fun b => (b =? "MANUAL_CPC") || (b =? "MANUAL_CPM")) biddingTypes in
  let hasSmartBidding :=
    JS.some (fun b => existsb (fun s => s =? b)
                        ["TARGET_CPA"; "TARGET_ROAS"; "MAXIMIZE_CONVERSIONS";
                         "MAXIMIZE_CONVERSION_VALUE"]) biddingTypes in
  let totalConv := totalConversions acctMetrics in
  let sisValue := sisPercent acctMetrics in
  let assetTypes := map (fun r => JS.or_str (asset_type r) "") assets in
  let remarketingLists :=
    filter (fun r => existsb (fun t => t =? JS.or_str (userList_type r) "")
                             ["REMARKETING"; "RULE_BASED"; "SIMILAR"]) userLists in
  let customerMatch :=
    filter (fun r => JS.or_str (userList_type r) "" =? "CRM_BASED") userLists in
  mkEvaluated "Settings & Targeting + Bidding" "10%"
    ([ mkCheck "G36" "Smart bidding strategy active" "High"
         (if hasSmartBidding then "PASS"
          else if hasManualCpc && JS.ltb totalConv 15 then "WARNING" else "FAIL")
         (finding "G36");
       mkCheck "G39" "Budget constrained campaigns" "High"
         (match sisValue with
          | Some v =>
              if Qeq_bool v 0 then "N/A"
              else if JS.geb v 70 then "PASS"
              else if JS.geb v 40 then "WARNING" else "FAIL"
          | None => "N/A"
          end) (finding "G39");
       mkCheck "G40" "Manual CPC justification" "Medium"
         (if hasManualCpc then (if JS.ltb totalConv 15 then "WARNING" else "FAIL")
          else "PASS") (finding "G40") ] ++
     map (fun '(rid, extName, extType, extSeverity, extMin) =>
            let count := countKey assetTypes extType in
            mkCheck rid extName extSeverity
              (if (extMin <=? count)%nat then "PASS"
               else if (0 <? count)%nat then "WARNING" else "FAIL") (finding rid))
         extDetails ++
     [ mkCheck "G56" "Audience segments applied" "High"
         (if (0 <? List.length remarketingLists)%nat then "PASS" else "FAIL")
         (finding "G56");
       mkCheck "G57" "Customer Match lists" "High"
         (if (0 <? List.length customerMatch)%nat then "PASS" else "FAIL")
         (finding "G57") ]).

(** The six evaluators in the order [runAudit] calls them. *)
Definition evaluators : list (AccountDataset -> Evaluated) :=
  [ checkConversionTracking; checkWastedSpend; checkAccountStructure;
    checkKeywordsQS; checkAdsAssets; checkSettingsTargeting ].

End Catalog.

(** [catResults.map(cat => ({ ...cat, score, grade }))] *)
Definition scoreAll (catResults : list Evaluated) : list Category :=
  map (fun cat => let '(score, grade) := scoreCategory cat in
                  mkCategory cat score grade) catResults.

(** The scored categories of [runAudit]. *)
Definition auditCategories (findingText : AccountDataset -> string -> string)
    (rawData : AccountDataset) : list Category :=
  scoreAll (map (fun evaluate => evaluate rawData) (evaluators findingText)).

(** ** The scoring rules as the specification words them *)

Module Spec.

(** Severity weights: Critical 5.0, High 3.0, Medium 1.5, Low 0.5. *)
Definition severityWeight (sev : string) : Q :=
  if sev =? "Critical" then 5
  else if sev =? "High" then 3
  else if sev =? "Medium" then 3 # 2
  else if sev =? "Low" then 1 # 2
  else 0.

(** Result values: PASS 1.0, WARNING 0.5, FAIL 0.0. *)
Definition resultValue (res : string) : Q :=
  if res =? "PASS" then 1
  else if res =? "WARNING" then 1 # 2
  else 0.




(** Grade bands: >= 90 A, >= 75 B, >= 60 C, >= 40 D, else F. *)
Definition gradeBand (s : Q) : string :=
  if Qlt_le_dec s 40 then "F"
  else if Qlt_le_dec s 60 then "D"
  else if Qlt_le_dec s 75 then "C"
  else if Qlt_le_dec s 90 then "B"
  else "A".

Definition possible (cs : list Check) : Q :=
  JS.sum (map (fun c => severityWeight (severity c)) cs).

Definition earned (cs : list Check) : Q :=
  JS.sum (map (fun c => severityWeight (severity c) * resultValue (result c)) cs).

(** A check as the data model types it. *)
Definition wellFormed (c : Check) : Prop :=
  In (severity c) ["Critical"; "High"; "Medium"; "Low"] /\
  In (result c) ["PASS"; "WARNING"; "FAIL"; "N/A"].

(** The six categories, in their fixed order, with their weights. *)
Definition categoryNames : list string :=
  ["Conversion Tracking"; "Wasted Spend / Negatives"; "Account Structure";
   "Keywords & Quality Score"; "Ads & Assets";
   "Settings & Targeting + Bidding"].




(** All the checks of the categories, in category order and, within a
    category, in check order. *)
Definition allChecks (categories : list Category) : list Check :=
  flat_map (fun cat : Category => checks cat) categories.

(** The quick win made from a check. *)
Definition toQuickWin (c : Check) : QuickWin :=
  mkQuickWin (getQuickWinAction c) (severity c) (getEstimatedTime (id c)) (id c).

Definition isFailOrWarning (c : Check) : bool :=
  (result c =? "FAIL") || (result c =? "WARNING").

(** [sub] occurs in [s]. *)
Definition contains (s sub : string) : Prop :=
  exists pre post, s = pre ++ sub ++ post.

(** The number of names that contain the keyword. *)
Definition countContaining (kw : string) (names : list string) : nat :=
  List.length (filter (fun n => includes n kw) names).

(** The pattern reported for a keyword found in [n] names. *)
Definition pattern (n : nat) (kw : string) : string :=
  ofNat n ++ "x " ++ dq ++ kw ++ dq ++ " actions".

(** A check without its finding. *)
Definition verdict (c : Check) : string * string * string * string :=
  (id c, name c, severity c, result c).

(** Two datasets hold the same rows once each entry is read through
    [safeArray]. *)
Definition sameRows (d1 d2 : AccountDataset) : Prop :=
  safeArray (campaigns d1) = safeArray (campaigns d2) /\
  safeArray (campaign_budgets d1) = safeArray (campaign_budgets d2) /\
  safeArray (account_metrics d1) = safeArray (account_metrics d2) /\
  safeArray (campaign_metrics d1) = safeArray (campaign_metrics d2) /\
  safeArray (conversion_actions d1) = safeArray (conversion_actions d2) /\
  safeArray (ad_groups d1) = safeArray (ad_groups d2) /\
  safeArray (keywords d1) = safeArray (keywords d2) /\
  safeArray (ads d1) = safeArray (ads d2) /\
  safeArray (assets d1) = safeArray (assets d2) /\
  safeArray (geo_targeting d1) = safeArray (geo_targeting d2) /\
  safeArray (shopping_performance d1) = safeArray (shopping_performance d2) /\
  safeArray (negative_lists d1) = safeArray (negative_lists d2) /\
  safeArray (user_lists d1) = safeArray (user_lists d2).

(** The dataset in which every entry is an empty array. *)
Definition noRows : AccountDataset :=
  mkAccountDataset (Rows []) (Rows []) (Rows []) (Rows []) (Rows []) (Rows [])
                   (Rows []) (Rows []) (Rows []) (Rows []) (Rows []) (Rows [])
                   (Rows []).

(** The rule ids of the six categories. *)
Definition ruleIds : list (list string) :=
  [ ["G42"; "G43"; "G44"; "G45"; "G46"; "G47"; "G48"; "G49"; "G-CT1"; "G-CT2";
     "G-CT3"];
    ["G13"; "G14"; "G15"; "G16"; "G17"; "G18"; "G19"; "G-WS1"];
    ["G01"; "G02"; "G03"; "G04"; "G05"; "G06"; "G07"; "G08"; "G09"; "G10";
     "G11"; "G12"];
    ["G20-G25"; "G-KW1"; "G-KW2"];
    ["G26-G30"; "G31-G34"; "G35"; "G-AD1"; "G-AD2"; "G-PM1"; "G-PM2"; "G-PM3";
     "G-PM4"; "G-PM5"];
    ["G36"; "G39"; "G40"; "G50"; "G51"; "G52"; "G53"; "G54"; "G56"; "G57"] ].

(** The results of the six categories when no entry holds a row. *)
Definition resultsWithoutData : list (list string) :=
  [ ["FAIL"; "FAIL"; "FAIL"; "N/A"; "N/A"; "PASS"; "N/A"; "N/A"; "PASS";
     "WARNING"; "FAIL"];
    ["N/A"; "FAIL"; "FAIL"; "N/A"; "N/A"; "N/A"; "N/A"; "N/A"];
    ["PASS"; "PASS"; "N/A"; "PASS"; "FAIL"; "FAIL"; "N/A"; "N/A"; "N/A"; "N/A";
     "WARNING"; "N/A"];
    ["N/A"; "N/A"; "N/A"];
    ["N/A"; "N/A"; "N/A"; "FAIL"; "N/A"; "N/A"; "N/A"; "N/A"; "N/A"; "N/A"];
    ["FAIL"; "N/A"; "PASS"; "FAIL"; "FAIL"; "FAIL"; "FAIL"; "FAIL"; "FAIL";
     "FAIL"] ].


End Spec.

(** ** Sample inputs *)

Definition noFinding (data : AccountDataset) (rid : string) : string := "".

Definition emptyDataset : AccountDataset :=
  mkAccountDataset Missing Missing Missing Missing Missing Missing Missing
                   Missing Missing Missing Missing Missing Missing.

(** An account metric row with the given impressions, clicks and search
    impression share. *)
Definition trafficRow (impressions clicks : Q) (share : option Q) : MetricsRow :=
  mkMetricsRow (Some impressions) (Some clicks) None None None None None
               share None None None None.

Definition trafficDataset (rows : list MetricsRow) : AccountDataset :=
  mkAccountDataset Missing Missing (Rows rows) Missing Missing Missing Missing
                   Missing Missing Missing Missing Missing Missing.

(** A shopping row: product title, cost in micros, conversions and
    conversion value in micros. *)
Definition productRow (title : string) (costMicros : Q)
    (conversions conversionsValue : option Q) : MetricsRow :=
  mkMetricsRow None None conversions conversionsValue None (Some costMicros) None
               None None (Some title) None None.

Definition shoppingDataset (rows : list MetricsRow) : AccountDataset :=
  mkAccountDataset Missing Missing Missing Missing Missing Missing Missing
                   Missing Missing Missing (Rows rows) Missing Missing.


(** A zero-conversion product that spent $50 and still carries a conversion
    value of $12. *)
Definition valuedWasteDataset : AccountDataset :=
  shoppingDataset [ productRow "Widget C" 50000000 (Some 0) (Some 12000000) ].

(** A dataset whose entries are missing, not arrays or empty arrays. *)
Definition absentDataset : AccountDataset :=
  mkAccountDataset Missing NotArray (Rows []) Missing NotArray (Rows []) Missing
                   NotArray (Rows []) Missing NotArray (Rows []) Missing.

Definition namedAction (n : string) : ConversionActionRow :=
  mkConversionActionRow (Some n) None None None None.

(** Conversion actions "Purchase - GA4", "Purchase - Shopify", "Lead Form". *)
Definition purchaseDataset : AccountDataset :=
  mkAccountDataset Missing Missing Missing Missing
    (Rows [namedAction "Purchase - GA4"; namedAction "Purchase - Shopify";
           namedAction "Lead Form"])
    Missing Missing Missing Missing Missing Missing Missing Missing.

Definition demoChecks : list Check :=
  [ mkCheck "G42" "Conversion actions defined" "Critical" "PASS" "ok";
    mkCheck "G44" "Server-side tracking" "High" "FAIL" "none";
    mkCheck "G46" "Conversion window appropriate" "Medium" "WARNING" "verify";
    mkCheck "G10" "Ad schedule configured" "Low" "N/A" "no data" ].


Definition demoCategories : list Category :=
  map (fun '(n, w, s) => mkCategory (mkEvaluated n w demoChecks) s (scoreToGrade s))
      [ ("Conversion Tracking", "25%", Some 80);
        ("Wasted Spend / Negatives", "20%", Some 60);
        ("Account Structure", "15%", Some 100);
        ("Keywords & Quality Score", "15%", Some 40);
        ("Ads & Assets", "15%", Some 70);
        ("Settings & Targeting + Bidding", "10%", None) ].


(** ** Proof automation *)

(** Decide the conditionals that choose between whole checks or whole
    categories, then conclude by computation. *)
Ltac split_branches :=
  repeat match goal with
         | |- context [if ?b then ?x else _] =>
             match type of x with
             | Check => destruct b
             | Evaluated => destruct b
             end
         end;
  reflexivity.

(** Replace the rows of one dataset by those of a dataset with the same
    rows, then decide the branches. *)
Ltac same_rows H :=
  destruct H as (H1 & H2 & H3 & H4 & H5 & H6 & H7 & H8 & H9 & H10 & H11 & H12 & H13);
  rewrite ?H1, ?H2, ?H3, ?H4, ?H5, ?H6, ?H7, ?H8, ?H9, ?H10, ?H11, ?H12, ?H13;
  split_branches.

(** ** Further sample inputs and helpers for the properties *)

(** The position of a grade on the scale F < D < C < B < A. *)
Definition gradeRank (g : string) : nat :=
  if g =? "A" then 4
  else if g =? "B" then 3
  else if g =? "C" then 2
  else if g =? "D" then 1
  else 0.


Definition failingCheck : Check :=
  mkCheck "G44" "Server-side tracking" "High" "FAIL" "none".

Definition passingCheck : Check :=
  mkCheck "G44" "Server-side tracking" "High" "PASS" "active".




(** The severity of each rule, by category. *)
Definition ruleSeverities : list (list (string * string)) :=
  [ [("G42", "Critical"); ("G43", "Critical"); ("G44", "High"); ("G45", "Critical");
     ("G46", "Medium"); ("G47", "High"); ("G48", "Medium"); ("G49", "High");
     ("G-CT1", "Critical"); ("G-CT2", "High"); ("G-CT3", "Critical")];
    [("G13", "Critical"); ("G14", "Critical"); ("G15", "High"); ("G16", "Critical");
     ("G17", "Critical"); ("G18", "High"); ("G19", "Medium"); ("G-WS1", "High")];
    [("G01", "Medium"); ("G02", "Medium"); ("G03", "High"); ("G04", "High");
     ("G05", "Critical"); ("G06", "Medium"); ("G07", "High"); ("G08", "High");
     ("G09", "Medium"); ("G10", "Low"); ("G11", "High"); ("G12", "High")];
    [("G20-G25", "High"); ("G-KW1", "Medium"); ("G-KW2", "High")];
    [("G26-G30", "High"); ("G31-G34", "Critical"); ("G35", "High"); ("G-AD1", "Medium");
     ("G-AD2", "High"); ("G-PM1", "High"); ("G-PM2", "High"); ("G-PM3", "High");
     ("G-PM4", "High"); ("G-PM5", "High")];
    [("G36", "High"); ("G39", "High"); ("G40", "Medium"); ("G50", "High");
     ("G51", "Medium"); ("G52", "Medium"); ("G53", "Medium"); ("G54", "Medium");
     ("G56", "High"); ("G57", "High")] ].

(** The id and severity of a check. *)
Definition idSeverity (c : Check) : string * string := (id c, severity c).

(** Decide the conditionals and option matches of a goal about one check. *)
Ltac decide_check :=
  repeat match goal with
         | |- context [if ?b then _ else _] => destruct b
         | |- context [match ?x with Some _ => _ | None => _ end] => destruct x
         end;
  cbn [In]; auto 10.

(** Prove that every check of an explicit list is well formed. *)
Ltac well_formed_checks :=
  repeat match goal with
         | |- context [if ?b then ?x else _] =>
             match type of x with
             | Check => destruct b
             | Evaluated => destruct b
             end
         end;
  cbn [checks app map pmaxDetails extDetails];
  repeat (apply Forall_cons; [split; cbn [severity result]; decide_check|]);
  apply Forall_nil.

(** ** Industry detection *)

Definition detectIndustry (accountName : string) (data : AccountDataset) : string :=
  let name := toLowerCase accountName in
  let campaigns := safeArray (campaigns data) in
  let convActions := safeArray (conversion_actions data) in
  let products := safeArray (shopping_performance data) in
  if (0 <? List.length products)%nat then "E-commerce"
  else if JS.some (fun r => let cat := JS.or_str (conversionAction_category r) "" in
                            (cat =? "PURCHASE") || (cat =? "ADD_TO_CART")) convActions
  then "E-commerce"
  else if JS.some (fun r => (channelType r =? "SHOPPING") ||
                            (channelType r =? "PERFORMANCE_MAX")) campaigns
  then "E-commerce"
  else if includes name "law" || includes name "legal" || includes name "attorney"
  then "Legal"
  else if includes name "real estate" || includes name "realty" ||
          includes name "roofing" || includes name "contracting" ||
          includes name "construction"
  then "Local Services"
  else if includes name "spa" || includes name "skin" || includes name "dental" ||
          includes name "health" || includes name "diet" || includes name "dna"
  then "Healthcare"
  else if includes name "tour" || includes name "travel" || includes name "station"
  then "Travel"
  else if includes name "engineering" then "Local Services"
  else if includes name "tree" then "Local Services"
  else "General".

(** The keys of [BENCHMARKS]. *)
Definition benchmarkIndustries : list string :=
  [ "E-commerce"; "Local Services"; "Legal"; "B2B SaaS"; "Healthcare"; "Finance";
    "Real Estate"; "Education"; "Travel"; "General" ].

(** ** Slugs *)

Definition isSlugChar (c : ascii) : bool :=
  let n := nat_of_ascii c in
  (((97 <=? n) && (n <=? 122)) || ((48 <=? n) && (n <=? 57)))%nat.

(** [.replace(/['']/g, '')] *)
Fixpoint removeApostrophes (s : string) : string :=
  match s with
  | "" => ""
  | String c r =>
      if Ascii.eqb c "'" then removeApostrophes r else String c (removeApostrophes r)
  end.

(** [.replace(/[^a-z0-9]+/g, '-')]: every maximal run of characters outside
    a-z and 0-9 becomes one hyphen; [inRun] tells that the previous character
    belongs to the run being replaced. *)
Fixpoint hyphenate (inRun : bool) (s : string) : string :=
  match s with
  | "" => ""
  | String c r =>
      if isSlugChar c then String c (hyphenate false r)
      else if inRun then hyphenate true r
      else String "-" (hyphenate true r)
  end.

Definition dropLeadingHyphen (s : string) : string :=
  match s with
  | String c r => if Ascii.eqb c "-" then r else s
  | "" => ""
  end.

Fixpoint dropTrailingHyphen (s : string) : string :=
  match s with
  | "" => ""
  | String c r =>
      match r with
      | "" => if Ascii.eqb c "-" then "" else s
      | _ => String c (dropTrailingHyphen r)
      end
  end.

(** [.replace(/^-|-$/g, '')] *)
Definition trimHyphens (s : string) : string :=
  dropTrailingHyphen (dropLeadingHyphen s).

Definition slugify (name : string) : string :=
  trimHyphens (hyphenate false (removeApostrophes (toLowerCase name))).

(** Groups of characters of a-z and 0-9 separated by single hyphens;
    [afterHyphen] tells that a group has to start here. *)
Fixpoint slugTail (afterHyphen : bool) (s : string) : bool :=
  match s with
  | "" => negb afterHyphen
  | String c r =>
      if isSlugChar c then slugTail false r
      else Ascii.eqb c "-" && negb afterHyphen && slugTail true r
  end.

(** The shape of a slug: empty, or groups separated by single hyphens. *)
Definition isSlug (s : string) : bool :=
  match s with
  | "" => true
  | _ => slugTail true s
  end.

(** As [slugTail], but the string may end with a hyphen. *)
Fixpoint hyphenated (afterHyphen : bool) (s : string) : bool :=
  match s with
  | "" => true
  | String c r =>
      if isSlugChar c then hyphenated false r
      else Ascii.eqb c "-" && negb afterHyphen && hyphenated true r
  end.

(** ** Recommendations, phases 1 and 3 *)

Definition recCleanTracking : string :=
  "Clean up conversion tracking — audit all conversion actions, set only true business outcomes (Purchase, Lead Form, Phone Call) as Primary, and set all micro-actions (page views, add-to-cart, engagements) to Secondary. This is the single most impactful change because it fixes the data that drives all optimization decisions.".

Definition recEnhancedConversions : string :=
  "Enable Enhanced Conversions for the primary conversion action. Navigate to Goals > Conversions > Settings and turn on Enhanced Conversions. This uses hashed first-party data to recover 5-15% of conversions lost to cookie restrictions — directly improving Smart Bidding accuracy.".

Definition recBrandCampaign : string :=
  "Launch a brand Search campaign immediately to protect your branded search terms. Competitors can bid on your brand name at low cost. Create exact + phrase match keywords for your brand name, set a sufficient budget to capture 95%+ impression share. Brand campaigns typically deliver 30-50x ROAS.".

Definition recNegativeLists : string :=
  ("Build 3+ themed negative keyword lists and apply to all campaigns: (1) Competitor brand names, (2) Job/career/hiring terms, (3) " ++ dq ++ "Free/cheap/DIY" ++ dq ++ " qualifiers. This typically eliminates 15-20% of wasted spend immediately.").

Definition recGeoTargeting : string :=
  ("Fix geographic targeting in all campaigns — switch from " ++ dq ++ "Presence or Interest" ++ dq ++ " to " ++ dq ++ "Presence only" ++ dq ++ " in Settings > Locations > Location options. This stops your ads from showing to users merely interested in your location but who are physically elsewhere and unlikely to convert.").

Definition recNoCriticalFailures : string :=
  "No critical failures found — review and address remaining Warning-level items to move toward an A-grade account.".

Definition recBudgetScaling : string :=
  "Increase impression share on your highest-ROAS campaigns by raising budgets incrementally (10-15% per week) and monitoring for CPA/ROAS stability.".

Definition recDemandGen : string :=
  "Test Demand Gen campaigns for upper-funnel awareness — these reach users across YouTube, Gmail, and Discover with visually engaging ads, driving new-to-brand traffic at lower CPMs than Search.".

Definition recServerSide : string :=
  "Implement server-side tracking via server-side GTM or direct API conversion imports to improve data quality by 10-25%. This ensures Smart Bidding has the most accurate conversion signals possible.".

(** The impression-share recommendation, around the rendered share. *)
Definition recImpressionShare (share : string) : string :=
  "Increase Search Impression Share from " ++ share ++ "% toward 50%+ on converting campaigns. This is done by increasing budget, improving Quality Score, and consolidating campaigns to focus spend where it performs best.".

(** The volume recommendation, around the rendered conversion count. *)
Definition recVolume (count : string) : string :=
  "With " ++ count ++ " conversions/month, you have enough data to scale. Increase budget by 10-15% weekly on campaigns meeting your ROAS/CPA targets. Monitor for 1 week between each increase to ensure stability.".

(** Decimal rendering of an integer, as a template literal prints it. *)
Definition ofZ (z : Z) : string := NilZero.string_of_int (Z.to_int z).

Section Recommendations.

(** The decimal rendering of a number that is not an integer is kept
    abstract: [showNumber q] is the text a template literal prints for the
    number [q]. *)
Variable showNumber : Q -> string.

(** The Critical checks with result FAIL. *)
Definition criticalFails (categories : list Category) : list Check :=
  filter (fun c => (severity c =? "Critical") && (result c =? "FAIL"))
         (failedChecks categories).

Definition phase1 (categories : list Category) : list string :=
  let fails := criticalFails categories in
  let items : list string :=
    ((if JS.some (fun c => prefix "G4" (id c) || prefix "G-CT" (id c)) fails
      then [recCleanTracking] else []) ++
     (if JS.some (fun c => id c =? "G43") fails then [recEnhancedConversions] else []) ++
     (if JS.some (fun c => id c =? "G05") fails then [recBrandCampaign] else []) ++
     (if JS.some (fun c => id c =? "G14") fails then [recNegativeLists] else []) ++
     (if JS.some (fun c => id c =? "G11") fails then [recGeoTargeting] else []))%list in
  if (List.length items =? 0)%nat then [recNoCriticalFailures] else items.

Definition phase3 (snapshot : Snap.t) : list string :=
  (match Snap.searchImpressionShare snapshot with
   | Some share =>
       if negb (Qeq_bool share 0) && JS.ltb share 50
       then [recImpressionShare (showNumber share)]
       else [recBudgetScaling]
   | None => [recBudgetScaling]
   end) ++
  (if JS.ltb 15 (Snap.conversions30d snapshot)
   then [recVolume (ofZ (JS.Math_round (Snap.conversions30d snapshot)))]
   else []) ++
  [recDemandGen; recServerSide].

Definition generateRecommendations (categories : list Category) (industry : string)
    (snapshot : Snap.t) : list (string * list string) :=
  [ ("Phase 1: Fix the Foundation (Week 1)", phase1 categories);
    ("Phase 2: Optimize & Expand (Weeks 2-3)", phase2 categories);
    ("Phase 3: Scale (Month 2+)", phase3 snapshot) ].

End Recommendations.

(** ** The audit *)

Record Account := mkAccount {
  account_name : string;
  account_customerId : string
}.

Module Report.
Record t := mk {
  account : string;
  customerId : string;
  date : string;
  industry : string;
  healthScore : Q;
  grade : string;
  verdict : string;
  snapshot : Snap.t;
  categories : list Category;
  topWastedProducts : option (list Product.t);
  topPerformingProducts : option (list Product.t);
  quickWins : list QuickWin;
  recommendations : list (string * list string)
}.
End Report.

(** [...(l.length > 0 ? { key: l } : {})] *)
Definition whenNonEmpty {A} (l : list A) : option (list A) :=
  match l with
  | [] => None
  | _ => Some l
  end.

Definition runAudit (findingText : AccountDataset -> string -> string)
    (showNumber : Q -> string) (account : Account) (rawData : AccountDataset)
    (date : string) : Report.t :=
  let industry := detectIndustry (account_name account) rawData in
  let snapshot := buildSnapshot rawData in
  let categories := auditCategories findingText rawData in
  let '(healthScore, grade) := calculateOverallScore categories in
  let quickWins := identifyQuickWins categories in
  let recommendations := generateRecommendations showNumber categories industry snapshot in
  let '(topWasted, topPerforming) := analyzeProducts rawData in
  Report.mk (account_name account) (account_customerId account) date industry
            healthScore grade (gradeVerdict grade) snapshot categories
            (whenNonEmpty topWasted) (whenNonEmpty topPerforming)
            quickWins recommendations.

Definition demoAccount : Account := mkAccount "Smith & Sons Roofing" "123-456-7890".

(** The rule ids that bring a paragraph into phase 1. *)
Definition phase1Trigger (c : Check) : bool :=
  prefix "G4" (id c) || prefix "G-CT" (id c) || (id c =? "G05") ||
  (id c =? "G14") || (id c =? "G11").

(** Three wasted products and a performing one, out of order. *)
Definition mixedShoppingDataset : AccountDataset :=
  shoppingDataset
    [ productRow "Lamp" 15000000 (Some 0) None;
      productRow "Desk" 90000000 None None;
      productRow "Chair" 20000000 (Some 2) (Some 60000000);
      productRow "Shelf" 42500000 (Some 0) None ].

(** The total of a numeric column over rows. *)
Definition total {A} (f : A -> Q) (rows : list A) : Q := JS.sum (map f rows).

(** A row counts as zero-conversion for G16. *)
Definition zeroConversions (r : MetricsRow) : bool :=
  Qeq_bool (JS.Number_or0 (metrics_conversions r)) 0.

(** Every character of [s] satisfies [p]. *)
Fixpoint everyChar (p : ascii -> bool) (s : string) : bool :=
  match s with
  | "" => true
  | String c r => p c && everyChar p r
  end.

(** ** The manifest of audited accounts *)

Module Manifest.
Record entry := mkEntry {
  id : string;
  name : string;
  customerId : string;
  dates : list string
}.

Record t := mk {
  accounts : list entry;
  lastUpdated : string
}.
End Manifest.

(** The comparison of [sort()] without a comparator: strings by their code
    units, here bytes. *)
Definition defaultCompare (a b : string) : Q :=
  match String.compare a b with
  | Lt => -1
  | Eq => 0
  | Gt => 1
  end.

(** [if (!existing.dates.includes(date)) { existing.dates.push(date);
    existing.dates.sort(); }] *)
Definition recordDate (date : string) (e : Manifest.entry) : Manifest.entry :=
  if existsb (String.eqb date) (Manifest.dates e) then e
  else Manifest.mkEntry (Manifest.id e) (Manifest.name e) (Manifest.customerId e)
                        (sort defaultCompare (Manifest.dates e ++ [date])).

(** [manifest.accounts.find(a => a.id === slug)] *)
Definition findAccount (slug : string) (accounts : list Manifest.entry)
    : option Manifest.entry :=
  find (fun a => Manifest.id a =? slug) accounts.

(** The accounts after the found entry, the first one with the id [slug], has
    been updated in place; [None] when no entry has the id. *)
Fixpoint updateExisting (slug date : string) (accounts : list Manifest.entry)
    : option (list Manifest.entry) :=
  match accounts with
  | [] => None
  | a :: r =>
      if Manifest.id a =? slug then Some (recordDate date a :: r)
      else option_map (cons a) (updateExisting slug date r)
  end.

(** One turn of the loop over the audited accounts. *)
Definition recordAccount (date : string) (accounts : list Manifest.entry)
    (acct : Account) : list Manifest.entry :=
  let slug := slugify (account_name acct) in
  match updateExisting slug date accounts with
  | Some updated => updated
  | None =>
      accounts ++ [Manifest.mkEntry slug (account_name acct)
                                    (account_customerId acct) [date]]
  end.

(** [stored] is the manifest read from the file, when the file exists; [now]
    is the time stamp taken from the clock. *)
Definition updateManifest (stored : option Manifest.t) (auditedAccounts : list Account)
    (date now : string) : Manifest.t :=
  let manifest :=
    match stored with
    | Some m => m
    | None => Manifest.mk [] ""
    end in
  Manifest.mk (fold_left (recordAccount date) auditedAccounts (Manifest.accounts manifest))
              now.

(** The accounts of the stored manifest, none without a file. *)
Definition storedAccounts (stored : option Manifest.t) : list Manifest.entry :=
  match stored with
  | Some m => Manifest.accounts m
  | None => []
  end.

(** No two entries share an id, and every entry lists its dates once each and
    in increasing order. *)
Definition wellKept (accounts : list Manifest.entry) : Prop :=
  NoDup (map Manifest.id accounts) /\
  Forall (fun e => NoDup (Manifest.dates e) /\
                   Sorted (fun a b => String.leb a b = true) (Manifest.dates e))
         accounts.

(** The date is recorded for the id: the entry that [find] returns for the
    id lists the date. *)
Definition recorded (slug date : string) (accounts : list Manifest.entry) : Prop :=
  exists e, findAccount slug accounts = Some e /\ In date (Manifest.dates e).

Definition demoManifest : Manifest.t :=
  Manifest.mk
    [ Manifest.mkEntry "acme" "ACME" "111-111-1111" ["2025-01-02"; "2025-01-04"];
      Manifest.mkEntry "smith-sons-roofing" "Smith & Sons Roofing" "123-456-7890"
                       ["2025-01-03"] ]
    "2025-01-04T06:00:00.000Z".

(** ** Columnar query results *)

Module Columnar.

(** A cell of a data row, as parsed from the response: a primitive, or an
    array or object, which is kept by its text only. *)
Inductive Cell : Type :=
| undefined
| null
| boolean (b : bool)
| number (q : Q)
| text (s : string)
| composite (json : string).

(** A value of a row object: a cell, or an object built for a column prefix,
    with its properties in the order of their creation. *)
#[warnings="-register-all"]
Inductive Value : Type :=
| Leaf (c : Cell)
| Object (fields : list (string * Value)).

Record Table := mkTable {
  columns : option (list string);
  data : option (list (list Cell))
}.

Record Response := mkResponse {
  result : option Table
}.

(** The outcome of a call: a returned value, a [TypeError], or a run that
    leaves the model: one that would assign into an array or object of the
    response, or follow a property that is inherited from a prototype. *)
Inductive Outcome (A : Type) : Type :=
| Returns (a : A)
| Throws
| Unmodelled.

Arguments Returns {A} a.
Arguments Throws {A}.
Arguments Unmodelled {A}.

Definition bind {A B} (o : Outcome A) (f : A -> Outcome B) : Outcome B :=
  match o with
  | Returns a => f a
  | Throws => Throws
  | Unmodelled => Unmodelled
  end.

Definition truthy (c : Cell) : bool :=
  match c with
  | undefined | null => false
  | boolean b => b
  | number q => negb (Qeq_bool q 0)
  | text s => negb (s =? "")
  | composite _ => true
  end.

(** [if (val === 'true') val = true; else if (val === 'false') val = false;] *)
Definition normalize (c : Cell) : Cell :=
  match c with
  | text s => if s =? "true" then boolean true
              else if s =? "false" then boolean false
              else c
  | _ => c
  end.

(** [col.split('.')] *)
Fixpoint splitDots (s : string) : list string :=
  match s with
  | "" => [""]
  | String c r =>
      if Ascii.eqb c "." then "" :: splitDots r
      else match splitDots r with
           | h :: t => String c h :: t
           | [] => [String c ""]
           end
  end.

(** [current[k]], [None] when the object has no property [k]. *)
Definition getField (k : string) (fields : list (string * Value)) : option Value :=
  option_map snd (find (fun kv => fst kv =? k) fields).

(** [current[k] = v]: the property keeps its place when it exists and is
    added at the end otherwise. *)
Fixpoint setField (k : string) (v : Value) (fields : list (string * Value))
    : list (string * Value) :=
  match fields with
  | [] => [(k, v)]
  | (k', v') :: r =>
      if k' =? k then (k, v) :: r else (k', v') :: setField k v r
  end.

(** The read [row.a?.b?.c] of a path of properties: [None] is [undefined]. *)
Fixpoint lookupPath (parts : list string) (fields : list (string * Value))
    : option Value :=
  match parts with
  | [] => None
  | k :: rest =>
      match rest with
      | [] => getField k fields
      | _ :: _ =>
          match getField k fields with
          | Some (Object child) => lookupPath rest child
          | _ => None
          end
      end
  end.

(** The loop over the parts of a column and the final assignment, on the
    object [current].  What the loop changes in a nested object is seen in
    the object that holds it. *)
Fixpoint assignPath (parts : list string) (val : Value)
    (current : list (string * Value)) : Outcome (list (string * Value)) :=
  match parts with
  | [] => Returns current
  | p :: rest =>
      match rest with
      | [] => Returns (setField p val current)
      | _ :: _ =>
          let descend child :=
            bind (assignPath rest val child)
                 (fun child' => Returns (setField p (Object child') current)) in
          match getField p current with
          | Some (Object child) => descend child
          | Some (Leaf c) =>
              if truthy c
              then match c with
                   | composite _ => Unmodelled
                   | _ => Throws
                   end
              else descend []
          | None => descend []
          end
      end
  end.

(** [a] is a prefix of [b], or equal to it. *)
Fixpoint isPrefix (a b : list string) : bool :=
  match a, b with
  | [], _ => true
  | _ :: _, [] => false
  | x :: a', y :: b' => (x =? y) && isPrefix a' b'
  end.

(** Neither path is a prefix of the other. *)
Definition apart (a b : list string) : bool :=
  negb (isPrefix a b) && negb (isPrefix b a).

(** No path is a prefix of another one of the list, or equal to it. *)
Fixpoint prefixFree (paths : list (list string)) : bool :=
  match paths with
  | [] => true
  | p :: r => forallb (apart p) r && prefixFree r
  end.

End Columnar.

Section Transform.

(** [inherited k]: the key [k] names a property that an object or a
    primitive inherits from its prototype. *)
Variable inherited : string -> bool.

(** [columns.forEach((col, i) => ...)] from the index [i] on, on the object
    [obj] of the row. *)
Fixpoint assignColumns (columns : list string) (i : nat) (row : list Columnar.Cell)
    (obj : list (string * Columnar.Value))
    : Columnar.Outcome (list (string * Columnar.Value)) :=
  match columns with
  | [] => Columnar.Returns obj
  | col :: r =>
      let parts := Columnar.splitDots col in
      if existsb inherited parts then Columnar.Unmodelled
      else Columnar.bind
             (Columnar.assignPath parts
                (Columnar.Leaf (Columnar.normalize (nth i row Columnar.undefined))) obj)
             (assignColumns r (S i) row)
  end.

(** [data.map(row => ...)] *)
Fixpoint transformRows (columns : list string) (rows : list (list Columnar.Cell))
    : Columnar.Outcome (list (list (string * Columnar.Value))) :=
  match rows with
  | [] => Columnar.Returns []
  | row :: r =>
      Columnar.bind (assignColumns columns 0 row [])
        (fun obj => Columnar.bind (transformRows columns r)
                      (fun objs => Columnar.Returns (obj :: objs)))
  end.

Definition transformColumnarData (queryResult : option Columnar.Response)
    : Columnar.Outcome (list (list (string * Columnar.Value))) :=
  match queryResult with
  | None => Columnar.Returns []
  | Some response =>
      match Columnar.result response with
      | None => Columnar.Returns []
      | Some table =>
          match Columnar.columns table, Columnar.data table with
          | Some columns, Some data => transformRows columns data
          | _, _ => Columnar.Returns []
          end
      end
  end.

End Transform.

(** No leaf of the object sits at a proper prefix of the path. *)
Definition noLeafAbove (parts : list string) (obj : list (string * Columnar.Value))
    : Prop :=
  forall r c, Columnar.isPrefix r parts = true ->
              Columnar.lookupPath r obj = Some (Columnar.Leaf c) -> r = parts.

(** For column names none of whose parts is inherited. *)
Definition ownKeys (k : string) : bool := false.

Definition demoResponse : Columnar.Response :=
  Columnar.mkResponse
    (Some (Columnar.mkTable
       (Some ["campaign.name"; "campaign.networkSettings.targetContentNetwork";
              "metrics.clicks"])
       (Some [ [Columnar.text "Brand"; Columnar.text "true"; Columnar.number 12];
               [Columnar.text "Generic"; Columnar.text "false"] ]))).

(** * Properties *)

(** ** Numbers *)

Lemma ltb_lt (a b : Q) : JS.ltb a b = true <-> a < b.
Proof.
  unfold JS.ltb. rewrite negb_true_iff.
  split; intro H.
  - apply Qnot_le_lt. intro Hle. apply Qle_bool_iff in Hle. congruence.
  - destruct (Qle_bool b a) eqn:E; [|reflexivity].
    apply Qle_bool_iff in E. exfalso. apply (Qlt_not_le _ _ H E).
Qed.

Lemma ltb_ge (a b : Q) : JS.ltb a b = false <-> b <= a.
Proof.
  unfold JS.ltb. rewrite negb_false_iff. apply Qle_bool_iff.
Qed.

Lemma geb_le (a b : Q) : JS.geb a b = true <-> b <= a.
Proof. unfold JS.geb. apply Qle_bool_iff. Qed.

Lemma geb_lt (a b : Q) : JS.geb a b = false <-> a < b.
Proof.
  unfold JS.geb. split; intro H.
  - apply Qnot_le_lt. intro Hle. apply Qle_bool_iff in Hle. congruence.
  - destruct (Qle_bool b a) eqn:E; [|reflexivity].
    apply Qle_bool_iff in E. exfalso. apply (Qlt_not_le _ _ H E).
Qed.

Lemma Qeq_bool_false (a b : Q) : Qeq_bool a b = false <-> ~ a == b.
Proof.
  split; intro H.
  - intro E. apply Qeq_bool_iff in E. congruence.
  - destruct (Qeq_bool a b) eqn:E; [|reflexivity].
    apply Qeq_bool_iff in E. contradiction.
Qed.

Lemma Math_round_comp (x y : Q) : x == y -> JS.Math_round x = JS.Math_round y.
Proof. intro E. unfold JS.Math_round. now rewrite E. Qed.

Lemma Math_round_bounds (x : Q) (lo hi : Z) :
  inject_Z lo <= x -> x <= inject_Z hi ->
  (lo <= JS.Math_round x <= hi)%Z.
Proof.
  intros Hlo Hhi. unfold JS.Math_round. split.
  - rewrite <- (Qfloor_Z lo). apply Qfloor_resp_le.
    apply Qle_trans with x; [exact Hlo|].
    rewrite <- (Qplus_0_r x) at 1. apply Qplus_le_r. discriminate.
  - apply Z.lt_succ_r. rewrite Zlt_Qlt.
    apply Qle_lt_trans with (x + (1 # 2)); [apply Qfloor_le|].
    unfold Z.succ. rewrite inject_Z_plus.
    apply Qle_lt_trans with (inject_Z hi + (1 # 2)).
    + apply Qplus_le_l. exact Hhi.
    + apply Qplus_lt_r. reflexivity.
Qed.

(** ** Sums *)

Lemma fold_sum_acc (l : list Q) (a : Q) : fold_left Qplus l a == a + JS.sum l.
Proof.
  unfold JS.sum. revert a.
  induction l as [|x l IH]; intro a; cbn [fold_left].
  - lra.
  - rewrite (IH (a + x)), (IH (0 + x)). lra.
Qed.

Lemma sum_nil : JS.sum [] == 0.
Proof. reflexivity. Qed.

Lemma sum_cons (x : Q) (l : list Q) : JS.sum (x :: l) == x + JS.sum l.
Proof. unfold JS.sum at 1. cbn [fold_left]. rewrite fold_sum_acc. lra. Qed.

Lemma sum_app (l1 l2 : list Q) : JS.sum (l1 ++ l2) == JS.sum l1 + JS.sum l2.
Proof.
  induction l1 as [|x l1 IH]; cbn [app].
  - rewrite sum_nil. lra.
  - rewrite !sum_cons, IH. lra.
Qed.


(** ** Category scoring *)

Lemma scoreLoop_acc (cs : list Check) (e p : Q) :
  let r := fold_left
             (fun '(earned, possible) check =>
                let w := sevWeight check in
                (earned + resultValue check * w, possible + w))
             cs (e, p) in
  fst r == e + JS.sum (map (fun c => resultValue c * sevWeight c) cs) /\
  snd r == p + JS.sum (map sevWeight cs).
Proof.
  revert e p. induction cs as [|c cs IH]; intros e p; cbn [fold_left map].
  - cbn [fst snd]. rewrite sum_nil. split; lra.
  - cbn zeta. destruct (IH (e + resultValue c * sevWeight c) (p + sevWeight c)) as [He Hp].
    cbn zeta in He, Hp. rewrite He, Hp, !sum_cons. split; lra.
Qed.

Lemma scoreLoop_sums (cs : list Check) :
  fst (scoreLoop cs) == JS.sum (map (fun c => resultValue c * sevWeight c) cs) /\
  snd (scoreLoop cs) == JS.sum (map sevWeight cs).
Proof.
  destruct (scoreLoop_acc cs 0 0) as [He Hp]. cbn zeta in He, Hp.
  unfold scoreLoop. rewrite He, Hp. split; lra.
Qed.

Lemma or_num_cases (v : option Q) (d : Q) :
  (exists q, v = Some q /\ ~ q == 0 /\ JS.or_num v d = q) \/
  ((v = None \/ exists q, v = Some q /\ q == 0) /\ JS.or_num v d = d).
Proof.
  destruct v as [q|]; cbn.
  - destruct (Qeq_bool q 0) eqn:E.
    + right. split; [right; exists q; split; [reflexivity|now apply Qeq_bool_iff]|reflexivity].
    + left. exists q. repeat split. now apply Qeq_bool_false.
  - right. split; [now left|reflexivity].
Qed.

Lemma sevWeight_pos (c : Check) : 0 < sevWeight c.
Proof.
  unfold sevWeight, SEVERITY.
  repeat match goal with |- context [if ?b then _ else _] => destruct b end;
    cbn; reflexivity.
Qed.

Lemma resultValue_range (c : Check) : 0 <= resultValue c <= 1.
Proof.
  unfold resultValue, RESULT_SCORE.
  repeat match goal with |- context [if ?b then _ else _] => destruct b end;
    cbn; split; discriminate.
Qed.

Lemma possible_pos (cs : list Check) : cs <> [] -> 0 < JS.sum (map sevWeight cs).
Proof.
  intro Hne. induction cs as [|c cs IH]; [congruence|].
  cbn [map]. rewrite sum_cons.
  pose proof (sevWeight_pos c) as Hc.
  destruct cs as [|c' cs'].
  - cbn [map]. rewrite sum_nil. lra.
  - assert (0 < JS.sum (map sevWeight (c' :: cs'))) by (apply IH; discriminate). lra.
Qed.

Lemma earned_range (cs : list Check) :
  0 <= JS.sum (map (fun c => resultValue c * sevWeight c) cs) <= JS.sum (map sevWeight cs).
Proof.
  induction cs as [|c cs IH]; cbn [map].
  - rewrite !sum_nil. split; lra.
  - rewrite !sum_cons.
    pose proof (sevWeight_pos c) as Hw. pose proof (resultValue_range c) as [H0 H1].
    assert (0 <= resultValue c * sevWeight c) by (apply Qmult_le_0_compat; lra).
    assert (resultValue c * sevWeight c <= 1 * sevWeight c)
      by (apply Qmult_le_compat_r; lra).
    lra.
Qed.

Lemma scoreToGrade_band (s : Q) : scoreToGrade (Some s) = Spec.gradeBand s.
Proof.
  unfold scoreToGrade, Spec.gradeBand.
  repeat match goal with
         | |- context [JS.geb ?a ?b] =>
             let E := fresh "E" in
             destruct (JS.geb a b) eqn:E;
             [apply geb_le in E | apply geb_lt in E]
         | |- context [Qlt_le_dec ?a ?b] => destruct (Qlt_le_dec a b)
         end; try reflexivity; exfalso; lra.
Qed.






(** ** Unknown severities and results *)

Lemma validChecks_app (l1 l2 : list Check) :
  validChecks (l1 ++ l2) = (validChecks l1 ++ validChecks l2)%list.
Proof. apply filter_app. Qed.

Lemma validChecks_keep (c : Check) (l : list Check) :
  result c <> "N/A" -> validChecks (c :: l) = c :: validChecks l.
Proof.
  intro H. unfold validChecks. cbn [filter].
  destruct (String.eqb_spec (result c) "N/A"); [contradiction|reflexivity].
Qed.





(** ** Overall score *)











(** An audit without any data: the keyword category is null and the other
    five scores, 32.8, 0, 48.4, 0 and 7.7, are averaged over a weight of
    0.85. *)
Example audit_without_data :
  calculateOverallScore (auditCategories noFinding emptyDataset) = (19, "F").
Proof. vm_compute. reflexivity. Qed.

(** With the 0.10 category null the weighted sum 63.5 is divided by 0.90. *)
Example calculateOverallScore_demo :
  calculateOverallScore demoCategories = (71, "C").
Proof. vm_compute. reflexivity. Qed.

(** ** Quick wins *)

Lemma flat_map_filter_map {A B} (p : A -> bool) (f : A -> B) (l : list A) :
  flat_map (fun x => if p x then [f x] else []) l = map f (filter p l).
Proof.
  induction l as [|x l IH]; cbn [flat_map filter map]; [reflexivity|].
  destruct (p x); cbn [app map]; now rewrite IH.
Qed.


Lemma in_firstn {A} (n : nat) (x : A) (l : list A) : In x (firstn n l) -> In x l.
Proof.
  intro H. rewrite <- (firstn_skipn n l). apply in_or_app. now left.
Qed.

Lemma isQuickWin_true (c : Check) :
  isQuickWin c = true <->
  result c = "FAIL" /\ (severity c = "Critical" \/ severity c = "High").
Proof.
  unfold isQuickWin.
  rewrite andb_true_iff, orb_true_iff, !String.eqb_eq. reflexivity.
Qed.


(** ** Recommendations, phase 2 *)

Lemma flat_map_filter {A B} (f : A -> list B) (p : B -> bool) (l : list A) :
  flat_map (fun x => filter p (f x)) l = filter p (flat_map f l).
Proof.
  induction l as [|x l IH]; cbn [flat_map]; [reflexivity|].
  now rewrite filter_app, IH.
Qed.

Lemma failedChecks_filter (categories : list Category) :
  failedChecks categories = filter Spec.isFailOrWarning (Spec.allChecks categories).
Proof.
  unfold failedChecks, Spec.allChecks.
  now rewrite <- (flat_map_filter (fun cat : Category => checks cat)).
Qed.

Lemma isFailOrWarning_true (c : Check) :
  Spec.isFailOrWarning c = true <-> result c = "FAIL" \/ result c = "WARNING".
Proof.
  unfold Spec.isFailOrWarning. now rewrite orb_true_iff, !String.eqb_eq.
Qed.

Lemma some_failedChecks (p : Check -> bool) (categories : list Category) :
  JS.some p (failedChecks categories) = true <->
  exists c, In c (Spec.allChecks categories) /\
            (result c = "FAIL" \/ result c = "WARNING") /\ p c = true.
Proof.
  unfold JS.some. rewrite existsb_exists, failedChecks_filter.
  split; intros [c H]; exists c.
  - destruct H as [Hin Hp]. apply filter_In in Hin. destruct Hin as [Hin Hfw].
    apply isFailOrWarning_true in Hfw. auto.
  - destruct H as [Hin [Hfw Hp]]. split; [|exact Hp].
    apply filter_In. split; [exact Hin|]. now apply isFailOrWarning_true.
Qed.

Lemma some_highFails (p : Check -> bool) (categories : list Category) :
  JS.some p (highFails categories) = true <->
  exists c, In c (Spec.allChecks categories) /\
            (result c = "FAIL" \/ result c = "WARNING") /\
            severity c = "High" /\ p c = true.
Proof.
  unfold JS.some, highFails. rewrite existsb_exists, failedChecks_filter.
  split; intros [c H]; exists c.
  - destruct H as [Hin Hp]. apply filter_In in Hin. destruct Hin as [Hin Hs].
    apply filter_In in Hin. destruct Hin as [Hin Hfw].
    apply isFailOrWarning_true in Hfw. apply String.eqb_eq in Hs. auto.
  - destruct H as [Hin [Hfw [Hs Hp]]]. split; [|exact Hp].
    apply filter_In. split; [|now apply String.eqb_eq].
    apply filter_In. split; [exact Hin|]. now apply isFailOrWarning_true.
Qed.

Lemma recommendations_distinct :
  NoDup [recSmartBidding; recAudiences; recPMax; recCreativeRefresh].
Proof.
  repeat constructor; cbn [In]; intro H;
    repeat (destruct H as [H|H]; [discriminate H|]); exact H.
Qed.

Lemma triggered_shape (b1 b2 b3 : bool) (r1 r2 r3 r4 : string) :
  NoDup [r1; r2; r3; r4] ->
  let items := ((if b1 then [r1] else []) ++ (if b2 then [r2] else []) ++
                (if b3 then [r3] else []) ++ [r4])%list in
  (In r1 items <-> b1 = true) /\
  (In r2 items <-> b2 = true) /\
  (In r3 items <-> b3 = true) /\
  exists triggered,
    items = (triggered ++ [r4])%list /\ ~ In r4 triggered /\ NoDup triggered.
Proof.
  intros Hnd items. subst items.
  inversion Hnd as [|? ? N1 Hnd1]; subst.
  inversion Hnd1 as [|? ? N2 Hnd2]; subst.
  inversion Hnd2 as [|? ? N3 _]; subst.
  cbn [In] in N1, N2, N3.
  repeat split.
  1-6: destruct b1, b2, b3; cbn [app In]; intuition (try discriminate; try congruence).
  exists ((if b1 then [r1] else []) ++ (if b2 then [r2] else []) ++
          (if b3 then [r3] else []))%list.
  split; [now rewrite <- !app_assoc|].
  destruct b1, b2, b3; cbn [app In]; split;
    try (intuition congruence);
    repeat constructor; cbn [In]; intuition congruence.
Qed.

(** C5, as the code has it.  Phase 2 contains the smart-bidding paragraph
    exactly when a check G36 of severity High has result FAIL or WARNING, the
    audience paragraph exactly when a check G56 or G57 of severity High has
    result FAIL or WARNING, and the PMax paragraph exactly when a check G06,
    of any severity, has result FAIL or WARNING; each at most once, and the
    creative-refresh recommendation always, exactly once, as the last
    item. *)
Theorem phase2_spec (categories : list Category) :
  (In recSmartBidding (phase2 categories) <->
   exists c, In c (Spec.allChecks categories) /\
             (result c = "FAIL" \/ result c = "WARNING") /\
             severity c = "High" /\ id c = "G36") /\
  (In recAudiences (phase2 categories) <->
   exists c, In c (Spec.allChecks categories) /\
             (result c = "FAIL" \/ result c = "WARNING") /\
             severity c = "High" /\ (id c = "G56" \/ id c = "G57")) /\
  (In recPMax (phase2 categories) <->
   exists c, In c (Spec.allChecks categories) /\
             (result c = "FAIL" \/ result c = "WARNING") /\ id c = "G06") /\
  exists triggered,
    phase2 categories = (triggered ++ [recCreativeRefresh])%list /\
    ~ In recCreativeRefresh triggered /\ NoDup triggered.
Proof.
  unfold phase2.
  destruct (triggered_shape
              (JS.some (fun c => id c =? "G36") (highFails categories))
              (JS.some (fun c => (id c =? "G56") || (id c =? "G57")) (highFails categories))
              (JS.some (fun c => id c =? "G06") (failedChecks categories))
              _ _ _ _ recommendations_distinct) as [H1 [H2 [H3 H4]]].
  cbn zeta in H1, H2, H3, H4.
  split; [|split; [|split; [|exact H4]]].
  - rewrite H1, some_highFails.
    split; intros [c H]; exists c; rewrite String.eqb_eq in *; exact H.
  - rewrite H2, some_highFails.
    split; intros [c H]; exists c;
      rewrite orb_true_iff, !String.eqb_eq in *; exact H.
  - rewrite H3, some_failedChecks.
    split; intros [c H]; exists c; rewrite String.eqb_eq in *; exact H.
Qed.

(** C5, as the specification states it, fails: a High-severity G36 check with result
    WARNING brings in the smart-bidding paragraph, and a Medium-severity G06
    check with result FAIL the PMax paragraph, although no check at all is a
    High-severity FAIL. *)
Lemma phase2_triggers_without_high_fail :
  let categories :=
    [ mkCategory
        (mkEvaluated "Account Structure" "15%"
           [ mkCheck "G06" "PMax present for eligible accounts" "Medium" "FAIL" "none" ])
        (Some 0) "F";
      mkCategory
        (mkEvaluated "Settings & Targeting + Bidding" "10%"
           [ mkCheck "G36" "Smart bidding strategy active" "High" "WARNING" "manual" ])
        (Some 50) "D" ] in
  phase2 categories = [recSmartBidding; recPMax; recCreativeRefresh] /\
  ~ (exists c, In c (Spec.allChecks categories) /\
               severity c = "High" /\ result c = "FAIL").
Proof.
  cbn zeta. split; [reflexivity|].
  intros [c [Hin [Hs Hr]]]. cbn in Hin.
  destruct Hin as [<-|[<-|[]]]; cbn in *; discriminate.
Qed.

(** ** Duplicate conversion actions *)

Lemma prefix_spec (a s : string) :
  prefix a s = true <-> exists post, s = a ++ post.
Proof.
  revert s. induction a as [|c a IH]; intro s.
  - destruct s; cbn; split; eauto.
  - destruct s as [|d s]; cbn [prefix].
    + split; [discriminate|]. intros [post H]. discriminate H.
    + destruct (ascii_dec c d) as [<-|Hne].
      * rewrite IH. split; intros [post H]; exists post.
        -- cbn. now rewrite H.
        -- cbn in H. now injection H.
      * split; [discriminate|]. intros [post H]. cbn in H. injection H as H1 _.
        congruence.
Qed.

Lemma includes_spec (s sub : string) :
  includes s sub = true <-> Spec.contains s sub.
Proof.
  unfold Spec.contains. induction s as [|c s IH]; cbn [includes].
  - rewrite orb_false_r, prefix_spec. split.
    + intros [post H]. exists "", post. exact H.
    + intros [pre [post H]]. destruct pre; [exists post; exact H|discriminate H].
  - rewrite orb_true_iff, prefix_spec, IH. split.
    + intros [[post H]|[pre [post H]]].
      * exists "", post. exact H.
      * exists (String c pre), post. cbn. now rewrite H.
    + intros [pre [post H]]. destruct pre as [|d pre].
      * left. exists post. exact H.
      * right. cbn in H. injection H as _ H. exists pre, post. exact H.
Qed.

Lemma findDuplicatePatterns_filter (names : list string) :
  findDuplicatePatterns names
    = map (fun kw => Spec.pattern (Spec.countContaining kw names) kw)
          (filter (fun kw => (1 <? Spec.countContaining kw names)%nat)
                  duplicateKeywords).
Proof.
  unfold findDuplicatePatterns. rewrite <- flat_map_filter_map. reflexivity.
Qed.

(** C7.  The duplicate detector reports, for each keyword of the fixed list
    and in the order of that list, one pattern carrying the number of
    names that contain the keyword, whenever that number exceeds 1; the
    names it is given by the conversion tracking evaluator are the lowercased
    names of the conversion actions; and the check G-CT1 is PASS with no
    pattern, WARNING with exactly one and FAIL with two or more.  The names
    "Purchase - GA4", "Purchase - Shopify", "Lead Form" give the single
    pattern for "purchase" with count 2 and the result WARNING. *)
Theorem findDuplicatePatterns_spec
    (findingText : AccountDataset -> string -> string) (data : AccountDataset) :
  let actionNames :=
    map (fun r => toLowerCase (JS.or_str (conversionAction_name r) ""))
        (safeArray (conversion_actions data)) in
  (forall names,
      findDuplicatePatterns names
        = map (fun kw => Spec.pattern (Spec.countContaining kw names) kw)
              (filter (fun kw => (1 <? Spec.countContaining kw names)%nat)
                      duplicateKeywords)) /\
  (forall n kw, includes n kw = true <-> Spec.contains n kw) /\
  duplicateKeywords
    = ["purchase"; "buy"; "order"; "phone"; "call"; "lead"; "form"; "submit";
       "contact"] /\
  (exists c,
      find (fun c => id c =? "G-CT1") (checks (checkConversionTracking findingText data))
        = Some c /\
      result c = match List.length (findDuplicatePatterns actionNames) with
                 | 0%nat => "PASS"
                 | 1%nat => "WARNING"
                 | _ => "FAIL"
                 end) /\
  findDuplicatePatterns
    (map toLowerCase ["Purchase - GA4"; "Purchase - Shopify"; "Lead Form"])
    = [Spec.pattern 2 "purchase"] /\
  (exists c,
      find (fun c => id c =? "G-CT1")
           (checks (checkConversionTracking findingText purchaseDataset)) = Some c /\
      result c = "WARNING").
Proof.
  intro actionNames.
  split; [exact findDuplicatePatterns_filter|].
  split; [exact includes_spec|].
  split; [reflexivity|].
  split; [|split; [reflexivity|]].
  - eexists. split; [reflexivity|]. cbn [result]. fold actionNames.
    destruct (List.length (findDuplicatePatterns actionNames)) as [|[|n]]; reflexivity.
  - eexists. split; [reflexivity|]. reflexivity.
Qed.

(** ** Snapshot *)






(** ** Sorting *)

Section SortFacts.
Context {A : Type}.

Lemma insertSorted_perm (compareFn : A -> A -> Q) (x : A) (l : list A) :
  Permutation (insertSorted compareFn x l) (x :: l).
Proof.
  induction l as [|y l IH]; cbn [insertSorted]; [apply Permutation_refl|].
  destruct (Qle_bool (compareFn x y) 0); [apply Permutation_refl|].
  apply Permutation_trans with (y :: x :: l); [now apply perm_skip|apply perm_swap].
Qed.

Lemma sort_perm (compareFn : A -> A -> Q) (l : list A) :
  Permutation (sort compareFn l) l.
Proof.
  induction l as [|x l IH]; cbn [sort fold_right]; [apply Permutation_refl|].
  apply Permutation_trans with (x :: sort compareFn l);
    [apply insertSorted_perm|now apply perm_skip].
Qed.

Variable key : A -> Q.

Lemma insertSorted_descending (x : A) (l : list A) :
  StronglySorted (fun a b => key b <= key a) l ->
  StronglySorted (fun a b => key b <= key a)
                 (insertSorted (fun a b => key b - key a) x l).
Proof.
  induction 1 as [|y l Hl IH Hy]; cbn [insertSorted].
  - constructor; constructor.
  - destruct (Qle_bool (key y - key x) 0) eqn:E.
    + apply Qle_bool_iff in E.
      assert (Hyx : key y <= key x) by lra.
      constructor; [constructor; assumption|].
      constructor; [exact Hyx|].
      rewrite Forall_forall in *. intros z Hz. specialize (Hy z Hz). lra.
    + assert (Hxy : key x <= key y).
      { destruct (Qlt_le_dec (key y) (key x)) as [H|H]; [|exact H].
        assert (Hle : key y - key x <= 0) by lra.
        apply Qle_bool_iff in Hle. congruence. }
      constructor; [exact IH|].
      rewrite Forall_forall in *. intros z Hz.
      apply (Permutation_in _ (insertSorted_perm _ x l)) in Hz.
      destruct Hz as [<-|Hz]; [exact Hxy|now apply Hy].
Qed.

Lemma sort_descending (l : list A) :
  StronglySorted (fun a b => key b <= key a) (sort (fun a b => key b - key a) l).
Proof.
  induction l as [|x l IH]; cbn [sort fold_right]; [constructor|].
  now apply insertSorted_descending.
Qed.

End SortFacts.

(** ** Product analysis *)


Lemma isWasted_true (r : MetricsRow) :
  isWasted r = true <->
  JS.Number_or0 (metrics_conversions r) == 0 /\ 10 < microsToDollars (costOf r).
Proof.
  unfold isWasted. now rewrite andb_true_iff, Qeq_bool_iff, ltb_lt.
Qed.

Lemma analyzeProducts_lists (data : AccountDataset) :
  let products := safeArray (shopping_performance data) in
  analyzeProducts data
    = (map wastedEntry
         (firstn 8 (sort (fun a b => microsToDollars (costOf b) - microsToDollars (costOf a))
                         (filter isWasted products))),
       map performingEntry
         (firstn 5 (sort (fun a b => rowRoas b - rowRoas a)
                         (filter isPerforming products)))).
Proof.
  cbn zeta. unfold analyzeProducts.
  destruct (safeArray (shopping_performance data)); reflexivity.
Qed.



(** ** The check catalog *)

Section CatalogFacts.
Variable findingText : AccountDataset -> string -> string.

Lemma checkConversionTracking_ids (data : AccountDataset) :
  map id (checks (checkConversionTracking findingText data)) = nth 0 Spec.ruleIds [].
Proof. reflexivity. Qed.

Lemma checkWastedSpend_ids (data : AccountDataset) :
  map id (checks (checkWastedSpend findingText data)) = nth 1 Spec.ruleIds [].
Proof.
  unfold checkWastedSpend. cbn [checks map id nth Spec.ruleIds]. split_branches.
Qed.

Lemma checkAccountStructure_ids (data : AccountDataset) :
  map id (checks (checkAccountStructure findingText data)) = nth 2 Spec.ruleIds [].
Proof. reflexivity. Qed.

Lemma checkKeywordsQS_ids (data : AccountDataset) :
  map id (checks (checkKeywordsQS findingText data)) = nth 3 Spec.ruleIds [].
Proof. unfold checkKeywordsQS. split_branches. Qed.

Lemma checkAdsAssets_ids (data : AccountDataset) :
  map id (checks (checkAdsAssets findingText data)) = nth 4 Spec.ruleIds [].
Proof.
  unfold checkAdsAssets. cbn [checks map id nth Spec.ruleIds app pmaxDetails].
  split_branches.
Qed.

Lemma checkSettingsTargeting_ids (data : AccountDataset) :
  map id (checks (checkSettingsTargeting findingText data)) = nth 5 Spec.ruleIds [].
Proof. reflexivity. Qed.

Lemma checkConversionTracking_sameRows (d1 d2 : AccountDataset) :
  Spec.sameRows d1 d2 ->
  map Spec.verdict (checks (checkConversionTracking findingText d1))
    = map Spec.verdict (checks (checkConversionTracking findingText d2)).
Proof. intro H. unfold checkConversionTracking. same_rows H. Qed.

Lemma checkWastedSpend_sameRows (d1 d2 : AccountDataset) :
  Spec.sameRows d1 d2 ->
  map Spec.verdict (checks (checkWastedSpend findingText d1))
    = map Spec.verdict (checks (checkWastedSpend findingText d2)).
Proof. intro H. unfold checkWastedSpend. same_rows H. Qed.

Lemma checkAccountStructure_sameRows (d1 d2 : AccountDataset) :
  Spec.sameRows d1 d2 ->
  map Spec.verdict (checks (checkAccountStructure findingText d1))
    = map Spec.verdict (checks (checkAccountStructure findingText d2)).
Proof. intro H. unfold checkAccountStructure. same_rows H. Qed.

Lemma checkKeywordsQS_sameRows (d1 d2 : AccountDataset) :
  Spec.sameRows d1 d2 ->
  map Spec.verdict (checks (checkKeywordsQS findingText d1))
    = map Spec.verdict (checks (checkKeywordsQS findingText d2)).
Proof. intro H. unfold checkKeywordsQS. same_rows H. Qed.

Lemma checkAdsAssets_sameRows (d1 d2 : AccountDataset) :
  Spec.sameRows d1 d2 ->
  map Spec.verdict (checks (checkAdsAssets findingText d1))
    = map Spec.verdict (checks (checkAdsAssets findingText d2)).
Proof. intro H. unfold checkAdsAssets. same_rows H. Qed.

Lemma checkSettingsTargeting_sameRows (d1 d2 : AccountDataset) :
  Spec.sameRows d1 d2 ->
  map Spec.verdict (checks (checkSettingsTargeting findingText d1))
    = map Spec.verdict (checks (checkSettingsTargeting findingText d2)).
Proof. intro H. unfold checkSettingsTargeting. same_rows H. Qed.

Lemma results_of_verdicts (cs : list Check) :
  map result cs = map snd (map Spec.verdict cs).
Proof. rewrite map_map. reflexivity. Qed.

Lemma evaluators_sameRows (d1 d2 : AccountDataset) :
  Spec.sameRows d1 d2 ->
  map (fun evaluate : AccountDataset -> Evaluated =>
         map Spec.verdict (checks (evaluate d1))) (evaluators findingText)
    = map (fun evaluate : AccountDataset -> Evaluated =>
             map Spec.verdict (checks (evaluate d2))) (evaluators findingText).
Proof.
  intro H. unfold evaluators. cbn [map].
  rewrite (checkConversionTracking_sameRows d1 d2 H),
          (checkWastedSpend_sameRows d1 d2 H),
          (checkAccountStructure_sameRows d1 d2 H),
          (checkKeywordsQS_sameRows d1 d2 H),
          (checkAdsAssets_sameRows d1 d2 H),
          (checkSettingsTargeting_sameRows d1 d2 H).
  reflexivity.
Qed.

Lemma evaluators_ids (data : AccountDataset) :
  map (fun evaluate : AccountDataset -> Evaluated => map id (checks (evaluate data)))
      (evaluators findingText)
    = Spec.ruleIds.
Proof.
  unfold evaluators. cbn [map].
  rewrite checkConversionTracking_ids, checkWastedSpend_ids,
          checkAccountStructure_ids, checkKeywordsQS_ids, checkAdsAssets_ids,
          checkSettingsTargeting_ids.
  reflexivity.
Qed.

Lemma evaluators_noRows :
  map (fun evaluate : AccountDataset -> Evaluated =>
         map result (checks (evaluate Spec.noRows))) (evaluators findingText)
    = Spec.resultsWithoutData.
Proof. reflexivity. Qed.

End CatalogFacts.

(** C9, as the code has it.  Each of the six evaluators is a total function
    of the dataset and returns the full fixed list of rule ids of its
    category, in a fixed order, whatever the dataset holds: no check is ever
    omitted.  An entry that is missing or is not an array is read as an empty
    array: datasets with the same rows give the same ids, names, severities
    and results.  When no entry holds a row, the three Keywords & Quality
    Score checks are N/A, and in the other categories the checks that need
    the absent data are N/A while the others are FAIL, PASS or WARNING --
    G42, G43, G44, G14, G15, G05 and G06 among them are FAIL. *)
Theorem evaluators_total_fixed_ids
    (findingText : AccountDataset -> string -> string) (data : AccountDataset) :
  map (fun evaluate : AccountDataset -> Evaluated => map id (checks (evaluate data)))
      (evaluators findingText)
    = Spec.ruleIds /\
  (forall A : Type, @safeArray A Missing = [] /\ @safeArray A NotArray = []) /\
  (forall data',
      Spec.sameRows data data' ->
      map (fun evaluate : AccountDataset -> Evaluated =>
             map Spec.verdict (checks (evaluate data))) (evaluators findingText)
        = map (fun evaluate : AccountDataset -> Evaluated =>
                 map Spec.verdict (checks (evaluate data'))) (evaluators findingText)) /\
  (Spec.sameRows data Spec.noRows ->
   map (fun evaluate : AccountDataset -> Evaluated =>
          map result (checks (evaluate data))) (evaluators findingText)
     = Spec.resultsWithoutData).
Proof.
  split; [apply evaluators_ids|]. split; [intro A; split; reflexivity|]. split.
  - intros data' H. now apply evaluators_sameRows.
  - intro H. rewrite <- (evaluators_noRows findingText).
    pose proof (evaluators_sameRows findingText data Spec.noRows H) as E.
    apply (f_equal (map (map snd))) in E. rewrite !map_map in E.
    transitivity
      (map (fun evaluate : AccountDataset -> Evaluated =>
              map snd (map Spec.verdict (checks (evaluate data))))
           (evaluators findingText)).
    { apply map_ext. intro evaluate. apply results_of_verdicts. }
    rewrite E. apply map_ext. intro evaluate. symmetry. apply results_of_verdicts.
Qed.

Lemma evaluators_total_fixed_ids_witness :
  map (fun evaluate : AccountDataset -> Evaluated =>
         map result (checks (evaluate absentDataset))) (evaluators noFinding)
    = Spec.resultsWithoutData /\
  map (fun evaluate : AccountDataset -> Evaluated =>
         map Spec.verdict (checks (evaluate absentDataset))) (evaluators noFinding)
    = map (fun evaluate : AccountDataset -> Evaluated =>
             map Spec.verdict (checks (evaluate emptyDataset))) (evaluators noFinding).
Proof.
  destruct (evaluators_total_fixed_ids noFinding absentDataset) as (_ & _ & Hsame & Hnone).
  split.
  - apply Hnone. repeat split.
  - apply Hsame. repeat split.
Defined.

(** C9, as the specification states it, fails: with every dataset entry missing the
    conversion tracking evaluator reports G42, G43, G44 and G-CT3 as FAIL,
    G47 and G-CT1 as PASS and G-CT2 as WARNING, not as N/A. *)
Lemma absent_data_is_not_all_NA :
  map (fun c => (id c, result c)) (checks (checkConversionTracking noFinding emptyDataset))
    = [ ("G42", "FAIL"); ("G43", "FAIL"); ("G44", "FAIL"); ("G45", "N/A");
        ("G46", "N/A"); ("G47", "PASS"); ("G48", "N/A"); ("G49", "N/A");
        ("G-CT1", "PASS"); ("G-CT2", "WARNING"); ("G-CT3", "FAIL") ] /\
  ~ Forall (fun c => result c = "N/A")
           (checks (checkConversionTracking noFinding emptyDataset)).
Proof.
  split; [reflexivity|].
  intro H. apply Forall_inv in H. discriminate H.
Qed.

(** * Further properties of the scoring *)

Lemma scoreCategory_value (category : Evaluated) :
  validChecks (checks category) <> [] ->
  exists e p,
    e == JS.sum (map (fun c => resultValue c * sevWeight c) (validChecks (checks category))) /\
    p == JS.sum (map sevWeight (validChecks (checks category))) /\
    0 < p /\ 0 <= e <= p /\
    scoreCategory category
      = (Some (inject_Z (JS.Math_round (e / p * 1000)) / 10),
         scoreToGrade (Some (inject_Z (JS.Math_round (e / p * 1000)) / 10))).
Proof.
  intro Hne. unfold scoreCategory.
  destruct (validChecks (checks category)) as [|c0 rest] eqn:Ev; [congruence|].
  set (valid := c0 :: rest) in *.
  replace (List.length valid =? 0)%nat with false by reflexivity.
  destruct (scoreLoop_sums valid) as [He Hp].
  destruct (scoreLoop valid) as [e p]. cbn [fst snd] in He, Hp.
  pose proof (possible_pos valid Hne) as Hpos.
  pose proof (earned_range valid) as [He0 He1].
  rewrite <- He in He0, He1. rewrite <- Hp in Hpos, He1.
  exists e, p.
  replace (JS.ltb 0 p) with true by (symmetry; now apply ltb_lt).
  repeat split; assumption.
Qed.

Lemma tenths_range (e p : Q) :
  0 < p -> 0 <= e <= p ->
  0 <= inject_Z (JS.Math_round (e / p * 1000)) / 10 <= 100.
Proof.
  intros Hpos [He0 He1].
  assert (Hfrac0 : 0 <= e / p) by (apply Qle_shift_div_l; lra).
  assert (Hfrac1 : e / p <= 1) by (apply Qle_shift_div_r; lra).
  assert (Hb : (0 <= JS.Math_round (e / p * 1000) <= 1000)%Z).
  { clear - Hfrac0 Hfrac1. set (f := e / p) in *.
    apply Math_round_bounds; unfold inject_Z; lra. }
  destruct Hb as [Hb0 Hb1]. rewrite Zle_Qle in Hb0, Hb1.
  change (inject_Z 0) with 0 in Hb0. change (inject_Z 1000) with 1000 in Hb1.
  revert Hb0 Hb1. generalize (inject_Z (JS.Math_round (e / p * 1000))).
  intros z Hb0 Hb1. split.
  - apply Qle_shift_div_l; [reflexivity|]. lra.
  - apply Qle_shift_div_r; [reflexivity|]. lra.
Qed.

Lemma scoreCategory_cases (category : Evaluated) :
  match scoreCategory category with
  | (None, g) => g = "N/A" /\ validChecks (checks category) = []
  | (Some s, g) =>
      0 <= s <= 100 /\ g = Spec.gradeBand s /\ validChecks (checks category) <> []
  end.
Proof.
  destruct (validChecks (checks category)) as [|c0 rest] eqn:Ev.
  - unfold scoreCategory. rewrite Ev. cbn. split; reflexivity.
  - assert (Hne : validChecks (checks category) <> []) by (rewrite Ev; discriminate).
    destruct (scoreCategory_value category Hne) as (e & p & _ & _ & Hp & He & Hs).
    rewrite Hs, scoreToGrade_band.
    split; [now apply tenths_range|]. split; [reflexivity|discriminate].
Qed.


Lemma sum_perm (l1 l2 : list Q) : Permutation l1 l2 -> JS.sum l1 == JS.sum l2.
Proof.
  induction 1 as [|x l l' _ IH|x y l|l l' l'' _ IH1 _ IH2].
  - reflexivity.
  - now rewrite !sum_cons, IH.
  - rewrite !sum_cons. lra.
  - now rewrite IH1.
Qed.

Lemma scoreCategory_congr (c1 c2 : Evaluated) :
  validChecks (checks c1) <> [] -> validChecks (checks c2) <> [] ->
  JS.sum (map (fun c => resultValue c * sevWeight c) (validChecks (checks c1)))
    == JS.sum (map (fun c => resultValue c * sevWeight c) (validChecks (checks c2))) ->
  JS.sum (map sevWeight (validChecks (checks c1)))
    == JS.sum (map sevWeight (validChecks (checks c2))) ->
  scoreCategory c1 = scoreCategory c2.
Proof.
  intros H1 H2 He Hp.
  destruct (scoreCategory_value c1 H1) as (e1 & p1 & He1 & Hp1 & _ & _ & Hs1).
  destruct (scoreCategory_value c2 H2) as (e2 & p2 & He2 & Hp2 & _ & _ & Hs2).
  rewrite Hs1, Hs2.
  assert (E : JS.Math_round (e1 / p1 * 1000) = JS.Math_round (e2 / p2 * 1000)).
  { apply Math_round_comp. now rewrite He1, Hp1, He2, Hp2, He, Hp. }
  now rewrite E.
Qed.

(** X2.  The category score depends only on the checks that are not N/A,
    and not on their order: two categories whose non-N/A checks are the same
    up to order get the same score and grade; adding, removing or moving N/A
    checks changes nothing. *)
Theorem scoreCategory_order_irrelevant (c1 c2 : Evaluated) :
  Permutation (validChecks (checks c1)) (validChecks (checks c2)) ->
  scoreCategory c1 = scoreCategory c2.
Proof.
  intro Hperm.
  destruct (validChecks (checks c1)) as [|a l1] eqn:E1.
  - apply Permutation_nil in Hperm.
    unfold scoreCategory. now rewrite E1, Hperm.
  - assert (H1 : validChecks (checks c1) <> []) by (rewrite E1; discriminate).
    assert (H2 : validChecks (checks c2) <> []).
    { intro E2. rewrite E2 in Hperm. apply Permutation_sym, Permutation_nil in Hperm.
      discriminate Hperm. }
    rewrite <- E1 in Hperm.
    apply scoreCategory_congr; try assumption;
      apply sum_perm, Permutation_map; exact Hperm.
Qed.

Lemma scoreCategory_order_irrelevant_witness :
  scoreCategory (mkEvaluated "Ads & Assets" "15%" demoChecks)
    = scoreCategory (mkEvaluated "Ads & Assets" "15%" (rev demoChecks)).
Proof.
  apply scoreCategory_order_irrelevant.
  change (Permutation (firstn 3 demoChecks) (rev (firstn 3 demoChecks))).
  apply Permutation_rev.
Defined.

Lemma Math_round_le (x y : Q) : x <= y -> (JS.Math_round x <= JS.Math_round y)%Z.
Proof.
  intro H. unfold JS.Math_round. apply Qfloor_resp_le.
  apply Qplus_le_l. exact H.
Qed.

(** X3.  Improving one check never lowers the category score: when a check
    that is not N/A is replaced by one of the same severity whose result is
    worth at least as much (FAIL by WARNING or PASS, WARNING by PASS), the
    category is still scored and its score does not decrease. *)
Theorem scoreCategory_monotone (n w : string) (pre post : list Check) (c c' : Check) :
  result c <> "N/A" -> result c' <> "N/A" ->
  severity c' = severity c ->
  resultValue c <= resultValue c' ->
  exists s s',
    fst (scoreCategory (mkEvaluated n w (pre ++ c :: post))) = Some s /\
    fst (scoreCategory (mkEvaluated n w (pre ++ c' :: post))) = Some s' /\
    s <= s'.
Proof.
  intros Hc Hc' Hsev Hval.
  assert (Hw : sevWeight c' = sevWeight c) by (unfold sevWeight; now rewrite Hsev).
  set (cat := mkEvaluated n w (pre ++ c :: post)).
  set (cat' := mkEvaluated n w (pre ++ c' :: post)).
  assert (Hv : validChecks (checks cat) = (validChecks pre ++ c :: validChecks post)%list)
    by (cbn [checks cat]; now rewrite validChecks_app, validChecks_keep).
  assert (Hv' : validChecks (checks cat') = (validChecks pre ++ c' :: validChecks post)%list)
    by (cbn [checks cat']; now rewrite validChecks_app, validChecks_keep).
  assert (Hne : validChecks (checks cat) <> [])
    by (rewrite Hv; intro E; apply app_eq_nil in E; destruct E; discriminate).
  assert (Hne' : validChecks (checks cat') <> [])
    by (rewrite Hv'; intro E; apply app_eq_nil in E; destruct E; discriminate).
  destruct (scoreCategory_value cat Hne) as (e & p & He & Hp & Hpos & _ & Hs).
  destruct (scoreCategory_value cat' Hne') as (e' & p' & He' & Hp' & Hpos' & _ & Hs').
  rewrite Hs, Hs'. cbn [fst]. do 2 eexists. split; [reflexivity|]. split; [reflexivity|].
  rewrite Hv in He, Hp. rewrite Hv' in He', Hp'.
  rewrite !map_app in He, Hp, He', Hp'. cbn [map] in He, Hp, He', Hp'.
  rewrite !sum_app, !sum_cons in He, Hp, He', Hp'.
  rewrite Hw in He', Hp'.
  assert (Hpp : p' == p) by (rewrite Hp, Hp'; reflexivity).
  assert (Hee : e <= e').
  { rewrite He, He'. pose proof (sevWeight_pos c) as Hwp.
    assert (resultValue c * sevWeight c <= resultValue c' * sevWeight c)
      by (apply Qmult_le_compat_r; lra).
    lra. }
  assert (Hfrac : e / p <= e' / p').
  { rewrite Hpp. apply Qmult_le_compat_r; [exact Hee|].
    apply Qlt_le_weak, Qinv_lt_0_compat. exact Hpos. }
  assert (Hz : (JS.Math_round (e / p * 1000) <= JS.Math_round (e' / p' * 1000))%Z).
  { apply Math_round_le. apply Qmult_le_compat_r; [exact Hfrac|discriminate]. }
  rewrite Zle_Qle in Hz.
  apply Qmult_le_compat_r; [exact Hz|discriminate].
Qed.

Lemma scoreCategory_monotone_witness :
  exists s s',
    fst (scoreCategory (mkEvaluated "Conversion Tracking" "25%"
                          (demoChecks ++ failingCheck :: demoChecks))) = Some s /\
    fst (scoreCategory (mkEvaluated "Conversion Tracking" "25%"
                          (demoChecks ++ passingCheck :: demoChecks))) = Some s' /\
    s <= s'.
Proof.
  apply (scoreCategory_monotone "Conversion Tracking" "25%" demoChecks demoChecks
                                failingCheck passingCheck).
  - cbn. discriminate.
  - cbn. discriminate.
  - reflexivity.
  - cbn. discriminate.
Defined.



(** X5.  The grade is a monotone step function of the score, with steps
    exactly at 40, 60, 75 and 90: a higher score never gets a lower grade,
    each threshold itself belongs to the upper grade and every score below
    it to a lower one. *)
Theorem scoreToGrade_monotone (s1 s2 : Q) :
  s1 <= s2 ->
  (gradeRank (scoreToGrade (Some s1)) <= gradeRank (scoreToGrade (Some s2)))%nat /\
  (scoreToGrade (Some s1) = "A" <-> 90 <= s1) /\
  (scoreToGrade (Some s1) = "B" <-> 75 <= s1 < 90) /\
  (scoreToGrade (Some s1) = "C" <-> 60 <= s1 < 75) /\
  (scoreToGrade (Some s1) = "D" <-> 40 <= s1 < 60) /\
  (scoreToGrade (Some s1) = "F" <-> s1 < 40).
Proof.
  intro Hle. rewrite !scoreToGrade_band. unfold Spec.gradeBand.
  repeat match goal with
         | |- context [Qlt_le_dec ?a ?b] => destruct (Qlt_le_dec a b)
         end;
    cbn; repeat split; intros; try lia; try lra; try discriminate.
Qed.

Lemma scoreToGrade_monotone_witness :
  (gradeRank (scoreToGrade (Some 74.9%Q)) <= gradeRank (scoreToGrade (Some 75%Q)))%nat /\
  (scoreToGrade (Some 74.9) = "A" <-> 90 <= 74.9) /\
  (scoreToGrade (Some 74.9) = "B" <-> 75 <= 74.9 < 90) /\
  (scoreToGrade (Some 74.9) = "C" <-> 60 <= 74.9 < 75) /\
  (scoreToGrade (Some 74.9) = "D" <-> 40 <= 74.9 < 60) /\
  (scoreToGrade (Some 74.9) = "F" <-> 74.9 < 40).
Proof.
  apply (scoreToGrade_monotone 74.9 75). discriminate.
Defined.

(** * Further properties of the overall score *)













(** * Further properties of the check catalog *)

Section CatalogInvariants.
Variable findingText : AccountDataset -> string -> string.

Lemma checkConversionTracking_wellFormed (data : AccountDataset) :
  Forall Spec.wellFormed (checks (checkConversionTracking findingText data)).
Proof. unfold checkConversionTracking. well_formed_checks. Qed.

Lemma checkWastedSpend_wellFormed (data : AccountDataset) :
  Forall Spec.wellFormed (checks (checkWastedSpend findingText data)).
Proof. unfold checkWastedSpend. well_formed_checks. Qed.

Lemma checkAccountStructure_wellFormed (data : AccountDataset) :
  Forall Spec.wellFormed (checks (checkAccountStructure findingText data)).
Proof. unfold checkAccountStructure. well_formed_checks. Qed.

Lemma checkKeywordsQS_wellFormed (data : AccountDataset) :
  Forall Spec.wellFormed (checks (checkKeywordsQS findingText data)).
Proof. unfold checkKeywordsQS. well_formed_checks. Qed.

Lemma checkAdsAssets_wellFormed (data : AccountDataset) :
  Forall Spec.wellFormed (checks (checkAdsAssets findingText data)).
Proof. unfold checkAdsAssets. well_formed_checks. Qed.

Lemma checkSettingsTargeting_wellFormed (data : AccountDataset) :
  Forall Spec.wellFormed (checks (checkSettingsTargeting findingText data)).
Proof. unfold checkSettingsTargeting. well_formed_checks. Qed.

Lemma checkConversionTracking_severities (data : AccountDataset) :
  map idSeverity (checks (checkConversionTracking findingText data))
    = nth 0 ruleSeverities [].
Proof. reflexivity. Qed.

Lemma checkWastedSpend_severities (data : AccountDataset) :
  map idSeverity (checks (checkWastedSpend findingText data)) = nth 1 ruleSeverities [].
Proof.
  unfold checkWastedSpend. cbn [checks map idSeverity id severity nth ruleSeverities].
  split_branches.
Qed.

Lemma checkAccountStructure_severities (data : AccountDataset) :
  map idSeverity (checks (checkAccountStructure findingText data))
    = nth 2 ruleSeverities [].
Proof. reflexivity. Qed.

Lemma checkKeywordsQS_severities (data : AccountDataset) :
  map idSeverity (checks (checkKeywordsQS findingText data)) = nth 3 ruleSeverities [].
Proof. unfold checkKeywordsQS. split_branches. Qed.

Lemma checkAdsAssets_severities (data : AccountDataset) :
  map idSeverity (checks (checkAdsAssets findingText data)) = nth 4 ruleSeverities [].
Proof.
  unfold checkAdsAssets.
  cbn [checks map idSeverity id severity nth ruleSeverities app pmaxDetails].
  split_branches.
Qed.

Lemma checkSettingsTargeting_severities (data : AccountDataset) :
  map idSeverity (checks (checkSettingsTargeting findingText data))
    = nth 5 ruleSeverities [].
Proof. reflexivity. Qed.

Lemma evaluators_severities (data : AccountDataset) :
  map (fun evaluate : AccountDataset -> Evaluated =>
         map idSeverity (checks (evaluate data))) (evaluators findingText)
    = ruleSeverities.
Proof.
  unfold evaluators. cbn [map].
  rewrite checkConversionTracking_severities, checkWastedSpend_severities,
          checkAccountStructure_severities, checkKeywordsQS_severities,
          checkAdsAssets_severities, checkSettingsTargeting_severities.
  reflexivity.
Qed.

End CatalogInvariants.

(** X10.  Every check an evaluator returns is well formed, whatever the
    dataset: its severity is one of Critical, High, Medium and Low, its
    result one of PASS, WARNING, FAIL and N/A; and the severity of a rule is
    fixed: it never depends on the data. *)
Theorem evaluators_wellFormed
    (findingText : AccountDataset -> string -> string) (data : AccountDataset) :
  Forall (fun evaluate : AccountDataset -> Evaluated =>
            Forall Spec.wellFormed (checks (evaluate data)))
         (evaluators findingText) /\
  map (fun evaluate : AccountDataset -> Evaluated =>
         map idSeverity (checks (evaluate data))) (evaluators findingText)
    = ruleSeverities.
Proof.
  split; [|apply evaluators_severities].
  unfold evaluators.
  apply Forall_cons; [apply checkConversionTracking_wellFormed|].
  apply Forall_cons; [apply checkWastedSpend_wellFormed|].
  apply Forall_cons; [apply checkAccountStructure_wellFormed|].
  apply Forall_cons; [apply checkKeywordsQS_wellFormed|].
  apply Forall_cons; [apply checkAdsAssets_wellFormed|].
  apply Forall_cons; [apply checkSettingsTargeting_wellFormed|].
  apply Forall_nil.
Qed.

(** * The audit as a whole *)

Lemma valid_nonempty (c : Check) (cs : list Check) :
  In c cs -> result c <> "N/A" -> validChecks cs <> [].
Proof.
  intros Hin Hr E.
  assert (H : In c (validChecks cs)).
  { apply filter_In. split; [exact Hin|].
    destruct (String.eqb_spec (result c) "N/A"); [contradiction|reflexivity]. }
  rewrite E in H. exact H.
Qed.

Section AuditFacts.
Variable findingText : AccountDataset -> string -> string.

Lemma checkConversionTracking_scored (data : AccountDataset) :
  validChecks (checks (checkConversionTracking findingText data)) <> [].
Proof.
  unfold checkConversionTracking. cbn [checks].
  eapply valid_nonempty; [left; reflexivity|].
  cbn [result]. decide_check; discriminate.
Qed.

Lemma checkWastedSpend_scored (data : AccountDataset) :
  validChecks (checks (checkWastedSpend findingText data)) <> [].
Proof.
  unfold checkWastedSpend. cbn [checks].
  eapply valid_nonempty; [right; left; reflexivity|].
  cbn [result]. decide_check; discriminate.
Qed.

Lemma checkAccountStructure_scored (data : AccountDataset) :
  validChecks (checks (checkAccountStructure findingText data)) <> [].
Proof.
  unfold checkAccountStructure. cbn [checks].
  eapply valid_nonempty; [left; reflexivity|].
  cbn [result]. decide_check; discriminate.
Qed.

Lemma checkAdsAssets_scored (data : AccountDataset) :
  validChecks (checks (checkAdsAssets findingText data)) <> [].
Proof.
  unfold checkAdsAssets. cbn [checks app].
  eapply valid_nonempty; [do 3 right; left; reflexivity|].
  cbn [result]. decide_check; discriminate.
Qed.

Lemma checkSettingsTargeting_scored (data : AccountDataset) :
  validChecks (checks (checkSettingsTargeting findingText data)) <> [].
Proof.
  unfold checkSettingsTargeting. cbn [checks app].
  eapply valid_nonempty; [left; reflexivity|].
  cbn [result]. decide_check; discriminate.
Qed.

Lemma checkKeywordsQS_scored (data : AccountDataset) :
  validChecks (checks (checkKeywordsQS findingText data)) = [] <->
  activeSearch (safeArray (campaigns data)) = false \/ safeArray (keywords data) = [].
Proof.
  unfold checkKeywordsQS.
  destruct (activeSearch (safeArray (campaigns data))); cbn [negb orb].
  - destruct (safeArray (keywords data)) as [|k ks]; cbn [List.length Nat.eqb].
    + split; [now right|reflexivity].
    + split.
      * intro E. exfalso. revert E. cbn [checks].
        eapply valid_nonempty; [right; left; reflexivity|]. cbn. discriminate.
      * intros [H|H]; discriminate H.
  - split; [now left|reflexivity].
Qed.

Lemma scored_fields (cat : Evaluated) :
  let '(s, g) := scoreCategory cat in
  match s with
  | Some v => 0 <= v <= 100 /\ g = Spec.gradeBand v
  | None => g = "N/A" /\ validChecks (checks cat) = []
  end.
Proof.
  pose proof (scoreCategory_cases cat) as H.
  destruct (scoreCategory cat) as [[v|] g]; tauto.
Qed.

Lemma auditCategories_unfold (data : AccountDataset) :
  auditCategories findingText data
    = map (fun cat => mkCategory cat (fst (scoreCategory cat)) (snd (scoreCategory cat)))
          [ checkConversionTracking findingText data; checkWastedSpend findingText data;
            checkAccountStructure findingText data; checkKeywordsQS findingText data;
            checkAdsAssets findingText data; checkSettingsTargeting findingText data ].
Proof.
  unfold auditCategories, scoreAll, evaluators. cbn [map].
  repeat match goal with
         | |- context [scoreCategory ?c] => destruct (scoreCategory c)
         end.
  reflexivity.
Qed.

Lemma auditCategories_names (data : AccountDataset) :
  map (fun cat : Category => cat_name cat) (auditCategories findingText data)
    = Spec.categoryNames.
Proof.
  rewrite auditCategories_unfold. cbn [map evaluated cat_name].
  unfold checkKeywordsQS.
  repeat match goal with
         | |- context [if ?b then ?x else _] =>
             match type of x with Evaluated => destruct b end
         end; reflexivity.
Qed.

Lemma auditCategories_scores (data : AccountDataset) :
  Forall (fun cat : Category =>
            match score cat with
            | Some s => 0 <= s <= 100 /\ grade cat = Spec.gradeBand s
            | None => grade cat = "N/A" /\ cat_name cat = "Keywords & Quality Score"
            end)
         (auditCategories findingText data).
Proof.
  rewrite auditCategories_unfold. cbn [map].
  repeat apply Forall_cons; try apply Forall_nil; cbn [score grade evaluated];
    match goal with
    | |- context [scoreCategory ?c] =>
        pose proof (scored_fields c) as H; destruct (scoreCategory c) as [[v|] g];
        cbn [fst snd]; [exact H|destruct H as [Hg Hv]]
    end.
  - exfalso. revert Hv. apply checkConversionTracking_scored.
  - exfalso. revert Hv. apply checkWastedSpend_scored.
  - exfalso. revert Hv. apply checkAccountStructure_scored.
  - split; [exact Hg|]. unfold checkKeywordsQS.
    match goal with
    | |- context [if ?b then _ else _] => destruct b
    end; reflexivity.
  - exfalso. revert Hv. apply checkAdsAssets_scored.
  - exfalso. revert Hv. apply checkSettingsTargeting_scored.
Qed.

End AuditFacts.

(** X11.  In every audit the six categories come in their fixed order;
    each has either a score of [0, 100] with the grade of its band, or no
    score and the grade N/A.  Only "Keywords & Quality Score" can be without
    a score, and it is exactly when no Search campaign is enabled or there is
    no keyword row. *)
Theorem audit_categories
    (findingText : AccountDataset -> string -> string) (data : AccountDataset) :
  let categories := auditCategories findingText data in
  map (fun cat : Category => cat_name cat) categories = Spec.categoryNames /\
  Forall (fun cat : Category =>
            match score cat with
            | Some s => 0 <= s <= 100 /\ grade cat = Spec.gradeBand s
            | None => grade cat = "N/A" /\ cat_name cat = "Keywords & Quality Score"
            end) categories /\
  (nth_error (map score categories) 3 = Some None <->
   activeSearch (safeArray (campaigns data)) = false \/ safeArray (keywords data) = []).
Proof.
  cbn zeta. split; [apply auditCategories_names|]. split; [apply auditCategories_scores|].
  rewrite auditCategories_unfold. cbn [map nth_error score].
  rewrite <- checkKeywordsQS_scored with (findingText := findingText).
  pose proof (scoreCategory_cases (checkKeywordsQS findingText data)) as H.
  destruct (scoreCategory (checkKeywordsQS findingText data)) as [[v|] g]; cbn [fst].
  - split; [discriminate|]. intro E. destruct H as (_ & _ & Hne). contradiction.
  - split; [intros _; apply H|reflexivity].
Qed.

Lemma runAudit_fields
    (findingText : AccountDataset -> string -> string) (showNumber : Q -> string)
    (account : Account) (data : AccountDataset) (date : string) :
  let report := runAudit findingText showNumber account data date in
  let categories := auditCategories findingText data in
  Report.categories report = categories /\
  Report.healthScore report = fst (calculateOverallScore categories) /\
  Report.grade report = snd (calculateOverallScore categories) /\
  Report.verdict report = gradeVerdict (snd (calculateOverallScore categories)) /\
  Report.snapshot report = buildSnapshot data /\
  Report.industry report = detectIndustry (account_name account) data /\
  Report.topWastedProducts report = whenNonEmpty (fst (analyzeProducts data)) /\
  Report.topPerformingProducts report = whenNonEmpty (snd (analyzeProducts data)) /\
  Report.quickWins report = identifyQuickWins categories /\
  Report.recommendations report
    = generateRecommendations showNumber categories
        (detectIndustry (account_name account) data) (buildSnapshot data).
Proof.
  cbn zeta. unfold runAudit.
  destruct (calculateOverallScore (auditCategories findingText data)) as [h g].
  destruct (analyzeProducts data) as [tw tp].
  cbn. repeat split; reflexivity.
Qed.



(** * Further properties of the recommendations *)

Lemma criticalFails_In (categories : list Category) (c : Check) :
  In c (criticalFails categories) <->
  In c (Spec.allChecks categories) /\ severity c = "Critical" /\ result c = "FAIL".
Proof.
  unfold criticalFails. rewrite filter_In, failedChecks_filter, filter_In.
  rewrite andb_true_iff, !String.eqb_eq, isFailOrWarning_true. intuition.
Qed.

Lemma some_false {A} (p : A -> bool) (l : list A) :
  JS.some p l = false <-> forall x, In x l -> p x = false.
Proof.
  unfold JS.some. split.
  - intros H x Hx. destruct (p x) eqn:E; [|reflexivity].
    assert (existsb p l = true) by (apply existsb_exists; eauto). congruence.
  - intro H. destruct (existsb p l) eqn:E; [|reflexivity].
    apply existsb_exists in E. destruct E as [x [Hx Hp]]. rewrite (H x Hx) in Hp.
    discriminate.
Qed.

Lemma phase1_shape (b1 b2 b3 b4 b5 : bool) (r1 r2 r3 r4 r5 f : string) :
  NoDup [f; r1; r2; r3; r4; r5] ->
  let items := ((if b1 then [r1] else []) ++ (if b2 then [r2] else []) ++
                (if b3 then [r3] else []) ++ (if b4 then [r4] else []) ++
                (if b5 then [r5] else []))%list in
  let result := if (List.length items =? 0)%nat then [f] else items in
  result <> [] /\ (List.length result <= 5)%nat /\
  (result = [f] <-> b1 || b2 || b3 || b4 || b5 = false) /\
  (In r1 result <-> b1 = true) /\ (In r2 result <-> b2 = true) /\
  (In r5 result <-> b5 = true).
Proof.
  intros Hnd.
  inversion Hnd as [|? ? N0 Hnd1]; subst.
  inversion Hnd1 as [|? ? N1 Hnd2]; subst.
  inversion Hnd2 as [|? ? N2 Hnd3]; subst.
  inversion Hnd3 as [|? ? N3 Hnd4]; subst.
  inversion Hnd4 as [|? ? N4 _]; subst.
  cbn [In] in N0, N1, N2, N3, N4. clear Hnd Hnd1 Hnd2 Hnd3 Hnd4.
  destruct b1, b2, b3, b4, b5; cbn; repeat split; intros;
    try discriminate; try lia;
    try (intuition congruence).
Qed.

Lemma phase1_strings_distinct :
  NoDup [recNoCriticalFailures; recCleanTracking; recEnhancedConversions;
         recBrandCampaign; recNegativeLists; recGeoTargeting].
Proof.
  repeat constructor; cbn [In]; intro H;
    repeat (destruct H as [H|H]; [discriminate H|]); exact H.
Qed.


(** X13.  Phase 1 of the recommendations is never empty and has at most
    five items.  It is the single message that no critical failure was found
    exactly when no Critical check with result FAIL has an id that starts
    with G4 or G-CT or is G05, G14 or G11 -- in particular when no Critical
    check fails at all.  The conversion-tracking clean-up paragraph is there
    exactly when a Critical FAIL has an id starting with G4 or G-CT, so the
    enhanced-conversions paragraph (G43) never comes without it. *)
Theorem phase1_shape_spec (categories : list Category) :
  phase1 categories <> [] /\
  (List.length (phase1 categories) <= 5)%nat /\
  (phase1 categories = [recNoCriticalFailures] <->
   forall c, In c (Spec.allChecks categories) ->
             severity c = "Critical" -> result c = "FAIL" -> phase1Trigger c = false) /\
  ((forall c, In c (Spec.allChecks categories) ->
              severity c = "Critical" -> result c <> "FAIL") ->
   phase1 categories = [recNoCriticalFailures]) /\
  (In recCleanTracking (phase1 categories) <->
   exists c, In c (Spec.allChecks categories) /\ severity c = "Critical" /\
             result c = "FAIL" /\ (prefix "G4" (id c) || prefix "G-CT" (id c)) = true) /\
  (In recEnhancedConversions (phase1 categories) ->
   In recCleanTracking (phase1 categories)).
Proof.
  unfold phase1. cbn zeta.
  set (fails := criticalFails categories).
  set (b1 := JS.some (fun c => prefix "G4" (id c) || prefix "G-CT" (id c)) fails).
  set (b2 := JS.some (fun c => id c =? "G43") fails).
  set (b3 := JS.some (fun c => id c =? "G05") fails).
  set (b4 := JS.some (fun c => id c =? "G14") fails).
  set (b5 := JS.some (fun c => id c =? "G11") fails).
  destruct (phase1_shape b1 b2 b3 b4 b5 _ _ _ _ _ _ phase1_strings_distinct)
    as (H0 & Hlen & Hfall & H1 & H2 & _).
  cbn zeta in H0, Hlen, Hfall, H1, H2.
  assert (Hb21 : b2 = true -> b1 = true).
  { subst b1 b2. unfold JS.some. rewrite !existsb_exists.
    intros [c [Hc E]]. exists c. split; [exact Hc|].
    apply String.eqb_eq in E. now rewrite E. }
  assert (Hall : b1 || b2 || b3 || b4 || b5 = false <->
                 forall c, In c (Spec.allChecks categories) ->
                           severity c = "Critical" -> result c = "FAIL" ->
                           phase1Trigger c = false).
  { rewrite !orb_false_iff. subst b1 b2 b3 b4 b5. rewrite !some_false. split.
    - intros ((((A1 & A2) & A3) & A4) & A5) c Hc Hs Hr.
      assert (Hin : In c fails) by (apply criticalFails_In; auto).
      unfold phase1Trigger. rewrite !orb_false_iff.
      specialize (A1 c Hin). apply orb_false_iff in A1. destruct A1.
      repeat split; auto.
    - intro H.
      assert (H' : forall c, In c fails -> phase1Trigger c = false).
      { intros c Hin. apply criticalFails_In in Hin. destruct Hin as (Hc & Hs & Hr).
        now apply H. }
      unfold phase1Trigger in H'.
      repeat split; intros c Hin; specialize (H' c Hin);
        rewrite !orb_false_iff in H'; try tauto.
      + apply orb_false_iff. tauto.
      + destruct H' as ((((P1 & _) & _) & _) & _).
        destruct (String.eqb_spec (id c) "G43") as [E|]; [|reflexivity].
        rewrite E in P1. discriminate P1. }
  split; [exact H0|]. split; [exact Hlen|]. split; [now rewrite Hfall|].
  split.
  - intro Hnone. apply Hfall, Hall. intros c Hc Hs Hr. exfalso. now apply (Hnone c).
  - split.
    + rewrite H1. subst b1. unfold JS.some. rewrite existsb_exists. split.
      * intros [c [Hin E]]. apply criticalFails_In in Hin. exists c. tauto.
      * intros [c (Hc & Hs & Hr & E)]. exists c. split; [|exact E].
        apply criticalFails_In. auto.
    + intro Hin. apply H1, Hb21, H2, Hin.
Qed.

Lemma audit_checks_severities
    (findingText : AccountDataset -> string -> string) (data : AccountDataset) (c : Check) :
  In c (Spec.allChecks (auditCategories findingText data)) ->
  In (idSeverity c) (List.concat ruleSeverities).
Proof.
  rewrite auditCategories_unfold. unfold Spec.allChecks.
  cbn [map flat_map evaluated]. rewrite app_nil_r.
  pose proof (evaluators_severities findingText data) as Hsev.
  unfold evaluators in Hsev. cbn [map] in Hsev.
  rewrite <- Hsev. cbn [List.concat]. rewrite app_nil_r.
  rewrite !in_app_iff. intros H.
  repeat (destruct H as [H|H]; [apply (in_map idSeverity) in H; tauto|]).
  apply (in_map idSeverity) in H. tauto.
Qed.

Lemma identifyQuickWins_In (categories : list Category) (w : QuickWin) :
  In w (identifyQuickWins categories) ->
  exists c, In c (Spec.allChecks categories) /\ isQuickWin c = true /\
            w = Spec.toQuickWin c.
Proof.
  unfold identifyQuickWins. intro H. apply in_firstn in H.
  apply in_flat_map in H. destruct H as [cat [Hcat H]].
  apply in_flat_map in H. destruct H as [c [Hc H]].
  destruct (isQuickWin c) eqn:E; [|contradiction].
  destruct H as [<-|[]]. exists c. split; [|split; [exact E|reflexivity]].
  unfold Spec.allChecks. apply in_flat_map. eauto.
Qed.

Lemma phase1_geo (categories : list Category) :
  In recGeoTargeting (phase1 categories) ->
  exists c, In c (Spec.allChecks categories) /\ idSeverity c = ("G11", "Critical").
Proof.
  unfold phase1. cbn zeta.
  set (fails := criticalFails categories).
  set (b1 := JS.some (fun c => prefix "G4" (id c) || prefix "G-CT" (id c)) fails).
  set (b2 := JS.some (fun c => id c =? "G43") fails).
  set (b3 := JS.some (fun c => id c =? "G05") fails).
  set (b4 := JS.some (fun c => id c =? "G14") fails).
  set (b5 := JS.some (fun c => id c =? "G11") fails).
  destruct (phase1_shape b1 b2 b3 b4 b5 _ _ _ _ _ _ phase1_strings_distinct)
    as (_ & _ & _ & _ & _ & H5).
  cbn zeta in H5. rewrite H5. subst b5. unfold JS.some. rewrite existsb_exists.
  intros [c [Hin E]]. apply criticalFails_In in Hin. destruct Hin as (Hc & Hs & _).
  apply String.eqb_eq in E. exists c. split; [exact Hc|].
  unfold idSeverity. now rewrite E, Hs.
Qed.

(** X14.  In an audit the quick wins are rules whose fixed severity is
    Critical or High, so the action texts kept for the Medium rules G06,
    G-AD1 and G53 are never used; and since G11 is a High rule, the
    geo-targeting paragraph of phase 1, which asks for a Critical failure of
    G11, never appears. *)
Theorem audit_unreachable_texts
    (findingText : AccountDataset -> string -> string) (showNumber : Q -> string)
    (account : Account) (data : AccountDataset) (date : string) :
  let report := runAudit findingText showNumber account data date in
  Forall (fun w => In (check w, impact w) (List.concat ruleSeverities) /\
                   (impact w = "Critical" \/ impact w = "High") /\
                   ~ In (check w) ["G06"; "G-AD1"; "G53"])
         (Report.quickWins report) /\
  ~ In recGeoTargeting (phase1 (Report.categories report)) /\
  nth_error (Report.recommendations report) 0
    = Some ("Phase 1: Fix the Foundation (Week 1)", phase1 (Report.categories report)).
Proof.
  cbn zeta.
  destruct (runAudit_fields findingText showNumber account data date)
    as (Hc & _ & _ & _ & _ & _ & _ & _ & Hq & Hr).
  rewrite Hc, Hq, Hr. split; [|split; [|reflexivity]].
  - rewrite Forall_forall. intros w Hw.
    apply identifyQuickWins_In in Hw. destruct Hw as (c & Hin & Hqw & ->).
    apply audit_checks_severities in Hin.
    apply isQuickWin_true in Hqw. destruct Hqw as [_ Hsev].
    cbn [Spec.toQuickWin check impact]. split; [exact Hin|]. split; [exact Hsev|].
    unfold idSeverity in Hin. intro Hmed. cbn [In] in Hmed.
    destruct Hmed as [E|[E|[E|[]]]]; rewrite <- E in Hin;
      destruct Hsev as [S|S]; rewrite S in Hin; cbn in Hin;
      repeat (destruct Hin as [Hin|Hin]; [discriminate Hin|]); exact Hin.
  - intro H. apply phase1_geo in H. destruct H as (c & Hin & E).
    apply audit_checks_severities in Hin. rewrite E in Hin. cbn in Hin.
    repeat (destruct Hin as [Hin|Hin]; [discriminate Hin|]). exact Hin.
Qed.


(** * Industry detection *)

Lemma lowerAscii_idem (c : ascii) : lowerAscii (lowerAscii c) = lowerAscii c.
Proof.
  destruct c as [[] [] [] [] [] [] [] []]; reflexivity.
Qed.

Lemma toLowerCase_idem (s : string) : toLowerCase (toLowerCase s) = toLowerCase s.
Proof.
  induction s as [|c s IH]; cbn [toLowerCase]; [reflexivity|].
  now rewrite lowerAscii_idem, IH.
Qed.

(** X16.  An account is labelled E-commerce exactly when it has a shopping
    row, a conversion action of category PURCHASE or ADD_TO_CART, or a
    campaign of channel type SHOPPING or PERFORMANCE_MAX (enabled or not);
    the account name plays no part in it. *)
Theorem detectIndustry_ecommerce (accountName : string) (data : AccountDataset) :
  detectIndustry accountName data = "E-commerce" <->
  safeArray (shopping_performance data) <> [] \/
  (exists r, In r (safeArray (conversion_actions data)) /\
             (conversionAction_category r = Some "PURCHASE" \/
              conversionAction_category r = Some "ADD_TO_CART")) \/
  (exists r, In r (safeArray (campaigns data)) /\
             (campaign_advertisingChannelType r = Some "SHOPPING" \/
              campaign_advertisingChannelType r = Some "PERFORMANCE_MAX")).
Proof.
  assert (Hor : forall (o : option string) (k : string),
             k <> "" -> (JS.or_str o "" =? k) = true <-> o = Some k).
  { intros o k Hk. rewrite String.eqb_eq. destruct o as [[|c s]|]; cbn; split; intro H;
      try congruence; try (injection H as <-; congruence). }
  unfold detectIndustry.
  destruct (safeArray (shopping_performance data)) as [|p ps] eqn:Ep; cbn [List.length Nat.ltb Nat.leb].
  2: { split; [intros _; left; discriminate|reflexivity]. }
  match goal with
  | |- context [JS.some ?f (safeArray (conversion_actions data))] =>
      destruct (JS.some f (safeArray (conversion_actions data))) eqn:Ec
  end.
  { split; [intros _|reflexivity]. right. left.
    unfold JS.some in Ec. apply existsb_exists in Ec. destruct Ec as [r [Hr E]].
    exists r. split; [exact Hr|]. cbn zeta in E. apply orb_true_iff in E.
    rewrite !Hor in E by discriminate. exact E. }
  match goal with
  | |- context [JS.some ?f (safeArray (campaigns data))] =>
      destruct (JS.some f (safeArray (campaigns data))) eqn:Em
  end.
  { split; [intros _|reflexivity]. right. right.
    unfold JS.some in Em. apply existsb_exists in Em. destruct Em as [r [Hr E]].
    exists r. split; [exact Hr|]. apply orb_true_iff in E. unfold channelType in E.
    rewrite !Hor in E by discriminate. exact E. }
  split.
  - repeat match goal with |- context [if ?b then _ else _] => destruct b end;
      discriminate.
  - intros [H|[[r [Hr E]]|[r [Hr E]]]].
    + congruence.
    + exfalso. rewrite some_false in Ec. specialize (Ec r Hr). cbn zeta in Ec.
      apply orb_false_iff in Ec. destruct Ec as [E1 E2].
      destruct E as [E|E]; rewrite E in *; discriminate.
    + exfalso. rewrite some_false in Em. specialize (Em r Hr).
      apply orb_false_iff in Em. destruct Em as [E1 E2]. unfold channelType in *.
      destruct E as [E|E]; rewrite E in *; discriminate.
Qed.

(** X17.  The label is always one of E-commerce, Legal, Local Services,
    Healthcare, Travel and General, each of which has a benchmark entry; the
    benchmark labels B2B SaaS, Finance, Real Estate and Education are never
    produced. *)
Theorem detectIndustry_labels (accountName : string) (data : AccountDataset) :
  In (detectIndustry accountName data)
     ["E-commerce"; "Legal"; "Local Services"; "Healthcare"; "Travel"; "General"] /\
  In (detectIndustry accountName data) benchmarkIndustries /\
  ~ In (detectIndustry accountName data)
       ["B2B SaaS"; "Finance"; "Real Estate"; "Education"].
Proof.
  unfold detectIndustry, benchmarkIndustries.
  repeat match goal with |- context [if ?b then _ else _] => destruct b end;
    (split; [cbn; auto 10|split; [cbn; auto 12|]]);
    cbn [In]; intro H; repeat (destruct H as [H|H]; [discriminate H|]); exact H.
Qed.

(** * Further properties of the product analysis *)

Lemma toCents_le (x y : Q) : x <= y -> toCents x <= toCents y.
Proof.
  intro H. unfold toCents.
  apply Qmult_le_compat_r; [|discriminate].
  rewrite <- Zle_Qle. apply Math_round_le.
  apply Qmult_le_compat_r; [exact H|discriminate].
Qed.

Lemma StronglySorted_firstn {A} (R : A -> A -> Prop) (n : nat) (l : list A) :
  StronglySorted R l -> StronglySorted R (firstn n l).
Proof.
  intro H. revert n. induction H as [|x l Hl IH Hx]; intro n.
  - rewrite firstn_nil. constructor.
  - destruct n as [|n]; cbn [firstn]; constructor; [apply IH|].
    rewrite Forall_forall in *. intros y Hy. apply Hx. eapply in_firstn, Hy.
Qed.

Lemma StronglySorted_map {A B} (R : A -> A -> Prop) (S : B -> B -> Prop) (f : A -> B)
    (l : list A) :
  (forall a b, R a b -> S (f a) (f b)) ->
  StronglySorted R l -> StronglySorted S (map f l).
Proof.
  intros Hf H. induction H as [|x l Hl IH Hx]; cbn [map]; constructor; [exact IH|].
  rewrite Forall_forall in *. intros y Hy. apply in_map_iff in Hy.
  destruct Hy as [a [<- Ha]]. apply Hf, Hx, Ha.
Qed.

(** X18.  The report lists at most 8 wasted and at most 5 performing
    products.  The wasted products appear in non-increasing order of the
    spend that is reported, each with a reported spend of at least $10; the
    performing products all have conversions above 0; and no row can qualify
    for both lists. *)
Theorem analyzeProducts_shape (data : AccountDataset) :
  let topWasted := fst (analyzeProducts data) in
  let topPerforming := snd (analyzeProducts data) in
  (List.length topWasted <= 8)%nat /\
  (List.length topPerforming <= 5)%nat /\
  StronglySorted (fun a b => Product.spend b <= Product.spend a) topWasted /\
  Forall (fun e => 10 <= Product.spend e) topWasted /\
  Forall (fun e => 0 < Product.conversions e) topPerforming /\
  (forall r, ~ (isWasted r = true /\ isPerforming r = true)).
Proof.
  cbn zeta. rewrite (analyzeProducts_lists data). cbn [fst snd].
  split; [rewrite length_map; apply firstn_le_length|].
  split; [rewrite length_map; apply firstn_le_length|].
  split; [|split; [|split]].
  - apply StronglySorted_map
      with (R := fun a b => microsToDollars (costOf b) <= microsToDollars (costOf a)).
    + intros a b H. cbn [wastedEntry Product.spend]. apply (toCents_le _ _ H).
    + apply StronglySorted_firstn.
      apply (sort_descending (fun r => microsToDollars (costOf r))).
  - rewrite Forall_forall. intros e He. apply in_map_iff in He.
    destruct He as [r [<- Hr]]. apply in_firstn in Hr.
    apply (Permutation_in _ (sort_perm _ _)) in Hr. apply filter_In in Hr.
    destruct Hr as [_ Hw]. apply isWasted_true in Hw. destruct Hw as [_ Hw].
    cbn [wastedEntry Product.spend].
    apply Qle_trans with (toCents 10); [discriminate|].
    apply (toCents_le 10 (microsToDollars (costOf r))). lra.
  - rewrite Forall_forall. intros e He. apply in_map_iff in He.
    destruct He as [r [<- Hr]]. apply in_firstn in Hr.
    apply (Permutation_in _ (sort_perm _ _)) in Hr. apply filter_In in Hr.
    destruct Hr as [_ Hp]. unfold isPerforming in Hp. apply ltb_lt in Hp.
    exact Hp.
  - intros r [Hw Hp]. apply isWasted_true in Hw. destruct Hw as [Hw _].
    unfold isPerforming in Hp. apply ltb_lt in Hp. lra.
Qed.

(** * Further properties of the quick wins *)

(** X19.  Quick wins are given out in category order: the quick wins of
    the first categories always open the list, and once they fill the seven
    places the remaining categories get none, whatever they contain. *)
Theorem identifyQuickWins_priority (first others : list Category) :
  (exists rest,
      identifyQuickWins (first ++ others) = (identifyQuickWins first ++ rest)%list) /\
  (List.length (identifyQuickWins first) = 7%nat ->
   identifyQuickWins (first ++ others) = identifyQuickWins first).
Proof.
  unfold identifyQuickWins. rewrite flat_map_app.
  set (a := flat_map _ first). set (b := flat_map _ others).
  rewrite firstn_app. split.
  - eexists. reflexivity.
  - intro Hlen.
    assert (Ha : (7 <= List.length a)%nat).
    { destruct (Nat.le_gt_cases 7 (List.length a)) as [H|H]; [exact H|].
      rewrite firstn_all2 in Hlen by lia. lia. }
    replace (7 - List.length a)%nat with 0%nat by lia.
    cbn [firstn]. apply app_nil_r.
Qed.

Lemma identifyQuickWins_priority_witness :
  identifyQuickWins (firstn 3 (auditCategories noFinding emptyDataset)
                     ++ skipn 3 (auditCategories noFinding emptyDataset))
    = identifyQuickWins (firstn 3 (auditCategories noFinding emptyDataset)).
Proof.
  apply (identifyQuickWins_priority
           (firstn 3 (auditCategories noFinding emptyDataset))
           (skipn 3 (auditCategories noFinding emptyDataset))).
  vm_compute. reflexivity.
Defined.

(** * Further properties of the duplicate detector *)

Lemma filter_length_le {A} (p : A -> bool) (l : list A) :
  (List.length (filter p l) <= List.length l)%nat.
Proof.
  induction l as [|x l IH]; cbn [filter List.length]; [lia|].
  destruct (p x); cbn [List.length]; lia.
Qed.

Lemma filter_length_mono {A} (p q : A -> bool) (l : list A) :
  (forall x, p x = true -> q x = true) ->
  (List.length (filter p l) <= List.length (filter q l))%nat.
Proof.
  intro H. induction l as [|x l IH]; cbn [filter]; [lia|].
  destruct (p x) eqn:E.
  - rewrite (H x E). cbn [List.length]. lia.
  - destruct (q x); cbn [List.length]; lia.
Qed.

(** X20.  The detector reports at most nine patterns, one per keyword;
    fewer than two names give none, so that an account with at most one
    conversion action always passes G-CT1; and one more name never makes the
    number of patterns smaller. *)
Theorem findDuplicatePatterns_bounds
    (findingText : AccountDataset -> string -> string) (data : AccountDataset)
    (names : list string) (extra : string) :
  (List.length (findDuplicatePatterns names) <= 9)%nat /\
  ((List.length names <= 1)%nat -> findDuplicatePatterns names = []) /\
  (List.length (findDuplicatePatterns names)
   <= List.length (findDuplicatePatterns (extra :: names)))%nat /\
  ((List.length (safeArray (conversion_actions data)) <= 1)%nat ->
   exists c,
     find (fun c => id c =? "G-CT1") (checks (checkConversionTracking findingText data))
       = Some c /\ result c = "PASS").
Proof.
  assert (Hfew : forall l, (List.length l <= 1)%nat -> findDuplicatePatterns l = []).
  { intros l Hl. rewrite findDuplicatePatterns_filter.
    replace (filter _ duplicateKeywords) with (@nil string); [reflexivity|].
    symmetry. induction duplicateKeywords as [|kw kws IH]; [reflexivity|].
    cbn [filter].
    assert (Hc : (Spec.countContaining kw l <= 1)%nat).
    { unfold Spec.countContaining. pose proof (filter_length_le (fun n => includes n kw) l).
      lia. }
    destruct (Nat.ltb_spec 1 (Spec.countContaining kw l)); [lia|exact IH]. }
  split; [|split; [exact (Hfew names)|split]].
  - rewrite findDuplicatePatterns_filter, length_map.
    apply (filter_length_le _ duplicateKeywords).
  - rewrite !findDuplicatePatterns_filter, !length_map.
    apply filter_length_mono. intros kw H.
    apply Nat.ltb_lt in H. apply Nat.ltb_lt.
    unfold Spec.countContaining in *. cbn [filter].
    destruct (includes extra kw); cbn [List.length]; lia.
  - intro Hlen. eexists. split; [reflexivity|]. cbn [result].
    rewrite Hfew; [reflexivity|]. now rewrite length_map.
Qed.

Lemma findDuplicatePatterns_bounds_witness :
  findDuplicatePatterns ["purchase order form"] = [] /\
  (exists c,
      find (fun c => id c =? "G-CT1") (checks (checkConversionTracking noFinding emptyDataset))
        = Some c /\ result c = "PASS").
Proof.
  destruct (findDuplicatePatterns_bounds noFinding emptyDataset ["purchase order form"] "")
    as (_ & Hfew & _ & Hpass).
  split; [apply Hfew|apply Hpass]; cbn; lia.
Defined.

(** The four products above: the wasted ones by decreasing spend. *)
Example analyzeProducts_mixed :
  map Product.product (fst (analyzeProducts mixedShoppingDataset))
    = ["Desk"; "Shelf"; "Lamp"] /\
  map Product.product (snd (analyzeProducts mixedShoppingDataset)) = ["Chair"].
Proof. split; reflexivity. Qed.

(** * Further properties of the snapshot and of the spend checks *)

Lemma sum_nonneg (l : list Q) : Forall (fun x => 0 <= x) l -> 0 <= JS.sum l.
Proof.
  induction 1 as [|x l Hx _ IH]; [rewrite sum_nil; lra|rewrite sum_cons; lra].
Qed.

Lemma sum_le {A} (f g : A -> Q) (l : list A) :
  Forall (fun x => f x <= g x) l -> JS.sum (map f l) <= JS.sum (map g l).
Proof.
  induction 1 as [|x l Hx _ IH]; cbn [map]; [rewrite !sum_nil; lra|].
  rewrite !sum_cons. lra.
Qed.

Lemma hundredths_range (num den : Q) :
  0 < den -> 0 <= num <= den ->
  0 <= inject_Z (JS.Math_round (num / den * 10000)) / 100 <= 100.
Proof.
  intros Hpos [H0 H1].
  assert (Hf0 : 0 <= num / den) by (apply Qle_shift_div_l; lra).
  assert (Hf1 : num / den <= 1) by (apply Qle_shift_div_r; lra).
  assert (Hb : (0 <= JS.Math_round (num / den * 10000) <= 10000)%Z).
  { clear - Hf0 Hf1. set (f := num / den) in *.
    apply Math_round_bounds; unfold inject_Z; lra. }
  destruct Hb as [Hb0 Hb1]. rewrite Zle_Qle in Hb0, Hb1.
  change (inject_Z 0) with 0 in Hb0. change (inject_Z 10000) with 10000 in Hb1.
  revert Hb0 Hb1. generalize (inject_Z (JS.Math_round (num / den * 10000))).
  intros z Hb0 Hb1. split.
  - apply Qle_shift_div_l; [reflexivity|]. lra.
  - apply Qle_shift_div_r; [reflexivity|]. lra.
Qed.

(** X21.  In a snapshot the enabled campaigns are at most the campaigns and
    the campaigns with spend at most the campaign metric rows.  Without
    account metric rows the spend, CTR, average CPC, ROAS, CPA and
    conversions are all 0 and the impression share is null.  When in every
    account metric row the clicks are between 0 and the impressions, the CTR
    is a percentage of [0, 100]. *)
Theorem buildSnapshot_bounds (data : AccountDataset) :
  let snap := buildSnapshot data in
  (Snap.enabledCampaigns snap <= Snap.totalCampaigns snap)%nat /\
  (Snap.activeCampaignsWithSpend snap
   <= List.length (safeArray (campaign_metrics data)))%nat /\
  (safeArray (account_metrics data) = [] ->
   Snap.spend30d snap == 0 /\ Snap.ctr snap == 0 /\ Snap.avgCpc snap == 0 /\
   Snap.roas snap == 0 /\ Snap.cpa snap == 0 /\ Snap.conversions30d snap == 0 /\
   Snap.searchImpressionShare snap = None) /\
  (Forall (fun r => 0 <= JS.Number_or0 (metrics_clicks r)
                      <= JS.Number_or0 (metrics_impressions r))
          (safeArray (account_metrics data)) ->
   0 <= Snap.ctr snap <= 100).
Proof.
  cbn zeta. unfold buildSnapshot.
  cbn [Snap.enabledCampaigns Snap.totalCampaigns Snap.activeCampaignsWithSpend
       Snap.spend30d Snap.ctr Snap.avgCpc Snap.roas Snap.cpa Snap.conversions30d
       Snap.searchImpressionShare].
  split; [apply filter_length_le|]. split; [apply filter_length_le|]. split.
  - intros ->. cbn. repeat split; reflexivity.
  - intro Hrows.
    set (rows := safeArray (account_metrics data)) in *.
    assert (Hc0 : 0 <= JS.sum (map (fun r => JS.Number_or0 (metrics_clicks r)) rows)).
    { apply sum_nonneg. rewrite Forall_forall in *. intros x Hx.
      apply in_map_iff in Hx. destruct Hx as [r [<- Hr]]. apply (Hrows r Hr). }
    assert (Hci : JS.sum (map (fun r => JS.Number_or0 (metrics_clicks r)) rows)
                  <= JS.sum (map (fun r => JS.Number_or0 (metrics_impressions r)) rows)).
    { apply sum_le. rewrite Forall_forall in *. intros r Hr. apply (Hrows r Hr). }
    destruct (JS.ltb 0 (JS.sum (map (fun r => JS.Number_or0 (metrics_impressions r)) rows)))
      eqn:E.
    + apply ltb_lt in E. apply hundredths_range; [exact E|split; assumption].
    + split; discriminate.
Qed.

Lemma buildSnapshot_bounds_witness :
  (Snap.spend30d (buildSnapshot emptyDataset) == 0 /\
   Snap.ctr (buildSnapshot emptyDataset) == 0 /\
   Snap.avgCpc (buildSnapshot emptyDataset) == 0 /\
   Snap.roas (buildSnapshot emptyDataset) == 0 /\
   Snap.cpa (buildSnapshot emptyDataset) == 0 /\
   Snap.conversions30d (buildSnapshot emptyDataset) == 0 /\
   Snap.searchImpressionShare (buildSnapshot emptyDataset) = None) /\
  0 <= Snap.ctr (buildSnapshot (trafficDataset [trafficRow 1000 25 None;
                                                trafficRow 40 40 None])) <= 100.
Proof.
  split.
  - apply (buildSnapshot_bounds emptyDataset). reflexivity.
  - apply (buildSnapshot_bounds (trafficDataset [trafficRow 1000 25 None;
                                                 trafficRow 40 40 None])).
    repeat constructor; cbn; discriminate.
Defined.

Lemma pct_of_whole (x : Q) : ~ x == 0 -> pct x x == 100.
Proof.
  intro Hx. unfold pct. apply Qeq_bool_false in Hx. rewrite Hx.
  rewrite (Math_round_comp _ 10000); [reflexivity|].
  apply Qeq_bool_false in Hx. field. exact Hx.
Qed.

Lemma pct_of_nothing (d : Q) : pct 0 d == 0.
Proof.
  unfold pct. destruct (Qeq_bool d 0) eqn:E; [reflexivity|].
  rewrite (Math_round_comp _ 0); [reflexivity|].
  apply Qeq_bool_false in E. field. exact E.
Qed.

(** X22.  With shopping rows present, the wasted-spend check G16 is the
    fourth check of its category and is decided by the share of the product
    spend that goes to rows without conversions: it is PASS when the total
    spend is 0 and when no row lacks conversions, and FAIL when every row
    lacks conversions and the total spend is not 0. *)
Theorem wasted_spend_check
    (findingText : AccountDataset -> string -> string) (data : AccountDataset) :
  safeArray (shopping_performance data) <> [] ->
  let products := safeArray (shopping_performance data) in
  let spend := total (fun r => microsToDollars (metrics_costMicros r)) products in
  exists c,
    nth_error (checks (checkWastedSpend findingText data)) 3 = Some c /\
    id c = "G16" /\
    (spend == 0 -> result c = "PASS") /\
    (Forall (fun r => zeroConversions r = false) products -> result c = "PASS") /\
    (Forall (fun r => zeroConversions r = true) products -> ~ spend == 0 ->
     result c = "FAIL").
Proof.
  intro Hne. cbn zeta. unfold checkWastedSpend.
  destruct (safeArray (shopping_performance data)) as [|p ps] eqn:Ep; [congruence|].
  rewrite <- Ep. set (products := safeArray (shopping_performance data)).
  replace (0 <? List.length products)%nat with true
    by (subst products; rewrite Ep; reflexivity).
  cbn [checks nth_error]. eexists. split; [reflexivity|]. split; [reflexivity|].
  cbn [result]. unfold total.
  set (spend := JS.sum (map (fun r => microsToDollars (metrics_costMicros r)) products)).
  fold zeroConversions.
  change (filter (fun r => Qeq_bool (JS.Number_or0 (metrics_conversions r)) 0) products)
    with (filter zeroConversions products).
  split; [|split].
  - intro H0. unfold pct. apply Qeq_bool_iff in H0. rewrite H0. reflexivity.
  - intro Hnone.
    assert (E : filter zeroConversions products = []).
    { clear - Hnone. induction Hnone as [|r l Hr _ IH]; [reflexivity|].
      cbn [filter]. now rewrite Hr. }
    rewrite E. cbn [map].
    assert (Hp : pct (JS.sum []) spend == 0) by apply pct_of_nothing.
    assert (Hlt : JS.ltb (pct (JS.sum []) spend) 20 = true)
      by (apply ltb_lt; rewrite Hp; reflexivity).
    now rewrite Hlt.
  - intros Hall Hs.
    assert (E : filter zeroConversions products = products).
    { clear - Hall. induction Hall as [|r l Hr _ IH]; [reflexivity|].
      cbn [filter]. now rewrite Hr, IH. }
    rewrite E. fold spend.
    pose proof (pct_of_whole spend Hs) as Hp.
    assert (H20 : JS.ltb (pct spend spend) 20 = false)
      by (apply ltb_ge; rewrite Hp; discriminate).
    assert (H40 : JS.ltb (pct spend spend) 40 = false)
      by (apply ltb_ge; rewrite Hp; discriminate).
    now rewrite H20, H40.
Qed.

Lemma wasted_spend_check_witness :
  exists c,
    nth_error (checks (checkWastedSpend noFinding valuedWasteDataset)) 3 = Some c /\
    id c = "G16" /\ result c = "FAIL".
Proof.
  destruct (wasted_spend_check noFinding valuedWasteDataset) as (c & Hn & Hid & _ & _ & Hf).
  - cbn. discriminate.
  - exists c. split; [exact Hn|]. split; [exact Hid|]. apply Hf.
    + repeat constructor.
    + cbn. intro H. discriminate H.
Defined.

(** * Slugs of account names *)

Lemma isSlugChar_plain (c : ascii) :
  isSlugChar c = true ->
  lowerAscii c = c /\ Ascii.eqb c "'" = false /\ Ascii.eqb c "-" = false.
Proof.
  destruct c as [[] [] [] [] [] [] [] []]; intro H;
    solve [discriminate H | repeat split; reflexivity].
Qed.

Lemma hyphen_cases (c : ascii) :
  Ascii.eqb c "-" = true -> c = "-"%char.
Proof. intro H. now apply Ascii.eqb_eq. Qed.

Lemma hyphenate_hyphenated (s : string) :
  forall b, hyphenated b (hyphenate b s) = true.
Proof.
  induction s as [|c s IH]; intro b; cbn [hyphenate]; [reflexivity|].
  destruct (isSlugChar c) eqn:E.
  - cbn [hyphenated]. rewrite E. apply IH.
  - destruct b; [apply IH|].
    cbn [hyphenated]. change (isSlugChar "-") with false.
    change (Ascii.eqb "-" "-") with true. cbn [negb andb]. apply IH.
Qed.

Lemma dropLeadingHyphen_hyphenated (t : string) :
  hyphenated false t = true -> hyphenated true (dropLeadingHyphen t) = true.
Proof.
  destruct t as [|c r]; [reflexivity|]. cbn [dropLeadingHyphen hyphenated].
  destruct (isSlugChar c) eqn:E.
  - destruct (isSlugChar_plain c E) as (_ & _ & Eh). rewrite Eh.
    cbn [hyphenated]. now rewrite E.
  - destruct (Ascii.eqb c "-") eqn:Eh; [|discriminate]. cbn [negb andb]. tauto.
Qed.

Lemma dropTrailingHyphen_slugTail (t : string) :
  forall b, hyphenated b t = true ->
    if b then t = "" \/ slugTail true (dropTrailingHyphen t) = true
    else slugTail false (dropTrailingHyphen t) = true.
Proof.
  induction t as [|c r IH]; intros b H.
  - destruct b; [now left|reflexivity].
  - cbn [hyphenated] in H. destruct (isSlugChar c) eqn:E.
    + destruct (isSlugChar_plain c E) as (_ & _ & Eh).
      assert (Hs : forall b', slugTail b' (dropTrailingHyphen (String c r)) = true).
      { intro b'. specialize (IH false H). cbn beta iota in IH.
        destruct r as [|d r'].
        - cbn [dropTrailingHyphen]. rewrite Eh. cbn [slugTail]. now rewrite E.
        - change (dropTrailingHyphen (String c (String d r')))
            with (String c (dropTrailingHyphen (String d r'))).
          cbn [slugTail]. now rewrite E. }
      destruct b; [right|]; apply Hs.
    + destruct (Ascii.eqb c "-") eqn:Eh; [|discriminate H].
      destruct b; [discriminate H|]. cbn [negb andb] in H.
      apply hyphen_cases in Eh. subst c.
      specialize (IH true H). cbn beta iota in IH.
      destruct IH as [-> | IH]; [reflexivity|].
      destruct r as [|d r']; [reflexivity|].
      change (dropTrailingHyphen (String "-" (String d r')))
        with (String "-"%char (dropTrailingHyphen (String d r'))).
      cbn [slugTail]. change (isSlugChar "-") with false.
      change (Ascii.eqb "-" "-") with true. cbn [negb andb]. exact IH.
Qed.

Lemma slugify_slug (name : string) : isSlug (slugify name) = true.
Proof.
  unfold slugify, trimHyphens.
  pose proof (hyphenate_hyphenated (removeApostrophes (toLowerCase name)) false) as H.
  apply dropLeadingHyphen_hyphenated in H.
  apply dropTrailingHyphen_slugTail in H. cbn beta iota in H.
  destruct H as [-> | H]; [reflexivity|].
  unfold isSlug. now destruct (dropTrailingHyphen _).
Qed.

Lemma slugTail_fixed (s : string) :
  forall b, slugTail b s = true ->
    toLowerCase s = s /\ removeApostrophes s = s /\ hyphenate b s = s /\
    dropTrailingHyphen s = s /\ everyChar (fun c => isSlugChar c || Ascii.eqb c "-") s = true.
Proof.
  induction s as [|c r IH]; intros b H; [repeat split; reflexivity|].
  cbn [slugTail] in H. destruct (isSlugChar c) eqn:E.
  - destruct (isSlugChar_plain c E) as (El & Ea & Eh).
    destruct (IH false H) as (H1 & H2 & H3 & H4 & H5).
    cbn [toLowerCase removeApostrophes hyphenate everyChar].
    rewrite El, Ea, E, H1, H2, H3, H5. repeat split.
    destruct r as [|d r']; cbn [dropTrailingHyphen]; [now rewrite Eh|].
    change (match r' with "" => if Ascii.eqb d "-" then "" else String d r'
                     | String _ _ => String d (dropTrailingHyphen r') end)
      with (dropTrailingHyphen (String d r')).
    now rewrite H4.
  - destruct (Ascii.eqb c "-") eqn:Eh; [|discriminate H].
    destruct b; [discriminate H|]. cbn [negb andb] in H.
    apply hyphen_cases in Eh. subst c.
    destruct (IH true H) as (H1 & H2 & H3 & H4 & H5).
    cbn [toLowerCase removeApostrophes hyphenate everyChar].
    change (lowerAscii "-") with "-"%char. change (Ascii.eqb "-" "'") with false.
    change (isSlugChar "-") with false. change (Ascii.eqb "-" "-") with true.
    rewrite H1, H2, H3, H5. repeat split.
    destruct r as [|d r']; [discriminate H|].
    change (dropTrailingHyphen (String "-" (String d r')))
      with (String "-"%char (dropTrailingHyphen (String d r'))).
    now rewrite H4.
Qed.

Lemma slug_fixed (s : string) :
  isSlug s = true ->
  slugify s = s /\ everyChar (fun c => isSlugChar c || Ascii.eqb c "-") s = true.
Proof.
  destruct s as [|c r]; [split; reflexivity|]. unfold isSlug. intro H.
  assert (Hc : isSlugChar c = true).
  { cbn [slugTail] in H. destruct (isSlugChar c); [reflexivity|].
    rewrite Bool.andb_false_r in H. discriminate H. }
  assert (H' : slugTail false (String c r) = true).
  { cbn [slugTail] in *. now rewrite Hc in *. }
  destruct (slugTail_fixed _ _ H') as (H1 & H2 & H3 & H4 & H5).
  split; [|exact H5].
  unfold slugify, trimHyphens. rewrite H1, H2, H3.
  destruct (isSlugChar_plain c Hc) as (_ & _ & Eh).
  cbn [dropLeadingHyphen]. rewrite Eh. exact H4.
Qed.

(** X23.  The slug of any account name consists of groups of the characters
    a-z and 0-9 separated by single hyphens, with no hyphen at either end
    (so it holds no slash, dot or space), and taking the slug of a slug
    changes nothing. *)
Theorem slugify_shape (name : string) :
  isSlug (slugify name) = true /\
  everyChar (fun c => isSlugChar c || Ascii.eqb c "-") (slugify name) = true /\
  slugify (slugify name) = slugify name.
Proof.
  pose proof (slugify_slug name) as H.
  destruct (slug_fixed _ H) as [Hf Hc]. repeat split; assumption.
Qed.

(** X24.  A name that already has the shape of a slug is its own slug. *)
Theorem slugify_fixed_point (s : string) :
  isSlug s = true -> slugify s = s.
Proof. intro H. apply (slug_fixed s H). Qed.

Lemma slugify_fixed_point_witness :
  slugify "smith-sons-roofing-2" = "smith-sons-roofing-2".
Proof. apply (slugify_fixed_point "smith-sons-roofing-2"). reflexivity. Defined.

(** The slug of a name with capitals, an apostrophe and punctuation. *)
Example slugify_demo :
  slugify "Smith & Sons' Roofing, LLC." = "smith-sons-roofing-llc" /\
  slugify "  --  " = "".
Proof. split; reflexivity. Qed.

(** * The manifest *)

Lemma defaultCompare_le (a b : string) :
  Qle_bool (defaultCompare a b) 0 = String.leb a b.
Proof.
  unfold defaultCompare, String.leb. now destruct (String.compare a b).
Qed.

Lemma insertSorted_default_hd (y x : string) (l : list string) :
  HdRel (fun a b => String.leb a b = true) y l -> String.leb y x = true ->
  HdRel (fun a b => String.leb a b = true) y (insertSorted defaultCompare x l).
Proof.
  intros Hy Hyx. destruct l as [|z l]; cbn [insertSorted]; [now constructor|].
  destruct (Qle_bool (defaultCompare x z) 0); constructor; [exact Hyx|].
  now inversion Hy.
Qed.

Lemma insertSorted_default_sorted (x : string) (l : list string) :
  Sorted (fun a b => String.leb a b = true) l ->
  Sorted (fun a b => String.leb a b = true) (insertSorted defaultCompare x l).
Proof.
  induction 1 as [|y l Hl IH Hy]; cbn [insertSorted].
  - repeat constructor.
  - rewrite defaultCompare_le. destruct (String.leb x y) eqn:E.
    + constructor; [now constructor|now constructor].
    + constructor; [exact IH|]. apply insertSorted_default_hd; [exact Hy|].
      destruct (String.leb_total x y) as [H|H]; [congruence|exact H].
Qed.

Lemma sort_default_sorted (l : list string) :
  Sorted (fun a b => String.leb a b = true) (sort defaultCompare l).
Proof.
  induction l as [|x l IH]; cbn [sort fold_right]; [constructor|].
  now apply insertSorted_default_sorted.
Qed.

Lemma existsb_eqb_In (date : string) (l : list string) :
  existsb (String.eqb date) l = true <-> In date l.
Proof.
  rewrite existsb_exists. split.
  - intros [x [Hx E]]. apply String.eqb_eq in E. now subst.
  - intro H. exists date. split; [exact H|apply String.eqb_refl].
Qed.

Lemma recordDate_id (date : string) (e : Manifest.entry) :
  Manifest.id (recordDate date e) = Manifest.id e.
Proof. unfold recordDate. now destruct (existsb _ _). Qed.

Lemma recordDate_dates (date : string) (e : Manifest.entry) :
  forall d, In d (Manifest.dates (recordDate date e)) <->
            d = date \/ In d (Manifest.dates e).
Proof.
  intro d. unfold recordDate.
  destruct (existsb (String.eqb date) (Manifest.dates e)) eqn:E.
  - apply existsb_eqb_In in E. split; [tauto|]. intros [->|H]; assumption.
  - cbn [Manifest.dates]. split.
    + intro H. apply (Permutation_in _ (sort_perm _ _)) in H.
      apply in_app_or in H. destruct H as [H|[H|[]]]; [now right|now left].
    + intro H. apply (Permutation_in _ (Permutation_sym (sort_perm _ _))).
      apply in_or_app. destruct H as [->|H]; [right; now left|now left].
Qed.

Lemma recordDate_kept (date : string) (e : Manifest.entry) :
  NoDup (Manifest.dates e) /\
  Sorted (fun a b => String.leb a b = true) (Manifest.dates e) ->
  NoDup (Manifest.dates (recordDate date e)) /\
  Sorted (fun a b => String.leb a b = true) (Manifest.dates (recordDate date e)).
Proof.
  intros [Hn Hs]. unfold recordDate.
  destruct (existsb (String.eqb date) (Manifest.dates e)) eqn:E; [now split|].
  cbn [Manifest.dates]. split; [|apply sort_default_sorted].
  apply (Permutation_NoDup (Permutation_sym (sort_perm _ _))).
  apply (Permutation_NoDup (Permutation_cons_append _ _)).
  constructor; [|exact Hn].
  intro H. apply existsb_eqb_In in H. congruence.
Qed.

Lemma recordDate_fixed (date : string) (e : Manifest.entry) :
  In date (Manifest.dates e) -> recordDate date e = e.
Proof.
  intro H. unfold recordDate. apply existsb_eqb_In in H. now rewrite H.
Qed.

Lemma updateExisting_None (slug date : string) (l : list Manifest.entry) :
  updateExisting slug date l = None -> ~ In slug (map Manifest.id l).
Proof.
  induction l as [|a r IH]; cbn [updateExisting map]; [tauto|].
  destruct (Manifest.id a =? slug) eqn:E; [discriminate|].
  destruct (updateExisting slug date r); [discriminate|].
  intros _ [H|H]; [|now apply IH].
  apply String.eqb_neq in E. congruence.
Qed.

Lemma updateExisting_ids (slug date : string) (l l' : list Manifest.entry) :
  updateExisting slug date l = Some l' -> map Manifest.id l' = map Manifest.id l.
Proof.
  revert l'. induction l as [|a r IH]; intros l'; cbn [updateExisting]; [discriminate|].
  destruct (Manifest.id a =? slug).
  - intros [= <-]. cbn [map]. now rewrite recordDate_id.
  - destruct (updateExisting slug date r) as [r'|]; [|discriminate].
    intros [= <-]. cbn [map]. now rewrite (IH r' eq_refl).
Qed.

Lemma updateExisting_kept (slug date : string) (l l' : list Manifest.entry) :
  updateExisting slug date l = Some l' ->
  Forall (fun e => NoDup (Manifest.dates e) /\
                   Sorted (fun a b => String.leb a b = true) (Manifest.dates e)) l ->
  Forall (fun e => NoDup (Manifest.dates e) /\
                   Sorted (fun a b => String.leb a b = true) (Manifest.dates e)) l'.
Proof.
  revert l'. induction l as [|a r IH]; intros l'; cbn [updateExisting]; [discriminate|].
  intros H Hall. inversion Hall as [|? ? Ha Hr]; subst.
  destruct (Manifest.id a =? slug).
  - injection H as <-. constructor; [now apply recordDate_kept|exact Hr].
  - destruct (updateExisting slug date r) as [r'|]; [|discriminate].
    injection H as <-. constructor; [exact Ha|now apply IH].
Qed.

Lemma recordAccount_ids (date : string) (l : list Manifest.entry) (acct : Account) :
  map Manifest.id (recordAccount date l acct) = map Manifest.id l \/
  (~ In (slugify (account_name acct)) (map Manifest.id l) /\
   map Manifest.id (recordAccount date l acct)
     = (map Manifest.id l ++ [slugify (account_name acct)])%list).
Proof.
  unfold recordAccount.
  destruct (updateExisting (slugify (account_name acct)) date l) as [l'|] eqn:E.
  - left. now apply updateExisting_ids in E.
  - right. split; [now apply updateExisting_None in E|].
    now rewrite map_app.
Qed.

Lemma recordAccount_kept (date : string) (l : list Manifest.entry) (acct : Account) :
  wellKept l -> wellKept (recordAccount date l acct).
Proof.
  intros [Hids Hdates]. split.
  - destruct (recordAccount_ids date l acct) as [E|[Hn E]]; rewrite E; [exact Hids|].
    apply (Permutation_NoDup (Permutation_cons_append _ _)). now constructor.
  - unfold recordAccount.
    destruct (updateExisting (slugify (account_name acct)) date l) as [l'|] eqn:E.
    + now apply (updateExisting_kept _ _ _ _ E).
    + apply Forall_app. split; [exact Hdates|]. constructor; [|constructor].
      cbn [Manifest.dates]. split; repeat constructor. intros [].
Qed.

Lemma fold_recordAccount_kept (date : string) (accts : list Account) :
  forall l, wellKept l -> wellKept (fold_left (recordAccount date) accts l).
Proof.
  induction accts as [|a r IH]; intros l H; cbn [fold_left]; [exact H|].
  apply IH. now apply recordAccount_kept.
Qed.

Lemma fold_recordAccount_ids (date : string) (accts : list Account) :
  forall l, exists added,
    map Manifest.id (fold_left (recordAccount date) accts l)
      = (map Manifest.id l ++ added)%list /\
    (List.length added <= List.length accts)%nat.
Proof.
  induction accts as [|a r IH]; intro l; cbn [fold_left].
  - exists []. split; [now rewrite app_nil_r|apply Nat.le_refl].
  - destruct (IH (recordAccount date l a)) as (added & E & Hlen).
    destruct (recordAccount_ids date l a) as [E'|[_ E']]; rewrite E' in E.
    + exists added. split; [exact E|]. cbn [List.length]. lia.
    + exists (slugify (account_name a) :: added). split.
      * now rewrite E, <- app_assoc.
      * cbn [List.length]. lia.
Qed.

Lemma find_updateExisting (slug slug' date : string) (l l' : list Manifest.entry) :
  updateExisting slug' date l = Some l' ->
  findAccount slug l' =
    if slug =? slug' then option_map (recordDate date) (findAccount slug l)
    else findAccount slug l.
Proof.
  unfold findAccount. revert l'.
  induction l as [|a r IH]; intros l'; cbn [updateExisting]; [discriminate|].
  destruct (Manifest.id a =? slug') eqn:Ea.
  - intros [= <-]. cbn [find]. rewrite recordDate_id.
    apply String.eqb_eq in Ea.
    destruct (slug =? slug') eqn:Es.
    + apply String.eqb_eq in Es. subst. now rewrite String.eqb_refl.
    + destruct (Manifest.id a =? slug) eqn:Ea'; [|reflexivity].
      apply String.eqb_eq in Ea'. apply String.eqb_neq in Es. congruence.
  - destruct (updateExisting slug' date r) as [r'|]; [|discriminate].
    intros [= <-]. cbn [find]. specialize (IH r' eq_refl).
    destruct (Manifest.id a =? slug) eqn:Ea'; [|exact IH].
    destruct (slug =? slug') eqn:Es; [|reflexivity].
    apply String.eqb_eq in Ea', Es. apply String.eqb_neq in Ea. congruence.
Qed.

Lemma find_appended (slug : string) (l : list Manifest.entry) (e : Manifest.entry) :
  findAccount slug (l ++ [e]) =
    match findAccount slug l with
    | Some a => Some a
    | None => if Manifest.id e =? slug then Some e else None
    end.
Proof.
  unfold findAccount. induction l as [|a r IH]; cbn [app find]; [reflexivity|].
  now destruct (Manifest.id a =? slug).
Qed.

Lemma find_absent (slug : string) (l : list Manifest.entry) :
  ~ In slug (map Manifest.id l) -> findAccount slug l = None.
Proof.
  unfold findAccount. induction l as [|a r IH]; cbn [map find]; [reflexivity|].
  intro H. destruct (Manifest.id a =? slug) eqn:E.
  - apply String.eqb_eq in E. exfalso. apply H. now left.
  - apply IH. intro Hin. apply H. now right.
Qed.

Lemma recordAccount_records (date : string) (l : list Manifest.entry) (acct : Account) :
  recorded (slugify (account_name acct)) date (recordAccount date l acct).
Proof.
  unfold recorded, recordAccount.
  destruct (updateExisting (slugify (account_name acct)) date l) as [l'|] eqn:E.
  - rewrite (find_updateExisting _ _ _ _ _ E), String.eqb_refl.
    destruct (findAccount (slugify (account_name acct)) l) as [e|] eqn:Ef.
    + exists (recordDate date e). split; [reflexivity|].
      apply recordDate_dates. now left.
    + exfalso. clear - E Ef. unfold findAccount in Ef.
      induction l as [|a r IH] in l', E, Ef |- *; cbn [updateExisting find] in *;
        [discriminate|].
      destruct (Manifest.id a =? slugify (account_name acct)); [discriminate|].
      destruct (updateExisting (slugify (account_name acct)) date r) as [r'|];
        [|discriminate].
      now apply (IH r').
  - rewrite find_appended, (find_absent _ _ (updateExisting_None _ _ _ E)).
    cbn [Manifest.id]. rewrite String.eqb_refl. eexists. split; [reflexivity|].
    now left.
Qed.

Lemma recordAccount_keeps (slug d date : string) (l : list Manifest.entry)
    (acct : Account) :
  recorded slug d l -> recorded slug d (recordAccount date l acct).
Proof.
  intros (e & Hf & Hd). unfold recorded, recordAccount.
  destruct (updateExisting (slugify (account_name acct)) date l) as [l'|] eqn:E.
  - rewrite (find_updateExisting _ _ _ _ _ E), Hf.
    destruct (slug =? slugify (account_name acct)).
    + exists (recordDate date e). split; [reflexivity|].
      apply recordDate_dates. now right.
    + now exists e.
  - rewrite find_appended, Hf. now exists e.
Qed.

Lemma fold_recordAccount_keeps (slug d date : string) (accts : list Account) :
  forall l, recorded slug d l ->
            recorded slug d (fold_left (recordAccount date) accts l).
Proof.
  induction accts as [|a r IH]; intros l H; cbn [fold_left]; [exact H|].
  apply IH. now apply recordAccount_keeps.
Qed.

Lemma fold_recordAccount_records (date : string) (accts : list Account) :
  forall l acct, In acct accts ->
    recorded (slugify (account_name acct)) date (fold_left (recordAccount date) accts l).
Proof.
  induction accts as [|a r IH]; intros l acct Hin; [destruct Hin|].
  cbn [fold_left]. destruct Hin as [<-|Hin].
  - apply fold_recordAccount_keeps. apply recordAccount_records.
  - now apply IH.
Qed.

Lemma updateExisting_fixed (slug date : string) (l : list Manifest.entry) :
  recorded slug date l -> updateExisting slug date l = Some l.
Proof.
  intros (e & Hf & Hd). unfold findAccount in Hf.
  induction l as [|a r IH]; cbn [find updateExisting] in *; [discriminate|].
  destruct (Manifest.id a =? slug).
  - injection Hf as ->. now rewrite recordDate_fixed.
  - now rewrite (IH Hf).
Qed.

Lemma fold_recordAccount_fixed (date : string) (accts : list Account) :
  forall l,
    (forall acct, In acct accts -> recorded (slugify (account_name acct)) date l) ->
    fold_left (recordAccount date) accts l = l.
Proof.
  induction accts as [|a r IH]; intros l H; cbn [fold_left]; [reflexivity|].
  assert (E : recordAccount date l a = l).
  { unfold recordAccount. rewrite updateExisting_fixed; [reflexivity|].
    apply H. now left. }
  rewrite E. apply IH. intros acct Hin. apply H. now right.
Qed.

(** X25.  After the manifest update every audited account is on record: the
    entry found under the slug of its name lists the audit date.  The ids of
    the stored entries stay where they were, new ids follow them, at most one
    for each audited account, and the time stamp is the given one. *)
Theorem updateManifest_records (stored : option Manifest.t)
    (auditedAccounts : list Account) (date now : string) (acct : Account) :
  In acct auditedAccounts ->
  let manifest := updateManifest stored auditedAccounts date now in
  recorded (slugify (account_name acct)) date (Manifest.accounts manifest) /\
  (exists added,
     map Manifest.id (Manifest.accounts manifest)
       = (map Manifest.id (storedAccounts stored) ++ added)%list /\
     (List.length added <= List.length auditedAccounts)%nat) /\
  Manifest.lastUpdated manifest = now.
Proof.
  intro Hin. cbn zeta. unfold updateManifest. cbn [Manifest.accounts Manifest.lastUpdated].
  split; [now apply fold_recordAccount_records|]. split; [|reflexivity].
  destruct stored as [m|]; apply fold_recordAccount_ids.
Qed.

Lemma updateManifest_records_witness :
  recorded "smith-sons-roofing" "2025-01-05"
           (Manifest.accounts
              (updateManifest (Some demoManifest) [demoAccount] "2025-01-05" "now")).
Proof.
  apply (updateManifest_records (Some demoManifest) [demoAccount]
                                "2025-01-05" "now" demoAccount).
  now left.
Defined.

(** X26.  The manifest update keeps the manifest well kept: when no two
    stored entries share an id and every stored entry lists its dates once
    each in increasing order, the same holds afterwards; without a stored
    manifest it holds of the new one. *)
Theorem updateManifest_wellKept (stored : option Manifest.t)
    (auditedAccounts : list Account) (date now : string) :
  wellKept (storedAccounts stored) ->
  wellKept (Manifest.accounts (updateManifest stored auditedAccounts date now)).
Proof.
  intro H. unfold updateManifest. cbn [Manifest.accounts].
  destruct stored as [m|]; now apply fold_recordAccount_kept.
Qed.

Lemma updateManifest_wellKept_witness :
  wellKept (Manifest.accounts
              (updateManifest (Some demoManifest)
                 [demoAccount; mkAccount "Smith, Sons: Roofing" "999"; mkAccount "Zed" "5"]
                 "2025-01-01" "now")).
Proof.
  apply (updateManifest_wellKept (Some demoManifest)).
  split.
  - cbn. repeat constructor; cbn; intuition discriminate.
  - repeat constructor; cbn; intuition discriminate.
Defined.

(** X27.  Updating the manifest a second time with the same accounts and the
    same date changes no entry. *)
Theorem updateManifest_idempotent (stored : option Manifest.t)
    (auditedAccounts : list Account) (date now later : string) :
  let once := updateManifest stored auditedAccounts date now in
  Manifest.accounts (updateManifest (Some once) auditedAccounts date later)
    = Manifest.accounts once.
Proof.
  cbn zeta. unfold updateManifest at 1. cbn [Manifest.accounts].
  apply fold_recordAccount_fixed. intros acct Hin.
  unfold updateManifest. cbn [Manifest.accounts].
  now apply fold_recordAccount_records.
Qed.

(** The demo account audited on a new day and a new account audited for the
    first time. *)
Example updateManifest_demo :
  Manifest.accounts
    (updateManifest (Some demoManifest) [demoAccount; mkAccount "Zed's" "5"]
                    "2025-01-01" "now")
  = [ Manifest.mkEntry "acme" "ACME" "111-111-1111" ["2025-01-02"; "2025-01-04"];
      Manifest.mkEntry "smith-sons-roofing" "Smith & Sons Roofing" "123-456-7890"
                       ["2025-01-01"; "2025-01-03"];
      Manifest.mkEntry "zeds" "Zed's" "5" ["2025-01-01"] ].
Proof. reflexivity. Qed.

(** * Columnar query results *)

Section ColumnarFacts.
Import Columnar.

Lemma splitDots_nonempty (s : string) : splitDots s <> [].
Proof.
  destruct s as [|c r]; cbn [splitDots]; [discriminate|].
  destruct (Ascii.eqb c "."); [discriminate|].
  destruct (splitDots r); discriminate.
Qed.

Lemma getField_setField_same (k : string) (v : Value) (fields : list (string * Value)) :
  getField k (setField k v fields) = Some v.
Proof.
  unfold getField. induction fields as [|[k' v'] r IH]; cbn [setField find fst].
  - now rewrite String.eqb_refl.
  - destruct (k' =? k) eqn:E; cbn [find fst].
    + now rewrite String.eqb_refl.
    + now rewrite E.
Qed.

Lemma getField_setField_other (k k0 : string) (v : Value)
    (fields : list (string * Value)) :
  k0 <> k -> getField k0 (setField k v fields) = getField k0 fields.
Proof.
  intro Hne. unfold getField.
  induction fields as [|[k' v'] r IH]; cbn [setField find fst].
  - apply String.eqb_neq in Hne. rewrite String.eqb_sym in Hne. now rewrite Hne.
  - destruct (k' =? k) eqn:E; cbn [find fst].
    + apply String.eqb_eq in E. subst k'.
      apply String.eqb_neq in Hne. rewrite String.eqb_sym in Hne. now rewrite Hne.
    + destruct (k' =? k0); [reflexivity|exact IH].
Qed.

Lemma lookupPath_nil (parts : list string) : lookupPath parts [] = None.
Proof. destruct parts as [|k [|k' r]]; reflexivity. Qed.

Lemma lookupPath_cons (k k' : string) (rest : list string)
    (fields : list (string * Value)) :
  lookupPath (k :: k' :: rest) fields =
    match getField k fields with
    | Some (Object child) => lookupPath (k' :: rest) child
    | _ => None
    end.
Proof. reflexivity. Qed.

Lemma isPrefix_refl (a : list string) : isPrefix a a = true.
Proof.
  induction a as [|x a IH]; [reflexivity|]. cbn [isPrefix].
  now rewrite String.eqb_refl.
Qed.

Lemma apart_cons (k : string) (q p : list string) :
  apart (k :: q) (k :: p) = apart q p.
Proof. unfold apart. cbn [isPrefix]. now rewrite String.eqb_refl. Qed.

Lemma apart_sym (a b : list string) : apart a b = apart b a.
Proof. unfold apart. apply Bool.andb_comm. Qed.

Lemma apart_not_prefix (a b : list string) :
  apart a b = true -> isPrefix a b = false /\ isPrefix b a = false.
Proof.
  unfold apart. intro H. apply Bool.andb_true_iff in H. destruct H as [H1 H2].
  apply Bool.negb_true_iff in H1, H2. now split.
Qed.

Lemma not_apart (a b : list string) :
  apart a b = false -> isPrefix a b = true \/ isPrefix b a = true.
Proof.
  unfold apart. intro H. apply Bool.andb_false_iff in H.
  destruct H as [H|H]; apply Bool.negb_false_iff in H; [now left|now right].
Qed.

Lemma isPrefix_trans (a b c : list string) :
  isPrefix a b = true -> isPrefix b c = true -> isPrefix a c = true.
Proof.
  revert b c. induction a as [|x a IH]; intros b c Hab Hbc; [reflexivity|].
  destruct b as [|y b]; [discriminate Hab|].
  destruct c as [|z c]; [discriminate Hbc|].
  cbn [isPrefix] in *. apply Bool.andb_true_iff in Hab, Hbc.
  destruct Hab as [E1 Hab], Hbc as [E2 Hbc].
  apply String.eqb_eq in E1, E2. subst. rewrite String.eqb_refl.
  now apply (IH b c).
Qed.

(** A value read below a path is read through objects. *)
Lemma lookupPath_through (r parts : list string) (obj : list (string * Value))
    (v : Value) (c : Cell) :
  isPrefix r parts = true -> lookupPath parts obj = Some v ->
  lookupPath r obj = Some (Leaf c) -> r = parts.
Proof.
  revert parts obj. induction r as [|k r IH]; intros parts obj Hp Hv Hl;
    [discriminate Hl|].
  destruct parts as [|p rest]; [discriminate Hp|].
  cbn [isPrefix] in Hp. apply Bool.andb_true_iff in Hp. destruct Hp as [E Hp].
  apply String.eqb_eq in E. subst p.
  destruct r as [|k' r'].
  - destruct rest as [|p' rest']; [reflexivity|].
    rewrite lookupPath_cons in Hv. cbn [lookupPath] in Hl. rewrite Hl in Hv.
    discriminate Hv.
  - destruct rest as [|p' rest']; [discriminate Hp|].
    rewrite lookupPath_cons in Hv, Hl.
    destruct (getField k obj) as [[c'|child]|]; try discriminate Hl.
    f_equal. now apply (IH (p' :: rest') child).
Qed.

(** The assignment along a path above which no leaf sits returns; the path
    then reads the assigned value, and the paths apart from it read what
    they read before. *)
Lemma assignPath_reads (parts : list string) (val : Value) :
  forall current, parts <> [] -> noLeafAbove parts current ->
    exists updated,
      assignPath parts val current = Returns updated /\
      lookupPath parts updated = Some val /\
      (forall q, apart q parts = true -> lookupPath q updated = lookupPath q current).
Proof.
  induction parts as [|p rest IH]; intros current Hne Hno; [congruence|].
  destruct rest as [|p' rest'].
  - cbn [assignPath]. eexists. split; [reflexivity|]. split.
    + cbn [lookupPath]. apply getField_setField_same.
    + intros q Hq. destruct q as [|k q]; [discriminate Hq|].
      assert (Hk : k <> p).
      { intros ->. apply apart_not_prefix in Hq. destruct Hq as [_ Hq].
        cbn [isPrefix] in Hq. now rewrite String.eqb_refl in Hq. }
      destruct q as [|k' q']; [cbn [lookupPath]|rewrite !lookupPath_cons];
        now rewrite getField_setField_other.
  - set (child := match getField p current with
                  | Some (Object f) => f
                  | _ => []
                  end).
    assert (Hchild : noLeafAbove (p' :: rest') child).
    { intros r c Hr Hl. subst child.
      destruct (getField p current) as [[c'|f]|] eqn:Eg;
        try (rewrite lookupPath_nil in Hl; discriminate Hl).
      destruct r as [|k r]; [discriminate Hl|].
      assert (E : p :: k :: r = p :: p' :: rest').
      { apply (Hno (p :: k :: r) c).
        - cbn [isPrefix] in *. now rewrite String.eqb_refl.
        - rewrite lookupPath_cons, Eg. exact Hl. }
      congruence. }
    destruct (IH child ltac:(discriminate) Hchild) as (child' & Ha & Hr & Hq).
    assert (Hstep : assignPath (p :: p' :: rest') val current
                    = Returns (setField p (Object child') current)).
    { change (assignPath (p :: p' :: rest') val current)
        with (match getField p current with
              | Some (Object f) =>
                  bind (assignPath (p' :: rest') val f)
                       (fun child' => Returns (setField p (Object child') current))
              | Some (Leaf c) =>
                  if truthy c
                  then match c with
                       | composite _ => Unmodelled
                       | _ => Throws
                       end
                  else bind (assignPath (p' :: rest') val [])
                         (fun child' => Returns (setField p (Object child') current))
              | None =>
                  bind (assignPath (p' :: rest') val [])
                       (fun child' => Returns (setField p (Object child') current))
              end).
      subst child. destruct (getField p current) as [[c|f]|] eqn:Eg.
      - exfalso. assert (E : [p] = p :: p' :: rest').
        { apply (Hno [p] c); [cbn [isPrefix]; now rewrite String.eqb_refl|exact Eg]. }
        discriminate E.
      - now rewrite Ha.
      - now rewrite Ha. }
    exists (setField p (Object child') current). split; [exact Hstep|]. split.
    + rewrite lookupPath_cons, getField_setField_same. exact Hr.
    + intros q Hap. destruct q as [|k q]; [discriminate Hap|].
      destruct (String.eqb_spec k p) as [->|Hk].
      * rewrite apart_cons in Hap.
        destruct q as [|k' q']; [discriminate Hap|].
        rewrite !lookupPath_cons, getField_setField_same, (Hq _ Hap).
        subst child. destruct (getField p current) as [[c|f]|];
          try apply lookupPath_nil; reflexivity.
      * destruct q as [|k' q']; [cbn [lookupPath]|rewrite !lookupPath_cons];
          now rewrite getField_setField_other.
Qed.

Variable inherited : string -> bool.

Lemma assignColumns_reads (row : list Cell) (columns : list string) :
  forall i obj,
    prefixFree (map splitDots columns) = true ->
    existsb inherited (List.concat (map splitDots columns)) = false ->
    (forall col, In col columns -> noLeafAbove (splitDots col) obj) ->
    exists final,
      assignColumns inherited columns i row obj = Returns final /\
      (forall k col, nth_error columns k = Some col ->
         lookupPath (splitDots col) final
           = Some (Leaf (normalize (nth (i + k) row undefined)))) /\
      (forall q, (forall col, In col columns -> apart q (splitDots col) = true) ->
         lookupPath q final = lookupPath q obj).
Proof.
  induction columns as [|col r IH]; intros i obj Hfree Hown Hno.
  - exists obj. split; [reflexivity|]. split; [|reflexivity].
    intros [|k] c H; discriminate H.
  - cbn [map prefixFree] in Hfree. apply Bool.andb_true_iff in Hfree.
    destruct Hfree as [Hcol Hfree]. rewrite forallb_forall in Hcol.
    cbn [map List.concat] in Hown. rewrite existsb_app in Hown.
    apply Bool.orb_false_iff in Hown. destruct Hown as [Hown1 Hown2].
    destruct (assignPath_reads (splitDots col)
                (Leaf (normalize (nth i row undefined))) obj
                (splitDots_nonempty col) (Hno col (or_introl eq_refl)))
      as (obj1 & Ha & Hr & Hq).
    assert (Hno1 : forall c, In c r -> noLeafAbove (splitDots c) obj1).
    { intros c Hc x leaf Hx Hl.
      assert (Hap : apart (splitDots col) (splitDots c) = true)
        by (apply Hcol; now apply in_map).
      destruct (apart x (splitDots col)) eqn:Ex.
      - rewrite (Hq _ Ex) in Hl. apply (Hno c (or_intror Hc) x leaf Hx Hl).
      - exfalso. apply apart_not_prefix in Hap. destruct Hap as [Hap1 Hap2].
        apply not_apart in Ex. destruct Ex as [Ex|Ex].
        + rewrite (lookupPath_through _ _ _ _ _ Ex Hr Hl) in Hx. congruence.
        + rewrite (isPrefix_trans _ _ _ Ex Hx) in Hap1. discriminate Hap1. }
    destruct (IH (S i) obj1 Hfree Hown2 Hno1) as (final & Hf & Hreads & Hkeeps).
    exists final. split; [|split].
    + cbn [assignColumns]. cbv zeta. rewrite Hown1, Ha. exact Hf.
    + intros [|k] c Hk; cbn [nth_error] in Hk.
      * injection Hk as <-. rewrite Nat.add_0_r, <- Hr. apply Hkeeps.
        intros c Hc. apply Hcol. now apply in_map.
      * replace (i + S k)%nat with (S i + k)%nat by lia. now apply Hreads.
    + intros q Hap. rewrite <- (Hq q (Hap col (or_introl eq_refl))).
      apply Hkeeps. intros c Hc. apply Hap. now right.
Qed.

Lemma transformRows_reads (columns : list string) (rows : list (list Cell)) :
  prefixFree (map splitDots columns) = true ->
  existsb inherited (List.concat (map splitDots columns)) = false ->
  exists objs,
    transformRows inherited columns rows = Returns objs /\
    List.length objs = List.length rows /\
    forall n row i col,
      nth_error rows n = Some row -> nth_error columns i = Some col ->
      exists obj, nth_error objs n = Some obj /\
                  lookupPath (splitDots col) obj
                    = Some (Leaf (normalize (nth i row undefined))).
Proof.
  intros Hfree Hown. induction rows as [|row r IH].
  - exists []. split; [reflexivity|]. split; [reflexivity|].
    intros [|n] row i col H; discriminate H.
  - destruct IH as (objs & Ht & Hlen & Hreads).
    destruct (assignColumns_reads row columns 0 [] Hfree Hown) as (obj & Ha & Hr & _).
    { intros col _ x c _ Hl. rewrite lookupPath_nil in Hl. discriminate Hl. }
    exists (obj :: objs). split; [|split].
    + cbn [transformRows]. rewrite Ha. cbn [bind]. rewrite Ht. reflexivity.
    + cbn [List.length]. now rewrite Hlen.
    + intros [|n] row' i col Hn Hi; cbn [nth_error] in *.
      * injection Hn as <-. exists obj. split; [reflexivity|]. now apply (Hr i col).
      * now apply (Hreads n row' i col).
Qed.

End ColumnarFacts.

(** X28.  When no column name is, as a path of dot-separated parts, a prefix
    of another column's or equal to it, and no part names an inherited
    property, the transformation of a columnar result returns one object for
    each data row, and reading a column's path in a row's object gives the
    row's cell of that column, with the strings true and false turned into
    booleans and a missing cell read as undefined. *)
Theorem transformColumnarData_round_trip (inherited : string -> bool)
    (columns : list string) (rows : list (list Columnar.Cell)) :
  Columnar.prefixFree (map Columnar.splitDots columns) = true ->
  existsb inherited (List.concat (map Columnar.splitDots columns)) = false ->
  exists objs,
    transformColumnarData inherited
      (Some (Columnar.mkResponse
               (Some (Columnar.mkTable (Some columns) (Some rows)))))
      = Columnar.Returns objs /\
    List.length objs = List.length rows /\
    forall n row i col,
      nth_error rows n = Some row -> nth_error columns i = Some col ->
      exists obj,
        nth_error objs n = Some obj /\
        Columnar.lookupPath (Columnar.splitDots col) obj
          = Some (Columnar.Leaf (Columnar.normalize (nth i row Columnar.undefined))).
Proof.
  intros Hfree Hown. unfold transformColumnarData.
  cbn [Columnar.result Columnar.columns Columnar.data].
  now apply transformRows_reads.
Qed.

Lemma transformColumnarData_round_trip_witness :
  exists objs,
    transformColumnarData ownKeys (Some demoResponse) = Columnar.Returns objs /\
    List.length objs = 2%nat.
Proof.
  destruct (transformColumnarData_round_trip ownKeys
              ["campaign.name"; "campaign.networkSettings.targetContentNetwork";
               "metrics.clicks"]
              [ [Columnar.text "Brand"; Columnar.text "true"; Columnar.number 12];
                [Columnar.text "Generic"; Columnar.text "false"] ])
    as (objs & Ht & Hlen & _); [reflexivity|reflexivity|].
  exists objs. split; [exact Ht|exact Hlen].
Defined.

(** The objects of the two demo rows; the second row has no third cell. *)
Example transformColumnarData_demo :
  transformColumnarData ownKeys (Some demoResponse) =
  Columnar.Returns
    [ [ ("campaign",
         Columnar.Object
           [ ("name", Columnar.Leaf (Columnar.text "Brand"));
             ("networkSettings",
              Columnar.Object
                [("targetContentNetwork", Columnar.Leaf (Columnar.boolean true))]) ]);
        ("metrics", Columnar.Object [("clicks", Columnar.Leaf (Columnar.number 12))]) ];
      [ ("campaign",
         Columnar.Object
           [ ("name", Columnar.Leaf (Columnar.text "Generic"));
             ("networkSettings",
              Columnar.Object
                [("targetContentNetwork", Columnar.Leaf (Columnar.boolean false))]) ]);
        ("metrics", Columnar.Object [("clicks", Columnar.Leaf Columnar.undefined)]) ] ].
Proof. reflexivity. Qed.

(** A column below a column that holds a text: the assignment throws. *)
Example transformColumnarData_throws :
  transformColumnarData ownKeys
    (Some (Columnar.mkResponse
             (Some (Columnar.mkTable (Some ["campaign"; "campaign.name"])
                                     (Some [[Columnar.text "x"; Columnar.text "y"]])))))
  = Columnar.Throws.
Proof. reflexivity. Qed.
